(** * The PSP facade of payroll-engine, embedded in Rocq

    Source: [src/payroll_engine/psp/psp.py], the classes [PSP] and
    [AsyncPSP] with their result dataclasses and the two module-level helpers
    [_summarize_reasons] and [_reasons_contain_insufficient].

    Modelling decisions.
    - UUIDs are 128-bit numbers ([N]); [uuid4()] draws from an arbitrary
      stream [uuid_of] indexed by a counter kept in the system state.
    - A [Decimal] amount is a whole number ([Z]) of one decimal unit, fine
      enough for all the amounts at hand (minor currency units, say).
      Python adds two [Decimal]s in the default context: the exact sum,
      rounded half-even to 28 significant digits ([decimal_add]); which
      digits are significant does not depend on the unit.  NaN, infinities
      and the overflow trap of the context (beyond 10^999999) are not
      modelled.
    - [str] is [string].  [upper()] and [lower()] are modelled on ASCII text
      ([Str.is_ascii]), where they change the letters a-z and A-Z only;
      Python's case mappings of other characters are not modelled, and a
      theorem that depends on them assumes ASCII text.
    - A [dict] is a [gmap]: the provider registry, an item's metadata, a gate
      reason.  The callback payload is a record of the keys the facade
      reads; a key is missing, or holds JSON null where the code tells the
      two apart, or holds a value of the type the code expects.
    - The services the facade is wired to (funding gate, ledger, payment
      orchestrator, liability, the SQL lookup of an instruction) live outside
      [psp.py].  They are the methods of the class [Services], over an
      abstract world [W] (the database); every theorem holds for all of
      them.  They are taken at their declared return types: a call returns
      its result and a new world; a service that raises is not modelled.
    - Every call to a service and every emitted domain event is recorded, in
      program order, in the trace the facade monad [M] writes.
    - An [async def] body is its synchronous reading: the [await]s are
      sequenced in program order. *)

From stdpp Require Import gmap strings list.
From Stdlib Require Import ZArith Ascii.

Open Scope string_scope.
Open Scope list_scope.

Abbreviation UUID := N (only parsing).

(** ** Strings: the pieces of Python's [str] the facade uses *)

Module Str.

Definition upper_ascii (c : ascii) : ascii :=
  let n := nat_of_ascii c in
  if (97 <=? n)%nat && (n <=? 122)%nat then ascii_of_nat (n - 32) else c.

Definition lower_ascii (c : ascii) : ascii :=
  let n := nat_of_ascii c in
  if (65 <=? n)%nat && (n <=? 90)%nat then ascii_of_nat (n + 32) else c.

Fixpoint map_ascii (f : ascii -> ascii) (s : string) : string :=
  match s with
  | EmptyString => EmptyString
  | String c r => String (f c) (map_ascii f r)
  end.

(** ASCII text: every character is below 128. *)
Fixpoint is_ascii (s : string) : bool :=
  match s with
  | EmptyString => true
  | String c r => (nat_of_ascii c <? 128)%nat && is_ascii r
  end.

(** [s.upper()] and [s.lower()], for ASCII text. *)
Definition upper : string -> string := map_ascii upper_ascii.
Definition lower : string -> string := map_ascii lower_ascii.

(** [needle in hay] *)
Fixpoint contains (needle hay : string) : bool :=
  String.prefix needle hay ||
  match hay with
  | EmptyString => false
  | String _ r => contains needle r
  end.

(** [sep.join(parts)] *)
Fixpoint join (sep : string) (parts : list string) : string :=
  match parts with
  | [] => ""
  | [p] => p
  | p :: rest => p +:+ sep +:+ join sep rest
  end.

Definition hex_digit (d : N) : ascii :=
  if (d <? 10)%N then ascii_of_N (48 + d) else ascii_of_N (87 + d).

(** the [k] low hexadecimal digits of [n], most significant first *)
Fixpoint hex (k : nat) (n : N) : string :=
  match k with
  | O => ""
  | S k' => hex k' (n / 16)%N +:+ String (hex_digit (n mod 16)%N) ""
  end.

(** [str(u)] for a UUID: 8-4-4-4-12 lower-case hexadecimal digits *)
Definition of_uuid (u : UUID) : string :=
  hex 8 (N.shiftr u 96) +:+ "-" +:+ hex 4 (N.shiftr u 80) +:+ "-" +:+
  hex 4 (N.shiftr u 64) +:+ "-" +:+ hex 4 (N.shiftr u 48) +:+ "-" +:+ hex 12 u.

End Str.

(** ** Result types of the facade (psp.py, lines 73-201) *)

Inductive CommitStatus := APPROVED | BLOCKED_POLICY | BLOCKED_FUNDS | PARTIAL.

Inductive ExecuteStatus :=
  EXEC_SUCCESS | EXEC_PARTIAL | EXEC_FAILED | EXEC_BLOCKED.

Inductive CallbackStatus := PROCESSED | DUPLICATE | INVALID | UNKNOWN.

#[global] Instance CommitStatus_eq_dec : EqDecision CommitStatus.
Proof. solve_decision. Defined.
#[global] Instance ExecuteStatus_eq_dec : EqDecision ExecuteStatus.
Proof. solve_decision. Defined.
#[global] Instance CallbackStatus_eq_dec : EqDecision CallbackStatus.
Proof. solve_decision. Defined.

Record PayrollItem := {
  payee_type : string;
  payee_ref_id : UUID;
  amount : Z;
  purpose : string;
  metadata : gmap string UUID
}.

Record PayrollBatch := {
  batch_id : UUID;
  tenant_id : UUID;
  legal_entity_id : UUID;
  pay_period_id : UUID;
  funding_account_id : UUID;
  items : list PayrollItem;
  effective_date : nat;
  idempotency_key : string
}.

Record CommitResult := {
  commit_status : CommitStatus;
  commit_batch_id : UUID;
  reservation_id : option UUID;
  total_amount : Z;
  approved_count : nat;
  blocked_count : nat;
  block_reason : option string;
  commit_correlation_id : UUID
}.

(** An entry of [ExecuteResult.failures]: the one-key dict of the two early
    returns, or the three-key dict appended for an item that was not
    accepted. *)
Inductive Failure :=
| BatchFailure (error : string)
| ItemFailure (payee_ref_id : string) (amount : Z) (error : option string).

Record ExecuteResult := {
  exec_status : ExecuteStatus;
  exec_batch_id : UUID;
  submitted_count : nat;
  failed_count : nat;
  failures : list Failure;
  exec_correlation_id : UUID
}.

Record CallbackResult := {
  callback_status : CallbackStatus;
  payment_instruction_id : option UUID;
  previous_status : option string;
  new_status : option string;
  callback_correlation_id : UUID
}.

Record PSPConfig := {
  commit_gate_strict : bool;
  pay_gate_always_enforced : bool;
  reservation_ttl_hours : nat;
  default_rail : string;
  default_funding_model : string;
  emit_events : bool
}.

(** [PSPConfig()] *)
Definition default_config : PSPConfig := {|
  commit_gate_strict := false;
  pay_gate_always_enforced := true;
  reservation_ttl_hours := 24;
  default_rail := "ach";
  default_funding_model := "prefund_all";
  emit_events := true
|}.

(** ** Gate reasons (psp.py, lines 204-219) *)

(** A reason is a dict with the keys "code", "message", "severity", ... *)
Abbreviation Reason := (gmap string string) (only parsing).

Definition _summarize_reasons (reasons : list Reason) : string :=
  match reasons with
  | [] => "Unknown reason"
  | _ =>
      Str.join "; "
        (map (fun r : Reason =>
                default (default "Unknown" (r !! "code")) (r !! "message"))
             reasons)
  end.

Fixpoint _reasons_contain_insufficient (reasons : list Reason) : bool :=
  match reasons with
  | [] => false
  | r :: rest =>
      let code := default "" (r !! "code") in
      let message := default "" (r !! "message") in
      if Str.contains "INSUFFICIENT" (Str.upper code)
         || Str.contains "insufficient" (Str.lower message)
      then true
      else _reasons_contain_insufficient rest
  end.

(** ** What the services return *)

Record GateResult := {
  passed : bool;
  available_amount : Z;
  required_amount : Z;
  shortfall : Z;
  reasons : list Reason
}.

Record Balance := { posted : Z; reserved : Z; available : Z }.

Record InstructionResult := { instruction_id : UUID }.

Record SubmissionResult := {
  accepted : bool;
  attempt_id : option UUID;
  provider_request_id : option string;
  message : option string
}.

Record Classification := {
  error_origin : string;
  liability_party : string;
  recovery_path : option string;
  determination_reason : string
}.

(** A registered rail provider; the facade reads its class name only. *)
Record Provider := { class_name : string }.

(** The row [_find_instruction_by_provider_ref] selects. *)
Record InstructionRow := {
  row_instruction_id : UUID;
  row_status : string;
  row_amount : Z;
  row_legal_entity_id : UUID;
  row_purpose : string
}.

(** The keys of a callback payload that the facade reads.  [None] is a
    missing key.  For "status" and "return_reason", which the code reads with
    [payload.get(key, default)], a key that is there holds a string or JSON
    null ([Some None]): the default stands in for a missing key only.  For
    "provider_request_id" and "return_code", read with [payload.get(key)],
    null and a missing key are the same [None].  "amount", when there, holds
    a value that [Decimal(str(...))] accepts. *)
Record Payload := {
  payload_provider_request_id : option string;
  payload_status : option (option string);
  payload_return_code : option string;
  payload_return_reason : option (option string);
  payload_amount : option Z
}.

(** [payload.get(key, d)] for such a key. *)
Definition get_or (field : option (option string)) (d : string)
  : option string :=
  match field with
  | None => Some d
  | Some value => value
  end.

(** ** Domain events, with the fields the facade fills in *)

Record EventMetadata := {
  meta_tenant_id : UUID;
  meta_correlation_id : UUID;
  meta_source_service : string
}.

Inductive Event :=
| FundingRequested (metadata : EventMetadata)
    (funding_request_id legal_entity_id pay_period_id : UUID)
    (requested_amount : Z) (currency : string) (requested_date : nat)
| FundingInsufficientFunds (metadata : EventMetadata)
    (funding_request_id legal_entity_id : UUID)
    (requested_amount available_balance shortfall : Z)
    (gate_evaluation_id : UUID)
| FundingBlocked (metadata : EventMetadata)
    (funding_request_id legal_entity_id : UUID)
    (requested_amount available_balance : Z) (block_reason : string)
    (policy_violated : option string) (gate_evaluation_id : UUID)
| FundingApproved (metadata : EventMetadata)
    (funding_request_id legal_entity_id : UUID)
    (approved_amount available_balance : Z) (gate_evaluation_id : UUID)
| PaymentInstructionCreated (metadata : EventMetadata)
    (payment_instruction_id legal_entity_id : UUID)
    (purpose direction : string) (amount : Z) (currency payee_type : string)
    (payee_ref_id : UUID) (source_type : string) (source_id : UUID)
| PaymentSubmitted (metadata : EventMetadata)
    (payment_instruction_id payment_attempt_id : UUID)
    (rail provider provider_request_id : string)
| PaymentFailed (metadata : EventMetadata)
    (payment_instruction_id : UUID) (payment_attempt_id : option UUID)
    (provider failure_reason : string) (is_retryable : bool)
    (error_origin : string)
| PaymentReturned (metadata : EventMetadata)
    (payment_instruction_id settlement_event_id : UUID) (amount : Z)
    (return_code : string) (return_reason : option string)
    (return_date original_settlement_date : nat) (liability_party : string)
| LiabilityClassified (metadata : EventMetadata)
    (liability_event_id payment_instruction_id : UUID)
    (error_origin liability_party recovery_path : string) (amount : Z)
    (return_code : option string) (classification_reason : string)
| PaymentSettled (metadata : EventMetadata)
    (payment_instruction_id settlement_event_id : UUID) (amount : Z)
    (currency : string) (effective_date : nat) (external_trace_id : string).

(** ** Calls to the services, as the facade makes them *)

(** The three creation methods of the payment orchestrator, with their
    keyword arguments. *)
Inductive CreateRequest :=
| create_employee_net_instruction
    (tenant_id legal_entity_id employee_id pay_statement_id : UUID)
    (amount : Z) (idempotency_key : string) (metadata : gmap string UUID)
| create_tax_instruction
    (tenant_id legal_entity_id tax_agency_id tax_liability_id : UUID)
    (amount : Z) (idempotency_key : string) (metadata : gmap string UUID)
| create_third_party_instruction
    (tenant_id legal_entity_id provider_id obligation_id : UUID)
    (amount : Z) (idempotency_key : string) (metadata : gmap string UUID).

Inductive Call :=
| EvaluateCommitGate (tenant_id legal_entity_id pay_run_id : UUID)
    (funding_model idempotency_key : string) (strict : bool)
    (result : GateResult)
| EvaluatePayGate (tenant_id legal_entity_id pay_run_id : UUID)
    (idempotency_key : string) (result : GateResult)
| CreateReservation (tenant_id legal_entity_id : UUID) (reserve_type : string)
    (amount : Z) (source_type : string) (source_id correlation_id : UUID)
    (result : UUID)
| GetBalance (tenant_id ledger_account_id : UUID) (result : Balance)
| ReleaseReservation (tenant_id reservation_id : UUID) (consumed : bool)
| CreateInstruction (provider : Provider) (request : CreateRequest)
    (result : InstructionResult)
| Submit (provider : Provider) (tenant_id payment_instruction_id : UUID)
    (result : SubmissionResult)
| UpdateStatus (provider : Provider) (tenant_id payment_instruction_id : UUID)
    (new_status : option string) (provider_request_id : string)
| FindInstruction (tenant_id : UUID) (provider_request_id : string)
    (result : option InstructionRow)
| ClassifyReturn (rail return_code : string) (amount : Z) (context : Payload)
    (result : Classification)
| RecordLiabilityEvent (tenant_id legal_entity_id : UUID)
    (source_type : string) (source_id : UUID)
    (classification : Classification) (idempotency_key : string).

(** One step of a run of the facade. *)
Inductive Effect :=
| Called (c : Call)
| Emitted (e : Event).

(** The services behind the facade, over a world [W]. *)
Class Services (W : Type) := {
  uuid_of : nat -> UUID;
  today : W -> nat;
  evaluate_commit_gate :
    UUID -> UUID -> UUID -> string -> string -> bool -> W -> GateResult * W;
  evaluate_pay_gate : UUID -> UUID -> UUID -> string -> W -> GateResult * W;
  create_reservation :
    UUID -> UUID -> string -> Z -> string -> UUID -> UUID -> W -> UUID * W;
  get_balance : UUID -> UUID -> W -> Balance * W;
  release_reservation : UUID -> UUID -> bool -> W -> W;
  orchestrator_create : Provider -> CreateRequest -> W -> InstructionResult * W;
  orchestrator_submit : Provider -> UUID -> UUID -> W -> SubmissionResult * W;
  orchestrator_update_status :
    Provider -> UUID -> UUID -> option string -> string -> W -> W;
  find_instruction_row : UUID -> string -> W -> option InstructionRow;
  classify_return :
    string -> string -> Z -> Payload -> W -> Classification * W;
  record_liability_event :
    UUID -> UUID -> string -> UUID -> Classification -> string -> W -> W
}.

(** ** The facade monad: state passing over the world, writing the trace *)

Record Sys (W : Type) := { world : W; uuid_ix : nat }.
Arguments world {W} _.
Arguments uuid_ix {W} _.

Definition M (W A : Type) : Type := Sys W -> A * Sys W * list Effect.

Definition ret {W A} (a : A) : M W A := fun s => (a, s, []).

Definition bind {W A B} (m : M W A) (k : A -> M W B) : M W B :=
  fun s =>
    let '(a, s1, t1) := m s in
    let '(b, s2, t2) := k a s1 in
    (b, s2, t1 ++ t2).

Notation "'let*' x := m 'in' k" := (bind m (fun x => k))
  (at level 10, x name, m at level 100, k at level 200).
Notation "m ;; k" := (bind m (fun _ => k))
  (at level 100, k at level 200, right associativity).

(** Running a service method on the world and recording the call. *)
Definition service {W A} (f : W -> A * W) (c : A -> Call) : M W A :=
  fun s =>
    let '(a, w) := f (world s) in
    (a, {| world := w; uuid_ix := uuid_ix s |}, [Called (c a)]).

Definition service_ {W} (f : W -> W) (c : Call) : M W unit :=
  fun s => (tt, {| world := f (world s); uuid_ix := uuid_ix s |}, [Called c]).

Definition emit {W} (e : Event) : M W unit := fun s => (tt, s, [Emitted e]).

Definition trace_of {W A} (r : A * Sys W * list Effect) : list Effect := r.2.
Definition value_of {W A} (r : A * Sys W * list Effect) : A := r.1.1.
Definition sys_of {W A} (r : A * Sys W * list Effect) : Sys W := r.1.2.

(** The calls, and the events, of a trace, in order. *)
Definition calls (t : list Effect) : list Call :=
  omap (fun e => match e with Called c => Some c | Emitted _ => None end) t.

Definition events (t : list Effect) : list Event :=
  omap (fun e => match e with Emitted e => Some e | Called _ => None end) t.

(** ** The facade object: [self._config], [self._providers], [self._emitter] *)

(** [_emitter] is [true] when an event emitter was passed to the
    constructor, [false] when it is [None]. *)
Record Facade := {
  _config : PSPConfig;
  _providers : gmap string Provider;
  _emitter : bool
}.

(** [register_provider] *)
Definition register_provider (self : Facade) (name : string) (p : Provider)
  : Facade :=
  {| _config := _config self;
     _providers := <[name := p]> (_providers self);
     _emitter := _emitter self |}.

(** [o or d] for an optional string: [None] and the empty string are falsy *)
Definition or_str (o : option string) (d : string) : string :=
  match o with
  | Some s => if decide (s = "") then d else s
  | None => d
  end.

(** *** [Decimal] addition

    The default context of Python's [decimal]: precision 28, rounding
    ROUND_HALF_EVEN.  [a + b] is the exact sum rounded to 28 significant
    digits. *)

(** The least [k' >= k] with [n < 10 ^ (28 + k')], looked for in [fuel]
    steps: the number of digits of [n] beyond 28. *)
Fixpoint excess_digits (fuel : nat) (k n : Z) : Z :=
  match fuel with
  | O => k
  | S fuel' =>
      if (n <? 10 ^ (28 + k))%Z then k else excess_digits fuel' (k + 1)%Z n
  end.

(** [n / unit] rounded to the nearest integer, a tie going to the even one
    ([0 <= n], [0 < unit]). *)
Definition round_half_even (n unit : Z) : Z :=
  let q := (n / unit)%Z in
  let r := (n mod unit)%Z in
  if (2 * r <? unit)%Z then q
  else if (unit <? 2 * r)%Z then (q + 1)%Z
  else if Z.even q then q else (q + 1)%Z.

(** [x] rounded to 28 significant digits. *)
Definition round28 (x : Z) : Z :=
  let n := Z.abs x in
  let k := excess_digits (Z.to_nat (Z.log2_up n)) 0 n in
  (Z.sgn x * (round_half_even n (10 ^ k) * 10 ^ k))%Z.

Definition decimal_add (a b : Z) : Z := round28 (a + b).

(** [sum((item.amount for item in items), Decimal("0"))] *)
Definition sum_amounts (its : list PayrollItem) : Z :=
  fold_left (fun acc item => decimal_add acc (amount item)) its 0%Z.

(** [EventMetadata.create(tenant_id=..., correlation_id=...,
    source_service="psp.facade")] *)
Definition metadata_create (tenant correlation : UUID) : EventMetadata :=
  {| meta_tenant_id := tenant;
     meta_correlation_id := correlation;
     meta_source_service := "psp.facade" |}.

(** The idempotency key of an item (line 503):
    [f"{batch_id}:{item.payee_ref_id}:{item.purpose}"] *)
Definition item_key (batch : UUID) (item : PayrollItem) : string :=
  Str.of_uuid batch +:+ ":" +:+ Str.of_uuid (payee_ref_id item)
    +:+ ":" +:+ purpose item.

(** The running counts of the loop of [execute_payments]. *)
Record Tally := {
  tally_submitted : nat;
  tally_failed : nat;
  tally_failures : list Failure
}.

(** ** The methods both facades share

    [commit_payroll_batch], [execute_payments] and
    [handle_provider_callback] have the same body in [PSP] and in [AsyncPSP]
    (lines 288-608 and 785-955 against 1020-1299 and 1454-1601), up to
    [await].  [execute_payments] calls [self._create_instruction_for_item],
    which each class defines for itself: it is a variable here. *)

Module Common.
Section Methods.
Context {W : Type} `{Services W}.
Variable self : Facade.
Variable _create_instruction_for_item :
  Provider -> UUID -> UUID -> UUID -> PayrollItem -> string ->
  M W InstructionResult.

Definition uuid4 : M W UUID := fun s =>
  (uuid_of (uuid_ix s), {| world := world s; uuid_ix := S (uuid_ix s) |}, []).

(** [self._emitter and self._config.emit_events] *)
Definition emitting : bool := _emitter self && emit_events (_config self).

Definition commit_payroll_batch (batch : PayrollBatch) : M W CommitResult :=
  let* correlation_id := uuid4 in
  let total := sum_amounts (items batch) in
  (if emitting then
     emit (FundingRequested
             (metadata_create (tenant_id batch) correlation_id)
             (batch_id batch) (legal_entity_id batch) (pay_period_id batch)
             total "USD" (effective_date batch))
   else ret tt) ;;
  let key := "commit_gate:" +:+ idempotency_key batch in
  let* commit_result :=
    service
      (evaluate_commit_gate (tenant_id batch) (legal_entity_id batch)
         (pay_period_id batch) (default_funding_model (_config self)) key
         (commit_gate_strict (_config self)))
      (EvaluateCommitGate (tenant_id batch) (legal_entity_id batch)
         (pay_period_id batch) (default_funding_model (_config self)) key
         (commit_gate_strict (_config self))) in
  if negb (passed commit_result) then
    let* gate_evaluation_id := uuid4 in
    let reason_summary := _summarize_reasons (reasons commit_result) in
    let is_insufficient :=
      _reasons_contain_insufficient (reasons commit_result) in
    (if emitting then
       if is_insufficient then
         emit (FundingInsufficientFunds
                 (metadata_create (tenant_id batch) correlation_id)
                 (batch_id batch) (legal_entity_id batch) total
                 (available_amount commit_result) (shortfall commit_result)
                 gate_evaluation_id)
       else
         emit (FundingBlocked
                 (metadata_create (tenant_id batch) correlation_id)
                 (batch_id batch) (legal_entity_id batch) total
                 (available_amount commit_result) reason_summary
                 (match reasons commit_result with
                  | r :: _ => r !! "code"
                  | [] => None
                  end)
                 gate_evaluation_id)
     else ret tt) ;;
    let status :=
      if is_insufficient then BLOCKED_FUNDS else BLOCKED_POLICY in
    ret {| commit_status := status;
           commit_batch_id := batch_id batch;
           reservation_id := None;
           total_amount := total;
           approved_count := 0;
           blocked_count := length (items batch);
           block_reason := Some reason_summary;
           commit_correlation_id := correlation_id |}
  else
    let* reservation :=
      service
        (create_reservation (tenant_id batch) (legal_entity_id batch)
           "net_pay" total "payroll_batch" (batch_id batch) correlation_id)
        (CreateReservation (tenant_id batch) (legal_entity_id batch)
           "net_pay" total "payroll_batch" (batch_id batch) correlation_id) in
    (if emitting then
       let* balance :=
         service (get_balance (tenant_id batch) (funding_account_id batch))
           (GetBalance (tenant_id batch) (funding_account_id batch)) in
       let* gate_evaluation_id := uuid4 in
       emit (FundingApproved
               (metadata_create (tenant_id batch) correlation_id)
               (batch_id batch) (legal_entity_id batch) total
               (available balance) gate_evaluation_id)
     else ret tt) ;;
    ret {| commit_status := APPROVED;
           commit_batch_id := batch_id batch;
           reservation_id := Some reservation;
           total_amount := total;
           approved_count := length (items batch);
           blocked_count := 0;
           block_reason := None;
           commit_correlation_id := correlation_id |}.

(** The body of [for item in items] (lines 502-582). *)
Definition process_item (correlation_id : UUID) (rail : string)
    (provider : Provider) (tenant legal_entity batch : UUID)
    (acc : Tally) (item : PayrollItem) : M W Tally :=
  let key := item_key batch item in
  let* instr_result :=
    _create_instruction_for_item provider tenant legal_entity batch item key in
  (if emitting then
     emit (PaymentInstructionCreated (metadata_create tenant correlation_id)
             (instruction_id instr_result) legal_entity (purpose item)
             "outbound" (amount item) "USD" (payee_type item)
             (payee_ref_id item) "payroll_batch" batch)
   else ret tt) ;;
  let* submit_result :=
    service
      (orchestrator_submit provider tenant (instruction_id instr_result))
      (Submit provider tenant (instruction_id instr_result)) in
  if accepted submit_result then
    (if emitting then
       let* attempt :=
         match attempt_id submit_result with
         | Some a => ret a
         | None => uuid4
         end in
       emit (PaymentSubmitted (metadata_create tenant correlation_id)
               (instruction_id instr_result) attempt rail
               (class_name provider)
               (or_str (provider_request_id submit_result) ""))
     else ret tt) ;;
    ret {| tally_submitted := S (tally_submitted acc);
           tally_failed := tally_failed acc;
           tally_failures := tally_failures acc |}
  else
    (if emitting then
       emit (PaymentFailed (metadata_create tenant correlation_id)
               (instruction_id instr_result) (attempt_id submit_result)
               (class_name provider)
               (or_str (message submit_result) "Unknown error")
               false "provider")
     else ret tt) ;;
    ret {| tally_submitted := tally_submitted acc;
           tally_failed := S (tally_failed acc);
           tally_failures :=
             tally_failures acc ++
             [ItemFailure (Str.of_uuid (payee_ref_id item)) (amount item)
                (message submit_result)] |}.

Fixpoint process_items (correlation_id : UUID) (rail : string)
    (provider : Provider) (tenant legal_entity batch : UUID)
    (acc : Tally) (its : list PayrollItem) : M W Tally :=
  match its with
  | [] => ret acc
  | item :: rest =>
      let* acc' :=
        process_item correlation_id rail provider tenant legal_entity batch
          acc item in
      process_items correlation_id rail provider tenant legal_entity batch
        acc' rest
  end.

(** Lines 495-608: the loop, the reservation, the status. *)
Definition submit_all (correlation_id : UUID) (rail : string)
    (provider : Provider) (tenant legal_entity batch : UUID)
    (its : list PayrollItem) (reservation : option UUID)
  : M W ExecuteResult :=
  let* t :=
    process_items correlation_id rail provider tenant legal_entity batch
      {| tally_submitted := 0; tally_failed := 0; tally_failures := [] |}
      its in
  (match reservation with
   | Some r =>
       if decide (tally_failed t = 0) then
         service_ (release_reservation tenant r true)
           (ReleaseReservation tenant r true)
       else ret tt
   | None => ret tt
   end) ;;
  let status :=
    if decide (tally_failed t = 0) then EXEC_SUCCESS
    else if decide (tally_submitted t = 0) then EXEC_FAILED
    else EXEC_PARTIAL in
  ret {| exec_status := status;
         exec_batch_id := batch;
         submitted_count := tally_submitted t;
         failed_count := tally_failed t;
         failures := tally_failures t;
         exec_correlation_id := correlation_id |}.

Definition execute_payments (tenant legal_entity batch funding_account : UUID)
    (its : list PayrollItem) (reservation : option UUID)
    (rail : option string) : M W ExecuteResult :=
  let* correlation_id := uuid4 in
  let rail := or_str rail (default_rail (_config self)) in
  match _providers self !! rail with
  | None =>
      ret {| exec_status := EXEC_FAILED;
             exec_batch_id := batch;
             submitted_count := 0;
             failed_count := length its;
             failures :=
               [BatchFailure ("No provider registered for rail: " +:+ rail)];
             exec_correlation_id := correlation_id |}
  | Some provider =>
      if pay_gate_always_enforced (_config self) then
        let key := "pay_gate:" +:+ Str.of_uuid batch in
        let* pay_result :=
          service (evaluate_pay_gate tenant legal_entity batch key)
            (EvaluatePayGate tenant legal_entity batch key) in
        if negb (passed pay_result) then
          ret {| exec_status := EXEC_BLOCKED;
                 exec_batch_id := batch;
                 submitted_count := 0;
                 failed_count := length its;
                 failures :=
                   [BatchFailure (_summarize_reasons (reasons pay_result))];
                 exec_correlation_id := correlation_id |}
        else
          submit_all correlation_id rail provider tenant legal_entity batch
            its reservation
      else
        submit_all correlation_id rail provider tenant legal_entity batch
          its reservation
  end.

(** [_find_instruction_by_provider_ref]: the SQL query, a read of the
    world. *)
Definition _find_instruction_by_provider_ref (tenant : UUID)
    (request_id : string) : M W (option InstructionRow) :=
  service (fun w => (find_instruction_row tenant request_id w, w))
    (FindInstruction tenant request_id).

(** [date.today()] *)
Definition date_today : M W nat := fun s => (today (world s), s, []).

Definition handle_provider_callback (tenant : UUID)
    (provider_name callback_type : string) (payload : Payload)
  : M W CallbackResult :=
  let* correlation_id := uuid4 in
  let without_instruction status :=
    {| callback_status := status;
       payment_instruction_id := None;
       previous_status := None;
       new_status := None;
       callback_correlation_id := correlation_id |} in
  match _providers self !! provider_name with
  | None => ret (without_instruction INVALID)
  | Some provider =>
  match payload_provider_request_id payload with
  | None => ret (without_instruction INVALID)
  | Some request_id =>
  if decide (request_id = "") then ret (without_instruction INVALID) else
  let* found := _find_instruction_by_provider_ref tenant request_id in
  match found with
  | None => ret (without_instruction UNKNOWN)
  | Some instruction =>
  let previous := row_status instruction in
  let new := get_or (payload_status payload) previous in
  let instruction_id := row_instruction_id instruction in
  if decide (Some previous = new) then
    ret {| callback_status := DUPLICATE;
           payment_instruction_id := Some instruction_id;
           previous_status := Some previous;
           new_status := new;
           callback_correlation_id := correlation_id |}
  else
    (if decide (callback_type = "return" \/ new = Some "returned") then
       let return_code := payload_return_code payload in
       let return_reason := get_or (payload_return_reason payload) "Unknown" in
       let amount := default (row_amount instruction) (payload_amount payload) in
       let* classification :=
         service
           (classify_return (default_rail (_config self))
              (or_str return_code "UNKNOWN") amount payload)
           (ClassifyReturn (default_rail (_config self))
              (or_str return_code "UNKNOWN") amount payload) in
       let key :=
         "return:" +:+ request_id +:+ ":" +:+ default "None" return_code in
       service_
         (record_liability_event tenant (row_legal_entity_id instruction)
            "payment_instruction" instruction_id classification key)
         (RecordLiabilityEvent tenant (row_legal_entity_id instruction)
            "payment_instruction" instruction_id classification key) ;;
       if emitting then
         let* settlement_event_id := uuid4 in
         let* return_date := date_today in
         let* original_settlement_date := date_today in
         emit (PaymentReturned (metadata_create tenant correlation_id)
                 instruction_id settlement_event_id amount
                 (or_str return_code "UNKNOWN") return_reason
                 return_date original_settlement_date
                 (liability_party classification)) ;;
         let* liability_event_id := uuid4 in
         emit (LiabilityClassified (metadata_create tenant correlation_id)
                 liability_event_id instruction_id
                 (error_origin classification)
                 (liability_party classification)
                 (default "none" (recovery_path classification))
                 amount return_code
                 (determination_reason classification))
       else ret tt
     else if decide (callback_type = "settlement" \/ new = Some "settled")
     then
       let amount := default (row_amount instruction) (payload_amount payload) in
       if emitting then
         let* settlement_event_id := uuid4 in
         let* effective_date := date_today in
         emit (PaymentSettled (metadata_create tenant correlation_id)
                 instruction_id settlement_event_id amount "USD"
                 effective_date request_id)
       else ret tt
     else ret tt) ;;
    service_
      (orchestrator_update_status provider tenant instruction_id new
         request_id)
      (UpdateStatus provider tenant instruction_id new request_id) ;;
    ret {| callback_status := PROCESSED;
           payment_instruction_id := Some instruction_id;
           previous_status := Some previous;
           new_status := new;
           callback_correlation_id := correlation_id |}
  end end end.

End Methods.
End Common.

(** ** [class PSP] *)

Module PSP.
Section Methods.
Context {W : Type} `{Services W}.
Variable self : Facade.

(** [orchestrator.create_..._instruction(...)], on the orchestrator built
    over [provider] *)
Definition create (orchestrator : Provider) (request : CreateRequest)
  : M W InstructionResult :=
  service (orchestrator_create orchestrator request)
    (CreateInstruction orchestrator request).

(** Lines 610-661. *)
Definition _create_instruction_for_item (orchestrator : Provider)
    (tenant legal_entity batch : UUID) (item : PayrollItem) (key : string)
  : M W InstructionResult :=
  if decide (purpose item = "employee_net") then
    create orchestrator
      (create_employee_net_instruction tenant legal_entity
         (payee_ref_id item)
         (default batch (metadata item !! "pay_statement_id"))
         (amount item) key (metadata item))
  else if decide (purpose item = "tax_payment") then
    create orchestrator
      (create_tax_instruction tenant legal_entity
         (payee_ref_id item)
         (default batch (metadata item !! "tax_liability_id"))
         (amount item) key (metadata item))
  else if decide (purpose item = "vendor_payment") then
    create orchestrator
      (create_third_party_instruction tenant legal_entity
         (payee_ref_id item)
         (default batch (metadata item !! "obligation_id"))
         (amount item) key (metadata item))
  else
    create orchestrator
      (create_employee_net_instruction tenant legal_entity
         (payee_ref_id item)
         (default batch (metadata item !! "pay_statement_id"))
         (amount item) key (metadata item)).

Definition commit_payroll_batch : PayrollBatch -> M W CommitResult :=
  Common.commit_payroll_batch self.

Definition execute_payments :
  UUID -> UUID -> UUID -> UUID -> list PayrollItem -> option UUID ->
  option string -> M W ExecuteResult :=
  Common.execute_payments self _create_instruction_for_item.

Definition handle_provider_callback :
  UUID -> string -> string -> Payload -> M W CallbackResult :=
  Common.handle_provider_callback self.

End Methods.
End PSP.

(** ** [class AsyncPSP] *)

Module AsyncPSP.
Section Methods.
Context {W : Type} `{Services W}.
Variable self : Facade.

Definition create (orchestrator : Provider) (request : CreateRequest)
  : M W InstructionResult :=
  service (orchestrator_create orchestrator request)
    (CreateInstruction orchestrator request).

(** Lines 1301-1355: every branch calls
    [create_employee_net_instruction]. *)
Definition _create_instruction_for_item (orchestrator : Provider)
    (tenant legal_entity batch : UUID) (item : PayrollItem) (key : string)
  : M W InstructionResult :=
  if decide (purpose item = "employee_net") then
    create orchestrator
      (create_employee_net_instruction tenant legal_entity
         (payee_ref_id item)
         (default batch (metadata item !! "pay_statement_id"))
         (amount item) key (metadata item))
  else if decide (purpose item = "tax_payment") then
    create orchestrator
      (create_employee_net_instruction tenant legal_entity
         (payee_ref_id item)
         (default batch (metadata item !! "pay_statement_id"))
         (amount item) key (metadata item))
  else if decide (purpose item = "vendor_payment") then
    create orchestrator
      (create_employee_net_instruction tenant legal_entity
         (payee_ref_id item)
         (default batch (metadata item !! "pay_statement_id"))
         (amount item) key (metadata item))
  else
    create orchestrator
      (create_employee_net_instruction tenant legal_entity
         (payee_ref_id item)
         (default batch (metadata item !! "pay_statement_id"))
         (amount item) key (metadata item)).

Definition commit_payroll_batch : PayrollBatch -> M W CommitResult :=
  Common.commit_payroll_batch self.

Definition execute_payments :
  UUID -> UUID -> UUID -> UUID -> list PayrollItem -> option UUID ->
  option string -> M W ExecuteResult :=
  Common.execute_payments self _create_instruction_for_item.

Definition handle_provider_callback :
  UUID -> string -> string -> Payload -> M W CallbackResult :=
  Common.handle_provider_callback self.

End Methods.
End AsyncPSP.

(** ** An in-memory world, for running the facade on concrete inputs *)

Module Stub.

Record World := {
  commit_gate : GateResult;
  pay_gate : GateResult;
  next_id : N;
  reservations : list (UUID * Z * string);
  instructions : list InstructionRow;
  attempts : list (string * UUID)
}.

(** Modelled from the spec: the transition table of the instruction state
    machine (section 4.3), which [PaymentOrchestrator.update_status]
    enforces; the orchestrator is not part of [psp.py].  "Any other
    transition is rejected." *)
Definition legal_transition (from to : string) : bool :=
  if decide (from = "draft") then
    bool_decide (to = "submitted" \/ to = "failed" \/ to = "canceled")
  else if decide (from = "submitted") then
    bool_decide (to = "accepted" \/ to = "failed" \/ to = "canceled")
  else if decide (from = "accepted") then
    bool_decide (to = "settled" \/ to = "returned")
  else if decide (from = "settled") then
    bool_decide (to = "returned")
  else false.

Definition set_status (id : UUID) (status : string) (row : InstructionRow)
  : InstructionRow :=
  if decide (row_instruction_id row = id) then
    {| row_instruction_id := id;
       row_status := status;
       row_amount := row_amount row;
       row_legal_entity_id := row_legal_entity_id row;
       row_purpose := row_purpose row |}
  else row.

Definition lookup_row (id : UUID) (w : World) : option InstructionRow :=
  List.find (fun row => bool_decide (row_instruction_id row = id))
    (instructions w).

Definition with_instructions (rows : list InstructionRow)
    (atts : list (string * UUID)) (w : World) : World :=
  {| commit_gate := commit_gate w; pay_gate := pay_gate w;
     next_id := next_id w; reservations := reservations w;
     instructions := rows; attempts := atts |}.

Definition row_of_request (id : UUID) (request : CreateRequest)
  : InstructionRow :=
  match request with
  | create_employee_net_instruction _ le _ _ a _ _ =>
      {| row_instruction_id := id; row_status := "draft"; row_amount := a;
         row_legal_entity_id := le; row_purpose := "employee_net" |}
  | create_tax_instruction _ le _ _ a _ _ =>
      {| row_instruction_id := id; row_status := "draft"; row_amount := a;
         row_legal_entity_id := le; row_purpose := "tax_payment" |}
  | create_third_party_instruction _ le _ _ a _ _ =>
      {| row_instruction_id := id; row_status := "draft"; row_amount := a;
         row_legal_entity_id := le; row_purpose := "vendor_payment" |}
  end.

(** The ledger hands out a new reservation on every call. *)
Definition stub_create_reservation (amount : Z) (w : World) : UUID * World :=
  (next_id w,
   {| commit_gate := commit_gate w; pay_gate := pay_gate w;
      next_id := (next_id w + 1)%N;
      reservations := reservations w ++ [(next_id w, amount, "held")];
      instructions := instructions w; attempts := attempts w |}).

Definition stub_release (id : UUID) (consumed : bool) (w : World) : World :=
  {| commit_gate := commit_gate w; pay_gate := pay_gate w;
     next_id := next_id w;
     reservations :=
       map (fun r : UUID * Z * string =>
              if decide (r.1.1 = id)
              then (r.1.1, r.1.2, if consumed then "consumed" else "released")
              else r)
           (reservations w);
     instructions := instructions w; attempts := attempts w |}.

Definition stub_create (request : CreateRequest) (w : World)
  : InstructionResult * World :=
  ({| instruction_id := next_id w |},
   {| commit_gate := commit_gate w; pay_gate := pay_gate w;
      next_id := (next_id w + 1)%N; reservations := reservations w;
      instructions := instructions w ++ [row_of_request (next_id w) request];
      attempts := attempts w |}).

(** The stub rail accepts an instruction when its amount is positive. *)
Definition stub_submit (id : UUID) (w : World) : SubmissionResult * World :=
  match lookup_row id w with
  | Some row =>
      let ok := (0 <? row_amount row)%Z in
      let request_id := "req-" +:+ Str.of_uuid id in
      ({| accepted := ok;
          attempt_id := Some (next_id w);
          provider_request_id := Some request_id;
          message := if ok then None else Some "amount must be positive" |},
       {| commit_gate := commit_gate w; pay_gate := pay_gate w;
          next_id := (next_id w + 1)%N; reservations := reservations w;
          instructions :=
            map (set_status id (if ok then "accepted" else "failed"))
              (instructions w);
          attempts := attempts w ++ [(request_id, id)] |})
  | None =>
      ({| accepted := false; attempt_id := None;
          provider_request_id := None;
          message := Some "unknown instruction" |}, w)
  end.

Definition stub_update_status (id : UUID) (status : option string)
    (w : World) : World :=
  match lookup_row id w, status with
  | Some row, Some status =>
      if legal_transition (row_status row) status
      then with_instructions (map (set_status id status) (instructions w))
             (attempts w) w
      else w
  | _, _ => w
  end.

Definition stub_find (request_id : string) (w : World)
  : option InstructionRow :=
  match List.find (fun a : string * UUID => bool_decide (a.1 = request_id))
          (rev (attempts w)) with
  | Some a => lookup_row a.2 w
  | None => None
  end.

Definition stub_classification (return_code : string) : Classification :=
  {| error_origin := "unknown"; liability_party := "psp";
     recovery_path := Some "manual"; determination_reason := return_code |}.

#[export] Instance services : Services World := {|
  uuid_of := fun n => (1000 + N.of_nat n)%N;
  today := fun _ => 0;
  evaluate_commit_gate := fun _ _ _ _ _ _ w => (commit_gate w, w);
  evaluate_pay_gate := fun _ _ _ _ w => (pay_gate w, w);
  create_reservation := fun _ _ _ amount _ _ _ => stub_create_reservation amount;
  get_balance := fun _ _ w =>
    ({| posted := 0; reserved := 0; available := 0 |}, w);
  release_reservation := fun _ id consumed => stub_release id consumed;
  orchestrator_create := fun _ request => stub_create request;
  orchestrator_submit := fun _ _ id => stub_submit id;
  orchestrator_update_status := fun _ _ id status _ =>
    stub_update_status id status;
  find_instruction_row := fun _ request_id => stub_find request_id;
  classify_return := fun _ code _ _ w => (stub_classification code, w);
  record_liability_event := fun _ _ _ _ _ _ w => w
|}.

Definition gate_ok : GateResult :=
  {| passed := true; available_amount := 1000000; required_amount := 500000;
     shortfall := 0; reasons := [] |}.

Definition gate_insufficient : GateResult :=
  {| passed := false; available_amount := 300000; required_amount := 500000;
     shortfall := 200000;
     reasons :=
       [ {[ "code" := "INSUFFICIENT_FUNDS";
            "message" := "Available balance is below the required amount" ]} ]
  |}.

Definition gate_policy : GateResult :=
  {| passed := false; available_amount := 1000000; required_amount := 500000;
     shortfall := 0;
     reasons :=
       [ {[ "code" := "PAY_RUN_NOT_COMMITTED";
            "message" := "No approved commit gate for this pay run" ]} ] |}.

Definition world0 (cg pg : GateResult) : World :=
  {| commit_gate := cg; pay_gate := pg; next_id := 1;
     reservations := []; instructions := []; attempts := [] |}.

Definition start (w : World) : Sys World := {| world := w; uuid_ix := 0 |}.

Definition ach : Provider := {| class_name := "AchStubProvider" |}.

(** [PSP(session)]: default configuration, no provider, no emitter *)
Definition bare : Facade :=
  {| _config := default_config; _providers := ∅; _emitter := false |}.

(** [PSP(session, providers={"ach": ...}, event_emitter=...)] *)
Definition wired : Facade :=
  {| _config := default_config; _providers := {[ "ach" := ach ]};
     _emitter := true |}.

Definition item (payee : UUID) (amount : Z) (purpose : string)
  : PayrollItem :=
  {| payee_type := "employee"; payee_ref_id := payee; amount := amount;
     purpose := purpose; metadata := ∅ |}.

Definition batch (its : list PayrollItem) : PayrollBatch :=
  {| batch_id := 7; tenant_id := 1; legal_entity_id := 2;
     pay_period_id := 3; funding_account_id := 4; items := its;
     effective_date := 0; idempotency_key := "run-2024-01" |}.

(** [PSP(session, PSPConfig(pay_gate_always_enforced=False), ...)] *)
Definition unguarded : Facade :=
  {| _config :=
       {| commit_gate_strict := false;
          pay_gate_always_enforced := false;
          reservation_ttl_hours := 24;
          default_rail := "ach";
          default_funding_model := "prefund_all";
          emit_events := true |};
     _providers := {[ "ach" := ach ]};
     _emitter := true |}.

(** A world with one instruction, already returned, and its attempt. *)
Definition world_returned : World :=
  {| commit_gate := gate_ok; pay_gate := gate_ok; next_id := 2;
     reservations := [];
     instructions :=
       [ {| row_instruction_id := 1; row_status := "returned";
            row_amount := 100000; row_legal_entity_id := 2;
            row_purpose := "employee_net" |} ];
     attempts := [("req-1", 1%N)] |}.

(** The callback [{"provider_request_id": "req-1", "status": "settled"}] *)
Definition settled_payload : Payload :=
  {| payload_provider_request_id := Some "req-1";
     payload_status := Some (Some "settled");
     payload_return_code := None;
     payload_return_reason := None;
     payload_amount := None |}.

(** Two employee payments, of 4,000.00 and of 1,000.00. *)
Definition two_items : list PayrollItem :=
  [item 10 400000 "employee_net"; item 11 100000 "employee_net"].

End Stub.

(** ** Reading a trace *)

(** The reservations created: amount, source id and the id handed back. *)
Definition reservations_created (t : list Effect) : list (Z * UUID * UUID) :=
  omap (fun e => match e with
                 | Called (CreateReservation _ _ _ a _ src _ r) => Some (a, src, r)
                 | _ => None
                 end) t.

(** The reservations released: tenant, reservation, [consumed]. *)
Definition releases (t : list Effect) : list (UUID * UUID * bool) :=
  omap (fun e => match e with
                 | Called (ReleaseReservation tn r c) => Some (tn, r, c)
                 | _ => None
                 end) t.

(** What the provider answered to each submission, in order. *)
Definition submit_results (t : list Effect) : list SubmissionResult :=
  omap (fun e => match e with
                 | Called (Submit _ _ _ r) => Some r
                 | _ => None
                 end) t.

(** The creation requests sent to the orchestrator, in order. *)
Definition creations (t : list Effect) : list CreateRequest :=
  omap (fun e => match e with
                 | Called (CreateInstruction _ request _) => Some request
                 | _ => None
                 end) t.

(** The pay-gate evaluations: pay run and verdict. *)
Definition pay_gate_evaluations (t : list Effect) : list (UUID * bool) :=
  omap (fun e => match e with
                 | Called (EvaluatePayGate _ _ run _ g) => Some (run, passed g)
                 | _ => None
                 end) t.

(** The status updates sent to the orchestrator: instruction, new status. *)
Definition status_updates (t : list Effect)
  : list (UUID * option string) :=
  omap (fun e => match e with
                 | Called (UpdateStatus _ _ i st _) => Some (i, st)
                 | _ => None
                 end) t.

Definition is_funding_requested (e : Event) : bool :=
  match e with FundingRequested _ _ _ _ _ _ _ => true | _ => false end.

Definition is_funding_approved (e : Event) : bool :=
  match e with FundingApproved _ _ _ _ _ _ => true | _ => false end.

Definition is_funding_insufficient (e : Event) : bool :=
  match e with FundingInsufficientFunds _ _ _ _ _ _ _ => true | _ => false end.

Definition is_funding_blocked (e : Event) : bool :=
  match e with FundingBlocked _ _ _ _ _ _ _ _ => true | _ => false end.

Definition is_payment_settled (e : Event) : bool :=
  match e with PaymentSettled _ _ _ _ _ _ _ => true | _ => false end.

(** The sum of the amounts of a list of items. *)
Fixpoint amount_sum (its : list PayrollItem) : Z :=
  match its with
  | [] => 0
  | item :: rest => amount item + amount_sum rest
  end.

(** A reason that "indicates insufficient funds": its code, upper-cased,
    contains INSUFFICIENT, or its message, lower-cased, contains
    insufficient. *)
Definition indicates_insufficient (r : Reason) : Prop :=
  Str.contains "INSUFFICIENT" (Str.upper (default "" (r !! "code"))) = true \/
  Str.contains "insufficient" (Str.lower (default "" (r !! "message"))) = true.

(** The verdict the commit gate gives for a batch in a world. *)
Definition commit_gate_verdict {W} `{Services W} (self : Facade)
    (batch : PayrollBatch) (w : W) : GateResult :=
  (evaluate_commit_gate (tenant_id batch) (legal_entity_id batch)
     (pay_period_id batch) (default_funding_model (_config self))
     ("commit_gate:" +:+ idempotency_key batch)
     (commit_gate_strict (_config self)) w).1.

(** The verdict the pay gate gives for a pay run in a world. *)
Definition pay_gate_verdict {W} `{Services W}
    (tenant legal_entity batch : UUID) (w : W) : GateResult :=
  (evaluate_pay_gate tenant legal_entity batch
     ("pay_gate:" +:+ Str.of_uuid batch) w).1.

(** The rail [execute_payments] uses: [rail or self._config.default_rail]. *)
Definition rail_used (self : Facade) (rail : option string) : string :=
  or_str rail (default_rail (_config self)).

(** The failure entry of an item whose submission got the answer [r]. *)
Definition failure_of (item : PayrollItem) (r : SubmissionResult)
  : option Failure :=
  if accepted r then None
  else Some (ItemFailure (Str.of_uuid (payee_ref_id item)) (amount item)
               (message r)).

(** What the two [_create_instruction_for_item] have in common: one creation
    call on the orchestrator, of a request computed from the arguments. *)
Definition routes_by {W} `{Services W}
    (create : Provider -> UUID -> UUID -> UUID -> PayrollItem -> string ->
              M W InstructionResult)
    (route : UUID -> UUID -> UUID -> PayrollItem -> string -> CreateRequest)
  : Prop :=
  forall p tenant le batch item key,
    create p tenant le batch item key
    = PSP.create p (route tenant le batch item key).

(** The request [PSP._create_instruction_for_item] sends. *)
Definition route_sync (tenant le batch : UUID) (item : PayrollItem)
    (key : string) : CreateRequest :=
  if decide (purpose item = "tax_payment") then
    create_tax_instruction tenant le (payee_ref_id item)
      (default batch (metadata item !! "tax_liability_id"))
      (amount item) key (metadata item)
  else if decide (purpose item = "vendor_payment") then
    create_third_party_instruction tenant le (payee_ref_id item)
      (default batch (metadata item !! "obligation_id"))
      (amount item) key (metadata item)
  else
    create_employee_net_instruction tenant le (payee_ref_id item)
      (default batch (metadata item !! "pay_statement_id"))
      (amount item) key (metadata item).

(** The request [AsyncPSP._create_instruction_for_item] sends. *)
Definition route_async (tenant le batch : UUID) (item : PayrollItem)
    (key : string) : CreateRequest :=
  create_employee_net_instruction tenant le (payee_ref_id item)
    (default batch (metadata item !! "pay_statement_id"))
    (amount item) key (metadata item).


(** The rule of the pay gate, read off a run from the world [w]: a run that
    creates or submits anything starts with the evaluation of the pay gate
    for this pay run, which passed, and evaluates it once; a run with a
    provider and a failing pay gate is [blocked] and creates and submits
    nothing. *)
Definition gate_rule {W} `{Services W} (self : Facade)
    (tenant le batch : UUID) (rail : option string) (w : W)
    (out : ExecuteResult * Sys W * list Effect) : Prop :=
  let r := value_of out in
  let g := pay_gate_verdict tenant le batch w in
  (submit_results (trace_of out) <> [] \/ creations (trace_of out) <> [] ->
   passed g = true /\
   exists rest : list Effect,
     trace_of out
     = Called (EvaluatePayGate tenant le batch
                 ("pay_gate:" +:+ Str.of_uuid batch) g) :: rest /\
     pay_gate_evaluations rest = []) /\
  (is_Some (_providers self !! rail_used self rail) ->
   passed g = false ->
   exec_status r = EXEC_BLOCKED /\ submitted_count r = 0 /\
   submit_results (trace_of out) = [] /\ creations (trace_of out) = []).

(** ** More readings of a trace *)

(** The kinds of domain events. *)
Inductive EventKind :=
| KFundingRequested | KFundingInsufficientFunds | KFundingBlocked
| KFundingApproved | KPaymentInstructionCreated | KPaymentSubmitted
| KPaymentFailed | KPaymentReturned | KLiabilityClassified | KPaymentSettled.

Definition kind_of (e : Event) : EventKind :=
  match e with
  | FundingRequested _ _ _ _ _ _ _ => KFundingRequested
  | FundingInsufficientFunds _ _ _ _ _ _ _ => KFundingInsufficientFunds
  | FundingBlocked _ _ _ _ _ _ _ _ => KFundingBlocked
  | FundingApproved _ _ _ _ _ _ => KFundingApproved
  | PaymentInstructionCreated _ _ _ _ _ _ _ _ _ _ _ => KPaymentInstructionCreated
  | PaymentSubmitted _ _ _ _ _ _ => KPaymentSubmitted
  | PaymentFailed _ _ _ _ _ _ _ => KPaymentFailed
  | PaymentReturned _ _ _ _ _ _ _ _ _ => KPaymentReturned
  | LiabilityClassified _ _ _ _ _ _ _ _ _ => KLiabilityClassified
  | PaymentSettled _ _ _ _ _ _ _ => KPaymentSettled
  end.

(** The metadata of an event. *)
Definition event_metadata (e : Event) : EventMetadata :=
  match e with
  | FundingRequested m _ _ _ _ _ _ => m
  | FundingInsufficientFunds m _ _ _ _ _ _ => m
  | FundingBlocked m _ _ _ _ _ _ _ => m
  | FundingApproved m _ _ _ _ _ => m
  | PaymentInstructionCreated m _ _ _ _ _ _ _ _ _ _ => m
  | PaymentSubmitted m _ _ _ _ _ => m
  | PaymentFailed m _ _ _ _ _ _ => m
  | PaymentReturned m _ _ _ _ _ _ _ _ => m
  | LiabilityClassified m _ _ _ _ _ _ _ _ => m
  | PaymentSettled m _ _ _ _ _ _ => m
  end.

(** What the [PaymentInstructionCreated] events of a trace say of their
    items: purpose, amount, payee type and payee. *)
Definition created_items (t : list Effect)
  : list (string * Z * string * UUID) :=
  omap (fun e => match e with
                 | Emitted (PaymentInstructionCreated _ _ _ pu _ a _ pt pr _ _) =>
                     Some (pu, a, pt, pr)
                 | _ => None
                 end) t.

(** Calls that come in pairs: a creation on the orchestrator, then the
    submission of the instruction this creation returned, for the same
    provider and tenant. *)
Inductive paired (p : Provider) (tenant : UUID) : list Call -> Prop :=
| paired_nil : paired p tenant []
| paired_cons (request : CreateRequest) (r : InstructionResult)
    (a : SubmissionResult) (rest : list Call) :
    paired p tenant rest ->
    paired p tenant
      (CreateInstruction p request r
       :: Submit p tenant (instruction_id r) a :: rest).

(** The text [_summarize_reasons] takes from one reason. *)
Definition reason_text (r : Reason) : string :=
  default (default "Unknown" (r !! "code")) (r !! "message").

(** A call to the funding gate, the ledger's reservations or balance. *)
Definition is_funding_call (c : Call) : bool :=
  match c with
  | EvaluateCommitGate _ _ _ _ _ _ _ | CreateReservation _ _ _ _ _ _ _ _
  | GetBalance _ _ _ => true
  | _ => false
  end.

(** A call that changes what is stored about an instruction, a reservation
    or a liability. *)
Definition is_write_call (c : Call) : bool :=
  match c with
  | CreateReservation _ _ _ _ _ _ _ _ | ReleaseReservation _ _ _
  | CreateInstruction _ _ _ | Submit _ _ _ _ | UpdateStatus _ _ _ _ _
  | RecordLiabilityEvent _ _ _ _ _ _ => true
  | _ => false
  end.

(** The event kinds a list of answers gives rise to. *)
Definition answer_kinds (answers : list SubmissionResult) : list EventKind :=
  flat_map (fun a : SubmissionResult =>
              [KPaymentInstructionCreated;
               if accepted a then KPaymentSubmitted else KPaymentFailed])
    answers.

Definition item_fields (its : list PayrollItem)
  : list (string * Z * string * UUID) :=
  map (fun i => (purpose i, amount i, payee_type i, payee_ref_id i)) its.

(** The call that ends [execute_payments] when everything was accepted. *)
Definition release_call (tenant : UUID) (reservation : option UUID)
    (r : ExecuteResult) : list Call :=
  match reservation with
  | Some rid =>
      if decide (failed_count r = 0)
      then [ReleaseReservation tenant rid true] else []
  | None => []
  end.

(** The value of a hexadecimal digit, as [Str.hex_digit] writes it. *)
Definition hex_value (c : ascii) : N :=
  if (N_of_ascii c <? 58)%N then (N_of_ascii c - 48)%N
  else (N_of_ascii c - 87)%N.

(** The events one pass of the loop of [execute_payments] emits: the
    creation, then [last], the submission or the failure. *)
Definition item_events (self : Facade) (cid tenant le batch : UUID)
    (item : PayrollItem) (r : InstructionResult) (last : Event) : list Event :=
  if Common.emitting self then
    [PaymentInstructionCreated (metadata_create tenant cid)
       (instruction_id r) le (purpose item) "outbound" (amount item) "USD"
       (payee_type item) (payee_ref_id item) "payroll_batch" batch;
     last]
  else [].

(** The call that opens [execute_payments] when the pay gate is enforced. *)
Definition gate_call {W : Type} `{Services W} (self : Facade)
    (tenant le batch : UUID) (w : W) : list Call :=
  if pay_gate_always_enforced (_config self) then
    [EvaluatePayGate tenant le batch ("pay_gate:" +:+ Str.of_uuid batch)
       (pay_gate_verdict tenant le batch w)]
  else [].

(** The provider reference of a callback: the [provider_request_id] of the
    payload, when it is there and not empty. *)
Definition reference (payload : Payload) : option string :=
  match payload_provider_request_id payload with
  | Some q => if decide (q = "") then None else Some q
  | None => None
  end.

(** The status a callback asks for: [payload.get("status",
    previous_status)]; [None] when the payload holds ["status": null]. *)
Definition requested_status (row : InstructionRow) (payload : Payload)
  : option string :=
  get_or (payload_status payload) (row_status row).

(** ** Replaying a trace on the world

    A trace records every call with its arguments and with the answer it
    got.  [perform] makes a recorded call again, on a given world: it gives
    the call with the answer the service gives there, and the world the
    service leaves. *)

Definition perform {W : Type} `{Services W} (c : Call) (w : W) : Call * W :=
  match c with
  | EvaluateCommitGate tn le run model key strict _ =>
      let '(g, w') := evaluate_commit_gate tn le run model key strict w in
      (EvaluateCommitGate tn le run model key strict g, w')
  | EvaluatePayGate tn le run key _ =>
      let '(g, w') := evaluate_pay_gate tn le run key w in
      (EvaluatePayGate tn le run key g, w')
  | CreateReservation tn le kind a source_type source cid _ =>
      let '(r, w') :=
        create_reservation tn le kind a source_type source cid w in
      (CreateReservation tn le kind a source_type source cid r, w')
  | GetBalance tn account _ =>
      let '(b, w') := get_balance tn account w in
      (GetBalance tn account b, w')
  | ReleaseReservation tn r consumed =>
      (ReleaseReservation tn r consumed, release_reservation tn r consumed w)
  | CreateInstruction p request _ =>
      let '(r, w') := orchestrator_create p request w in
      (CreateInstruction p request r, w')
  | Submit p tn i _ =>
      let '(a, w') := orchestrator_submit p tn i w in
      (Submit p tn i a, w')
  | UpdateStatus p tn i status q =>
      (UpdateStatus p tn i status q,
       orchestrator_update_status p tn i status q w)
  | FindInstruction tn q _ =>
      (FindInstruction tn q (find_instruction_row tn q w), w)
  | ClassifyReturn rail code a context _ =>
      let '(c', w') := classify_return rail code a context w in
      (ClassifyReturn rail code a context c', w')
  | RecordLiabilityEvent tn le source_type source c' key =>
      (RecordLiabilityEvent tn le source_type source c' key,
       record_liability_event tn le source_type source c' key w)
  end.

Fixpoint replay {W : Type} `{Services W} (cs : list Call) (w : W)
  : list Call * W :=
  match cs with
  | [] => ([], w)
  | c :: rest =>
      let '(c', w1) := perform c w in
      let '(rest', w2) := replay rest w1 in
      (c' :: rest', w2)
  end.

(** The calls of the trace [t] were made on the services, one after the
    other from the world [w], got the answers the trace records, and left
    the world [w']: nothing is recorded that was not done, and nothing was
    done to the world that is not recorded. *)
Definition performed {W : Type} `{Services W} (t : list Effect) (w w' : W)
  : Prop :=
  replay (calls t) w = (calls t, w').

(** The same for a run of the facade from the state [s]. *)
Definition faithful {W : Type} `{Services W} {A : Type}
    (out : A * Sys W * list Effect) (s : Sys W) : Prop :=
  performed (trace_of out) (world s) (world (sys_of out)).

(** A computation of the facade all of whose runs are faithful. *)
Definition sound {W : Type} `{Services W} {A : Type} (m : M W A) : Prop :=
  forall s : Sys W, faithful (m s) s.

(** *** [commit_payroll_batch], step by step *)

(** The world the commit gate leaves. *)
Definition commit_gate_world {W : Type} `{Services W} (self : Facade)
    (batch : PayrollBatch) (w : W) : W :=
  (evaluate_commit_gate (tenant_id batch) (legal_entity_id batch)
     (pay_period_id batch) (default_funding_model (_config self))
     ("commit_gate:" +:+ idempotency_key batch)
     (commit_gate_strict (_config self)) w).2.

(** The reservation the ledger makes for a batch, with the correlation id
    [cid], in the world the commit gate left: its id and the world after. *)
Definition ledger_reservation {W : Type} `{Services W} (self : Facade)
    (batch : PayrollBatch) (cid : UUID) (w : W) : UUID * W :=
  create_reservation (tenant_id batch) (legal_entity_id batch) "net_pay"
    (sum_amounts (items batch)) "payroll_batch" (batch_id batch) cid
    (commit_gate_world self batch w).

(** The balance the ledger reports once the reservation is made. *)
Definition ledger_balance {W : Type} `{Services W} (self : Facade)
    (batch : PayrollBatch) (cid : UUID) (w : W) : Balance * W :=
  get_balance (tenant_id batch) (funding_account_id batch)
    (ledger_reservation self batch cid w).2.

(** The sums [sum] goes through: the amounts added one by one, exactly. *)
Fixpoint running_sums (acc : Z) (its : list PayrollItem) : list Z :=
  match its with
  | [] => []
  | item :: rest =>
      (acc + amount item)%Z :: running_sums (acc + amount item)%Z rest
  end.

(** No sum on the way needs more than 28 digits. *)
Definition within_precision (its : list PayrollItem) : Prop :=
  Forall (fun z => (Z.abs z < 10 ^ 28)%Z) (running_sums 0 its).

(** *** [execute_payments]: the reservation *)

(** The world the pay gate leaves, when it is asked. *)
Definition pay_gate_world {W : Type} `{Services W} (self : Facade)
    (tenant legal_entity batch : UUID) (w : W) : W :=
  if pay_gate_always_enforced (_config self) then
    (evaluate_pay_gate tenant legal_entity batch
       ("pay_gate:" +:+ Str.of_uuid batch) w).2
  else w.



(** ** [ingest_settlement_feed] (psp.py, lines 663-783 and 1357-1452) *)

Module Ingest.

Inductive IngestStatus := INGEST_SUCCESS | INGEST_PARTIAL | INGEST_FAILED.

(** A [SettlementRecord], with the fields the facade reads. *)
Record SettlementRecord := {
  record_external_trace_id : string;
  record_direction : string;
  record_amount : Z;
  record_currency : string;
  record_status : string;
  record_effective_date : option nat
}.

(** What [run_reconciliation] returns. *)
Record ReconciliationResult := {
  records_processed : nat;
  records_matched : nat;
  records_created : nat;
  records_failed : nat;
  errors : list (gmap string string)
}.

Record IngestResult := {
  ingest_status : IngestStatus;
  ingest_processed : nat;
  ingest_matched : nat;
  ingest_created : nat;
  ingest_failed : nat;
  unmatched_trace_ids : list string;
  ingest_correlation_id : UUID
}.

Inductive IngestEvent :=
| ReconciliationStarted (metadata : EventMetadata) (reconciliation_id : UUID)
    (reconciliation_date : nat) (bank_account_id : UUID) (provider : string)
| SettlementReceived (metadata : EventMetadata)
    (settlement_event_id bank_account_id : UUID) (rail direction : string)
    (amount : Z) (currency external_trace_id : string) (effective_date : nat)
    (status : string)
| ReconciliationCompleted (metadata : EventMetadata) (reconciliation_id : UUID)
    (reconciliation_date : nat)
    (processed matched created failed unmatched_count : nat).

Inductive IngestEffect :=
| Reconciled (provider : Provider) (bank_account_id : UUID)
    (reconciliation_date : nat) (tenant_id : UUID)
    (result : ReconciliationResult)
| IngestEmitted (e : IngestEvent).

(** [ReconciliationService(session, ledger, provider,
    bank_account_id).run_reconciliation(reconciliation_date, tenant_id)];
    the service is not part of [psp.py]. *)
Class Reconciler (W : Type) := {
  run_reconciliation :
    Provider -> UUID -> nat -> UUID -> W -> ReconciliationResult * W
}.

Section Methods.
Context {W : Type} `{Services W} `{Reconciler W}.
Variable self : Facade.

(** The loop [for record in records] (lines 726-743): one
    [SettlementReceived] per record, each with a new [uuid4()]. *)
Fixpoint emit_settlements (tenant correlation_id bank : UUID) (date : nat)
    (ix : nat) (records : list SettlementRecord) : list IngestEvent :=
  match records with
  | [] => []
  | record :: rest =>
      SettlementReceived (metadata_create tenant correlation_id)
        (uuid_of ix) bank (default_rail (_config self))
        (record_direction record) (record_amount record)
        (record_currency record) (record_external_trace_id record)
        (default date (record_effective_date record))
        (record_status record)
      :: emit_settlements tenant correlation_id bank date (S ix) rest
  end.

(** [[e.get("trace_id", "") for e in result.errors if e.get("trace_id")]] *)
Definition trace_ids_of (errs : list (gmap string string)) : list string :=
  omap (fun e : gmap string string =>
          match e !! "trace_id" with
          | Some t => if decide (t = "") then None else Some t
          | None => None
          end) errs.

Definition ingest_settlement_feed (tenant bank : UUID)
    (provider_name : string) (records : list SettlementRecord) (s : Sys W)
  : IngestResult * Sys W * list IngestEffect :=
  let correlation_id := uuid_of (uuid_ix s) in
  match _providers self !! provider_name with
  | None =>
      ({| ingest_status := INGEST_FAILED;
          ingest_processed := 0; ingest_matched := 0;
          ingest_created := 0; ingest_failed := 0;
          unmatched_trace_ids := [];
          ingest_correlation_id := correlation_id |},
       {| world := world s; uuid_ix := S (uuid_ix s) |}, [])
  | Some provider =>
      let started :=
        if Common.emitting self then
          [IngestEmitted
             (ReconciliationStarted (metadata_create tenant correlation_id)
                correlation_id (today (world s)) bank provider_name)]
        else [] in
      let '(result, w) :=
        run_reconciliation provider bank (today (world s)) tenant (world s) in
      let reconciled :=
        [Reconciled provider bank (today (world s)) tenant result] in
      let emitted :=
        if Common.emitting self then
          map IngestEmitted
            (emit_settlements tenant correlation_id bank (today w)
               (S (uuid_ix s)) records
             ++ [ReconciliationCompleted
                   (metadata_create tenant correlation_id) correlation_id
                   (today w) (records_processed result)
                   (records_matched result) (records_created result)
                   (records_failed result) (length (errors result))])
        else [] in
      let status :=
        if decide (records_failed result = 0 /\ length (errors result) = 0)
        then INGEST_SUCCESS
        else if decide (records_failed result < records_processed result)
        then INGEST_PARTIAL
        else INGEST_FAILED in
      ({| ingest_status := status;
          ingest_processed := records_processed result;
          ingest_matched := records_matched result;
          ingest_created := records_created result;
          ingest_failed := records_failed result;
          unmatched_trace_ids := trace_ids_of (errors result);
          ingest_correlation_id := correlation_id |},
       {| world := w;
          uuid_ix :=
            if Common.emitting self
            then S (uuid_ix s) + length records else S (uuid_ix s) |},
       started ++ reconciled ++ emitted)
  end.

End Methods.

(** The events of a trace of [ingest_settlement_feed], in order. *)
Definition ingest_events (t : list IngestEffect) : list IngestEvent :=
  omap (fun e => match e with IngestEmitted e => Some e | _ => None end) t.

(** The records a trace reports as received: trace id, direction, amount,
    currency, status. *)
Definition received (t : list IngestEffect)
  : list (string * string * Z * string * string) :=
  omap (fun e => match e with
                 | IngestEmitted (SettlementReceived _ _ _ _ d a c x _ st) =>
                     Some (x, d, a, c, st)
                 | _ => None
                 end) t.

(** The reconciliations a trace ran: provider, bank account, date, tenant
    and what came back. *)
Definition reconciliations (t : list IngestEffect)
  : list (Provider * UUID * nat * UUID * ReconciliationResult) :=
  omap (fun e => match e with
                 | Reconciled p b d tn res => Some (p, b, d, tn, res)
                 | _ => None
                 end) t.

End Ingest.


(** ** More inputs for concrete runs *)

Module Samples.

(** A reconciliation over the in-memory world: every attempt is a record;
    one whose instruction is known is matched, the others are reported as
    errors with their trace id. *)
Definition reconcile (w : Stub.World) : Ingest.ReconciliationResult :=
  let known :=
    List.filter (fun a : string * UUID =>
                   bool_decide (is_Some (Stub.lookup_row a.2 w)))
      (Stub.attempts w) in
  let unknown :=
    List.filter (fun a : string * UUID =>
                   negb (bool_decide (is_Some (Stub.lookup_row a.2 w))))
      (Stub.attempts w) in
  {| Ingest.records_processed := length (Stub.attempts w);
     Ingest.records_matched := length known;
     Ingest.records_created := 0;
     Ingest.records_failed := 0;
     Ingest.errors :=
       map (fun a : string * UUID =>
              {[ "trace_id" := a.1;
                 "message" := "no instruction for this trace" ]})
         unknown |}.

#[export] Instance reconciler : Ingest.Reconciler Stub.World := {|
  Ingest.run_reconciliation := fun _ _ _ _ w => (reconcile w, w)
|}.

(** A world with one settled instruction and its attempt. *)
Definition world_settled : Stub.World :=
  {| Stub.commit_gate := Stub.gate_ok; Stub.pay_gate := Stub.gate_ok;
     Stub.next_id := 2; Stub.reservations := [];
     Stub.instructions :=
       [ {| row_instruction_id := 1; row_status := "settled";
            row_amount := 100000; row_legal_entity_id := 2;
            row_purpose := "employee_net" |} ];
     Stub.attempts := [("req-1", 1%N)] |}.

(** The same, with a second attempt that belongs to no instruction. *)
Definition world_unmatched : Stub.World :=
  {| Stub.commit_gate := Stub.gate_ok; Stub.pay_gate := Stub.gate_ok;
     Stub.next_id := 2; Stub.reservations := [];
     Stub.instructions := Stub.instructions world_settled;
     Stub.attempts := [("req-1", 1%N); ("req-9", 9%N)] |}.

(** A world with one submitted instruction and its attempt. *)
Definition world_submitted : Stub.World :=
  {| Stub.commit_gate := Stub.gate_ok; Stub.pay_gate := Stub.gate_ok;
     Stub.next_id := 2; Stub.reservations := [];
     Stub.instructions :=
       [ {| row_instruction_id := 1; row_status := "submitted";
            row_amount := 100000; row_legal_entity_id := 2;
            row_purpose := "employee_net" |} ];
     Stub.attempts := [("req-1", 1%N)] |}.

(** [{"provider_request_id": "req-1", "status": "returned",
    "return_code": "R01", "return_reason": "Insufficient funds"}] *)
Definition returned_payload : Payload :=
  {| payload_provider_request_id := Some "req-1";
     payload_status := Some (Some "returned");
     payload_return_code := Some "R01";
     payload_return_reason := Some (Some "Insufficient funds");
     payload_amount := None |}.

(** [{"provider_request_id": "req-1", "status": "accepted"}] *)
Definition accepted_payload : Payload :=
  {| payload_provider_request_id := Some "req-1";
     payload_status := Some (Some "accepted");
     payload_return_code := None;
     payload_return_reason := None;
     payload_amount := None |}.

(** [{"provider_request_id": "req-1", "status": null}] *)
Definition null_payload : Payload :=
  {| payload_provider_request_id := Some "req-1";
     payload_status := Some None;
     payload_return_code := None;
     payload_return_reason := None;
     payload_amount := None |}.

(** One payment of 29 digits: 10^28 + 1 minor units. *)
Definition huge_items : list PayrollItem :=
  [Stub.item 10 10000000000000000000000000001 "employee_net"].

Definition record (trace : string) (amount : Z) : Ingest.SettlementRecord :=
  {| Ingest.record_external_trace_id := trace;
     Ingest.record_direction := "outbound";
     Ingest.record_amount := amount;
     Ingest.record_currency := "USD";
     Ingest.record_status := "success";
     Ingest.record_effective_date := None |}.

End Samples.

(** * Theorems *)

Section Proofs.
Context {W : Type} `{Services W}.

(** *** [Decimal] sums *)

(** [excess_digits] has fuel enough: it finds the number of digits beyond
    28, which is 0 up to 28 digits and otherwise leaves exactly 28. *)
Lemma excess_digits_spec (fuel : nat) :
  forall k n : Z,
  (0 <= k)%Z -> (n < 10 ^ (28 + k + Z.of_nat fuel))%Z ->
  let r := excess_digits fuel k n in
  (k <= r)%Z /\ (n < 10 ^ (28 + r))%Z /\
  (r = k \/ (10 ^ (28 + r - 1) <= n)%Z).
Proof.
  induction fuel as [|fuel IH]; intros k n Hk Hn; cbn [excess_digits].
  - cbn zeta. rewrite Z.add_0_r in Hn. lia.
  - destruct (n <? 10 ^ (28 + k))%Z eqn:E.
    + apply Z.ltb_lt in E. cbn zeta. lia.
    + apply Z.ltb_ge in E.
      destruct (IH (k + 1)%Z n) as (I1 & I2 & I3); [lia| |].
      { replace (28 + (k + 1) + Z.of_nat fuel)%Z
          with (28 + k + Z.of_nat (S fuel))%Z by lia. exact Hn. }
      cbn zeta. split; [lia|]. split; [exact I2|]. right.
      destruct I3 as [->|I3]; [|exact I3].
      replace (28 + (k + 1) - 1)%Z with (28 + k)%Z by lia. exact E.
Qed.

Lemma log2_up_fuel (n : Z) :
  (0 <= n)%Z -> (n < 10 ^ (28 + 0 + Z.of_nat (Z.to_nat (Z.log2_up n))))%Z.
Proof.
  intros Hn. rewrite Z2Nat.id by apply Z.log2_up_nonneg.
  pose proof (Z.log2_up_nonneg n) as Hl.
  destruct (Z.le_gt_cases n 1) as [Hs|Hb].
  - assert (1 < 10 ^ (28 + 0 + Z.log2_up n))%Z; [|lia].
    apply Z.pow_gt_1; lia.
  - destruct (Z.log2_up_spec n Hb) as [_ Hup].
    eapply Z.le_lt_trans; [exact Hup|].
    eapply Z.le_lt_trans; [apply (Z.pow_le_mono_l 2 10); lia|].
    apply Z.pow_lt_mono_r; lia.
Qed.

(** Up to 28 digits nothing is rounded. *)
Lemma round28_exact (x : Z) : (Z.abs x < 10 ^ 28)%Z -> round28 x = x.
Proof.
  intros Hx. unfold round28.
  destruct (excess_digits_spec (Z.to_nat (Z.log2_up (Z.abs x))) 0 (Z.abs x))
    as (H0 & _ & Hk); [lia | apply log2_up_fuel; lia |].
  cbn zeta in H0, Hk.
  set (k := excess_digits _ 0 (Z.abs x)) in *.
  assert (Hzero : k = 0%Z).
  { destruct Hk as [Hk|Hk]; [exact Hk|].
    destruct (Z.eq_dec k 0) as [E|E]; [exact E|]. exfalso.
    assert (10 ^ 28 <= 10 ^ (28 + k - 1))%Z by (apply Z.pow_le_mono_r; lia).
    lia. }
  rewrite Hzero. unfold round_half_even.
  rewrite Z.pow_0_r, Z.div_1_r, Z.mod_1_r.
  change (2 * 0 <? 1)%Z with true. cbv iota zeta.
  rewrite Z.mul_1_r, Z.mul_comm. apply Z.abs_sgn.
Qed.

Lemma sum_amounts_from (its : list PayrollItem) :
  forall z : Z,
  Forall (fun z => (Z.abs z < 10 ^ 28)%Z) (running_sums z its) ->
  fold_left (fun acc item => decimal_add acc (amount item)) its z
  = (z + amount_sum its)%Z.
Proof.
  induction its as [|i its IH]; intros z Hall; cbn.
  - lia.
  - cbn in Hall. apply Forall_cons in Hall as [Hi Hrest].
    unfold decimal_add at 2. rewrite round28_exact by exact Hi.
    rewrite IH by exact Hrest. lia.
Qed.

(** The [Decimal] sum is the exact sum as long as no sum on the way needs
    more than 28 digits. *)
Lemma sum_amounts_sum (its : list PayrollItem) :
  within_precision its -> sum_amounts its = amount_sum its.
Proof.
  intros Hall. unfold sum_amounts. rewrite sum_amounts_from by exact Hall. lia.
Qed.

Lemma reasons_contain_insufficient_iff (rs : list Reason) :
  _reasons_contain_insufficient rs = true <->
  Exists indicates_insufficient rs.
Proof.
  induction rs as [|r rs IH]; cbn.
  - split; [discriminate | intros Hx; inversion Hx].
  - rewrite Exists_cons, <- IH. unfold indicates_insufficient.
    destruct (Str.contains "INSUFFICIENT" _); cbn; [tauto|].
    destruct (Str.contains "insufficient" _); cbn; [tauto|].
    split; [tauto | intros [[?|?]|?]; done].
Qed.


(** *** Laws of the facade monad *)

Lemma value_of_bind {A B} (m : M W A) (k : A -> M W B) (s : Sys W) :
  value_of (bind m k s) = value_of (k (value_of (m s)) (sys_of (m s))).
Proof.
  unfold bind, value_of, sys_of.
  destruct (m s) as [[a s1] t1]; cbn. by destruct (k a s1) as [[b s2] t2].
Qed.

Lemma sys_of_bind {A B} (m : M W A) (k : A -> M W B) (s : Sys W) :
  sys_of (bind m k s) = sys_of (k (value_of (m s)) (sys_of (m s))).
Proof.
  unfold bind, value_of, sys_of.
  destruct (m s) as [[a s1] t1]; cbn. by destruct (k a s1) as [[b s2] t2].
Qed.

Lemma trace_of_bind {A B} (m : M W A) (k : A -> M W B) (s : Sys W) :
  trace_of (bind m k s)
  = trace_of (m s) ++ trace_of (k (value_of (m s)) (sys_of (m s))).
Proof.
  unfold bind, value_of, sys_of, trace_of.
  destruct (m s) as [[a s1] t1]; cbn. by destruct (k a s1) as [[b s2] t2].
Qed.

(** *** Runs are faithful to the world *)

Lemma replay_app (a b : list Call) (w : W) :
  replay (a ++ b) w
  = ((replay a w).1 ++ (replay b (replay a w).2).1,
     (replay b (replay a w).2).2).
Proof.
  revert w. induction a as [|c a IH]; intros w; cbn.
  - by destruct (replay b w).
  - destruct (perform c w) as [c' w1]. rewrite IH.
    destruct (replay a w1) as [a' w2]. cbn.
    by destruct (replay b w2).
Qed.


Lemma performed_app (t1 t2 : list Effect) (w w1 w2 : W) :
  performed t1 w w1 -> performed t2 w1 w2 -> performed (t1 ++ t2) w w2.
Proof.
  unfold performed, calls. intros H1 H2.
  rewrite omap_app, replay_app, H1. cbn. by rewrite H2.
Qed.


Lemma sound_ret {A} (a : A) : sound (ret (W := W) a).
Proof. intros s. reflexivity. Qed.

Lemma sound_emit (e : Event) : sound (emit (W := W) e).
Proof. intros s. reflexivity. Qed.

Lemma sound_uuid4 : sound (Common.uuid4 (W := W)).
Proof. intros s. reflexivity. Qed.

Lemma sound_date_today : sound (Common.date_today (W := W)).
Proof. intros s. reflexivity. Qed.

Lemma sound_bind {A B} (m : M W A) (k : A -> M W B) :
  sound m -> (forall a, sound (k a)) -> sound (bind m k).
Proof.
  intros Hm Hk s. unfold faithful.
  rewrite trace_of_bind, sys_of_bind.
  eapply performed_app; [apply Hm | apply Hk].
Qed.

Lemma sound_service {A} (f : W -> A * W) (c : A -> Call) :
  (forall w, perform (c (f w).1) w = (c (f w).1, (f w).2)) ->
  sound (service f c).
Proof.
  intros Hc s. unfold faithful, performed, service, trace_of, sys_of.
  specialize (Hc (world s)). destruct (f (world s)) as [a w]. cbn in *.
  by rewrite Hc.
Qed.

Lemma sound_service_ (f : W -> W) (c : Call) :
  (forall w, perform c w = (c, f w)) -> sound (service_ f c).
Proof.
  intros Hc s. unfold faithful, performed, service_, trace_of, sys_of. cbn.
  by rewrite Hc.
Qed.

Ltac sound_call :=
  let w := fresh "w" in
  intros w; cbn;
  try match goal with
      | |- context [let '(_, _) := ?e in _] => destruct e
      end;
  reflexivity.

Ltac sound_step :=
  first
    [ apply sound_ret | apply sound_emit | apply sound_uuid4
    | apply sound_date_today
    | apply sound_service; sound_call
    | apply sound_service_; sound_call
    | apply sound_bind; [|intros ?]
    | match goal with
      | |- sound (if ?b then _ else _) => destruct b
      | |- sound (match ?x with _ => _ end) => destruct x
      end ].

Lemma commit_sound (self : Facade) (batch : PayrollBatch) :
  sound (Common.commit_payroll_batch self batch).
Proof. unfold Common.commit_payroll_batch. repeat sound_step. Qed.

Lemma callback_sound (self : Facade) (tenant : UUID)
    (provider_name callback_type : string) (payload : Payload) :
  sound (Common.handle_provider_callback self tenant provider_name
           callback_type payload).
Proof.
  unfold Common.handle_provider_callback,
    Common._find_instruction_by_provider_ref.
  repeat sound_step.
Qed.

(** *** [commit_payroll_batch] *)

Ltac unfold_commit :=
  unfold PSP.commit_payroll_batch, AsyncPSP.commit_payroll_batch,
    Common.commit_payroll_batch, commit_gate_verdict in *;
  unfold bind, service, service_, emit, ret, Common.uuid4,
    trace_of, value_of, sys_of in *;
  cbn in *.

Ltac split_runs :=
  repeat (cbn in *;
    match goal with
    | |- context [Common.emitting ?f] =>
        destruct (Common.emitting f) eqn:?
    | |- context [evaluate_commit_gate ?a ?b ?c ?d ?e ?f ?w] =>
        destruct (evaluate_commit_gate a b c d e f w) as [? ?] eqn:?
    | |- context [create_reservation ?a ?b ?c ?d ?e ?f ?g ?w] =>
        destruct (create_reservation a b c d e f g w) as [? ?] eqn:?
    | |- context [get_balance ?a ?b ?w] =>
        destruct (get_balance a b w) as [? ?] eqn:?
    | |- context [if negb (passed ?g) then _ else _] =>
        destruct (passed g) eqn:?
    | |- context [if _reasons_contain_insufficient ?r then _ else _] =>
        destruct (_reasons_contain_insufficient r) eqn:?
    end).

(** C9. [commit_payroll_batch] is all-or-nothing: its status is never
    [PARTIAL], and either every item is approved and none blocked, or no
    item is approved and every item blocked. *)
Theorem commit_all_or_nothing (self : Facade) (batch : PayrollBatch)
    (s : Sys W) :
  let r := value_of (PSP.commit_payroll_batch self batch s) in
  commit_status r <> PARTIAL /\
  ((approved_count r = length (items batch) /\ blocked_count r = 0) \/
   (approved_count r = 0 /\ blocked_count r = length (items batch))).
Proof.
  unfold_commit. split_runs; (split; [discriminate | tauto]).
Qed.

(** C4, amended.  When the commit gate passes, [commit_payroll_batch]
    creates exactly one reservation on the ledger: it calls
    [create_reservation] once, in the world the commit gate left, for the
    batch, with the correlation id of the call and for the [Decimal] sum of
    the amounts of its items, and the world after the call is the world that
    reservation leaves (after the reading of the balance, when events are
    on).  It returns [APPROVED] with
    the id the ledger gave that reservation, the same sum as [total_amount],
    every item approved, none blocked and no block reason.  The [Decimal]
    sum is the exact sum of the amounts whenever no sum on the way needs
    more than 28 digits. *)
Theorem commit_approved_reserves_total (self : Facade)
    (batch : PayrollBatch) (s : Sys W) :
  passed (commit_gate_verdict self batch (world s)) = true ->
  let out := PSP.commit_payroll_batch self batch s in
  let r := value_of out in
  let total := sum_amounts (items batch) in
  let cid := uuid_of (uuid_ix s) in
  let made := ledger_reservation self batch cid (world s) in
  reservations_created (trace_of out) = [(total, batch_id batch, made.1)] /\
  faithful out s /\
  world (sys_of out)
  = (if Common.emitting self
     then (ledger_balance self batch cid (world s)).2
     else made.2) /\
  commit_correlation_id r = cid /\
  commit_status r = APPROVED /\
  reservation_id r = Some made.1 /\
  total_amount r = total /\
  approved_count r = length (items batch) /\
  blocked_count r = 0 /\
  block_reason r = None /\
  (within_precision (items batch) -> total = amount_sum (items batch)).
Proof.
  intros Hpass out r total cid made.
  split; [|split; [apply commit_sound|]].
  all: subst out r total cid made.
  all: unfold ledger_balance, ledger_reservation, commit_gate_world.
  all: unfold_commit; split_runs; try congruence.
  all: cbn in *; simplify_eq; cbn.
  all: repeat split; try reflexivity; try apply sum_amounts_sum.
  congruence.
Qed.

(** C3, amended.  When the commit gate does not pass,
    [commit_payroll_batch] creates no reservation and returns no
    reservation id, no approved item, every item blocked and a block
    reason; the status is [BLOCKED_FUNDS] exactly when some reason of the
    gate indicates insufficient funds, and [BLOCKED_POLICY] otherwise.
    When the facade has an emitter and [emit_events] is on, the events of
    the call are [FundingRequested] followed by one blocked event, which is
    [FundingInsufficientFunds] in the first case and [FundingBlocked] in the
    second; otherwise the call emits nothing. *)
Theorem commit_blocked_result (self : Facade) (batch : PayrollBatch)
    (s : Sys W) :
  passed (commit_gate_verdict self batch (world s)) = false ->
  let g := commit_gate_verdict self batch (world s) in
  let out := PSP.commit_payroll_batch self batch s in
  let r := value_of out in
  reservations_created (trace_of out) = [] /\
  reservation_id r = None /\
  approved_count r = 0 /\
  blocked_count r = length (items batch) /\
  is_Some (block_reason r) /\
  (commit_status r = BLOCKED_FUNDS <->
     Exists indicates_insufficient (reasons g)) /\
  (commit_status r = BLOCKED_POLICY <->
     ~ Exists indicates_insufficient (reasons g)) /\
  (Common.emitting self = true ->
     exists requested blocked : Event,
       events (trace_of out) = [requested; blocked] /\
       is_funding_requested requested = true /\
       (is_funding_insufficient blocked = true <->
          Exists indicates_insufficient (reasons g)) /\
       (is_funding_blocked blocked = true <->
          ~ Exists indicates_insufficient (reasons g))) /\
  (Common.emitting self = false -> events (trace_of out) = []).
Proof.
  intros Hpass g.
  pose proof (reasons_contain_insufficient_iff (reasons g)) as Hiff.
  subst g. unfold_commit. split_runs; try congruence.
  all: repeat split; eauto; try congruence; try discriminate.
  all: try (intros _; eexists _, _; repeat split; eauto).
  all: try (intuition (congruence || discriminate)).
Qed.

(** C6, on the code.  With an emitter attached and [emit_events] on, a
    second [commit_payroll_batch] of the same batch, idempotency key
    included, emits [FundingRequested] once more: the two calls together
    emit it twice.  When the gate passes on the replay, the replay also
    asks the ledger for a reservation again. *)
Theorem commit_replay_emits_again (self : Facade) (batch : PayrollBatch)
    (s : Sys W) :
  Common.emitting self = true ->
  let first := PSP.commit_payroll_batch self batch s in
  let second := PSP.commit_payroll_batch self batch (sys_of first) in
  length (filter (fun e => is_funding_requested e = true)
            (events (trace_of first ++ trace_of second))) = 2 /\
  (passed (commit_gate_verdict self batch (world (sys_of first))) = true ->
   length (reservations_created (trace_of second)) = 1 /\
   length (filter (fun e => is_funding_approved e = true)
             (events (trace_of second))) = 1).
Proof.
  intros Hemit first second.
  assert (Hone : forall s', length (filter (fun e => is_funding_requested e = true)
            (events (trace_of (PSP.commit_payroll_batch self batch s')))) = 1).
  { intros s'. unfold_commit. rewrite Hemit. split_runs; reflexivity. }
  split.
  - unfold events in *. rewrite omap_app, filter_app, length_app.
    subst first second. by rewrite !Hone.
  - subst second. generalize (sys_of first) as s'. clear first. intros s' Hp.
    unfold_commit. rewrite Hemit. split_runs; try congruence; done.
Qed.


(** *** [execute_payments] *)

Section Loop.
Variable self : Facade.
Variable create :
  Provider -> UUID -> UUID -> UUID -> PayrollItem -> string ->
  M W InstructionResult.
Variable route :
  UUID -> UUID -> UUID -> PayrollItem -> string -> CreateRequest.
Hypothesis Hroute : routes_by create route.

Ltac unfold_item :=
  unfold Common.process_item, PSP.create;
  unfold bind, service, service_, emit, ret, Common.uuid4,
    trace_of, value_of, sys_of;
  cbn.

Ltac split_item :=
  repeat (cbn;
    match goal with
    | |- context [Common.emitting ?f] =>
        destruct (Common.emitting f) eqn:?
    | |- context [orchestrator_create ?p ?r ?w] =>
        destruct (orchestrator_create p r w) as [? ?] eqn:?
    | |- context [orchestrator_submit ?p ?t ?i ?w] =>
        destruct (orchestrator_submit p t i w) as [? ?] eqn:?
    | |- context [if accepted ?r then _ else _] =>
        destruct (accepted r) eqn:?
    | |- context [match attempt_id ?r with _ => _ end] =>
        destruct (attempt_id r) eqn:?
    end).

Lemma process_item_spec cid rail p tenant le batch acc item s :
  let out :=
    Common.process_item self create cid rail p tenant le batch acc item s in
  exists a : SubmissionResult,
    submit_results (trace_of out) = [a] /\
    creations (trace_of out)
      = [route tenant le batch item (item_key batch item)] /\
    releases (trace_of out) = [] /\
    pay_gate_evaluations (trace_of out) = [] /\
    value_of out
    = {| tally_submitted :=
           tally_submitted acc + (if accepted a then 1 else 0);
         tally_failed := tally_failed acc + (if accepted a then 0 else 1);
         tally_failures :=
           tally_failures acc ++ option_list (failure_of item a) |}.
Proof.
  unfold Common.process_item. rewrite Hroute.
  unfold_item. split_item.
  all: eexists; repeat split; try reflexivity.
  all: unfold failure_of; cbn.
  all: match goal with Ha : accepted _ = _ |- _ => rewrite Ha end; cbn.
  all: rewrite ?app_nil_r; f_equal; lia.
Qed.

Lemma process_items_spec cid rail p tenant le batch its :
  forall acc s,
  let out :=
    Common.process_items self create cid rail p tenant le batch acc its s in
  let answers := submit_results (trace_of out) in
  length answers = length its /\
  creations (trace_of out)
    = map (fun item => route tenant le batch item (item_key batch item)) its /\
  releases (trace_of out) = [] /\
  pay_gate_evaluations (trace_of out) = [] /\
  tally_submitted (value_of out)
    = tally_submitted acc + length (filter (fun a => accepted a = true) answers) /\
  tally_failed (value_of out)
    = tally_failed acc + length (filter (fun a => accepted a = false) answers) /\
  tally_failures (value_of out)
    = tally_failures acc ++
      omap (fun ia : PayrollItem * SubmissionResult => failure_of ia.1 ia.2)
        (zip its answers).
Proof.
  induction its as [|item rest IH]; intros acc s; cbn.
  - unfold ret, trace_of, value_of; cbn. rewrite app_nil_r.
    repeat split; lia.
  - rewrite trace_of_bind, value_of_bind.
    destruct (process_item_spec cid rail p tenant le batch acc item s)
      as (a & Ha & Hc & Hr & Hg & Hv).
    specialize (IH
      (value_of (Common.process_item self create cid rail p tenant le
                   batch acc item s))
      (sys_of (Common.process_item self create cid rail p tenant le
                 batch acc item s))).
    cbn in IH. rewrite Hv in IH.
    destruct IH as (IH1 & IH2 & IH3 & IH4 & IH5 & IH6 & IH7).
    unfold submit_results, creations, releases, pay_gate_evaluations in *.
    rewrite !omap_app, Hv, Ha, Hc, Hr, Hg, IH2, IH3, IH4. cbn.
    rewrite IH5, IH6, IH7; cbn.
    repeat split; try (f_equal; lia).
    + destruct (accepted a); cbn; case_decide; try done; cbn;
        by rewrite ?Nat.add_0_r, ?Nat.add_1_r, ?Nat.add_succ_l, ?Nat.add_succ_r.
    + destruct (accepted a); cbn; case_decide; try done; cbn;
        by rewrite ?Nat.add_0_r, ?Nat.add_1_r, ?Nat.add_succ_l, ?Nat.add_succ_r.
    + rewrite <- app_assoc. f_equal.
      by destruct (failure_of item a).
Qed.

Lemma submit_all_spec cid rail p tenant le batch its reservation s :
  let out :=
    Common.submit_all self create cid rail p tenant le batch its
      reservation s in
  let r := value_of out in
  let answers := submit_results (trace_of out) in
  length answers = length its /\
  creations (trace_of out)
    = map (fun item => route tenant le batch item (item_key batch item)) its /\
  pay_gate_evaluations (trace_of out) = [] /\
  submitted_count r = length (filter (fun a => accepted a = true) answers) /\
  failed_count r = length (filter (fun a => accepted a = false) answers) /\
  failures r
    = omap (fun ia : PayrollItem * SubmissionResult => failure_of ia.1 ia.2)
        (zip its answers) /\
  releases (trace_of out)
    = match reservation with
      | Some rid =>
          if decide (failed_count r = 0) then [(tenant, rid, true)] else []
      | None => []
      end /\
  exec_status r
    = (if decide (failed_count r = 0) then EXEC_SUCCESS
       else if decide (submitted_count r = 0) then EXEC_FAILED
       else EXEC_PARTIAL).
Proof.
  pose proof (process_items_spec cid rail p tenant le batch its
                {| tally_submitted := 0; tally_failed := 0;
                   tally_failures := [] |} s) as Hloop.
  unfold Common.submit_all, bind.
  destruct (Common.process_items self create cid rail p tenant le batch
              _ its s) as [[t s1] tr] eqn:Eloop.
  unfold trace_of, value_of in *. cbn in Hloop.
  destruct Hloop as (H1 & H2 & H3 & H4 & H5 & H6 & H7).
  assert (O1 : forall extra, submit_results extra = [] ->
            submit_results (tr ++ extra) = submit_results tr).
  { intros extra E. unfold submit_results in *.
    by rewrite omap_app, E, app_nil_r. }
  assert (O2 : forall extra, creations extra = [] ->
            creations (tr ++ extra) = creations tr).
  { intros extra E. unfold creations in *.
    by rewrite omap_app, E, app_nil_r. }
  assert (O3 : forall extra, pay_gate_evaluations extra = [] ->
            pay_gate_evaluations (tr ++ extra) = []).
  { intros extra E. unfold pay_gate_evaluations in *.
    by rewrite omap_app, E, H4. }
  assert (O4 : forall extra, releases (tr ++ extra) = releases extra).
  { intros extra. unfold releases in *. by rewrite omap_app, H3. }
  destruct reservation as [rid|]; [case_decide|]; cbn.
  all: rewrite O1, O2, O3, O4 by reflexivity.
  all: repeat split; try done.
  all: repeat case_decide; try done; try lia.
Qed.

Lemma execute_cases tenant le batch fa its reservation rail s :
  let out :=
    Common.execute_payments self create tenant le batch fa its
      reservation rail s in
  let r := value_of out in
  let cid := uuid_of (uuid_ix s) in
  let key := "pay_gate:" +:+ Str.of_uuid batch in
  let g := pay_gate_verdict tenant le batch (world s) in
  match _providers self !! rail_used self rail with
  | None =>
      trace_of out = [] /\ exec_status r = EXEC_FAILED /\
      submitted_count r = 0 /\ failed_count r = length its
  | Some p =>
      if pay_gate_always_enforced (_config self) then
        if passed g then
          exists s1 : Sys W,
            let sub :=
              Common.submit_all self create cid (rail_used self rail) p
                tenant le batch its reservation s1 in
            trace_of out
              = Called (EvaluatePayGate tenant le batch key g) :: trace_of sub /\
            r = value_of sub
        else
          trace_of out = [Called (EvaluatePayGate tenant le batch key g)] /\
          exec_status r = EXEC_BLOCKED /\
          submitted_count r = 0 /\ failed_count r = length its
      else
        exists s1 : Sys W,
          let sub :=
            Common.submit_all self create cid (rail_used self rail) p
              tenant le batch its reservation s1 in
          trace_of out = trace_of sub /\ r = value_of sub
  end.
Proof.
  unfold Common.execute_payments, pay_gate_verdict, bind, Common.uuid4.
  fold (rail_used self rail).
  destruct (_providers self !! rail_used self rail) as [p|]; [|done].
  destruct (pay_gate_always_enforced (_config self)).
  - unfold service. cbn.
    destruct (evaluate_pay_gate tenant le batch _ (world s)) as [g w].
    cbn. destruct (passed g); cbn; [|done].
    exists {| world := w; uuid_ix := S (uuid_ix s) |}.
    by destruct (Common.submit_all self create _ _ p tenant le batch its
                   reservation _) as [[r s2] t].
  - cbn. exists {| world := world s; uuid_ix := S (uuid_ix s) |}.
    by destruct (Common.submit_all self create _ _ p tenant le batch its
                   reservation _) as [[r s2] t].
Qed.

Lemma accepted_split (answers : list SubmissionResult) :
  length (filter (fun a => accepted a = true) answers)
  + length (filter (fun a => accepted a = false) answers)
  = length answers.
Proof.
  induction answers as [|a rest IH]; [done|].
  rewrite !filter_cons.
  destruct (accepted a); repeat case_decide; try done;
    rewrite ?length_cons; cbn [length]; lia.
Qed.

Lemma failures_length (its : list PayrollItem) :
  forall answers : list SubmissionResult,
  length answers = length its ->
  length (omap (fun ia : PayrollItem * SubmissionResult =>
                  failure_of ia.1 ia.2) (zip its answers))
  = length (filter (fun a => accepted a = false) answers).
Proof.
  induction its as [|item rest IH]; intros [|a answers] Hlen;
    try done; cbn in *.
  unfold failure_of at 1.
  destruct (accepted a); cbn; repeat case_decide; try done;
    cbn; rewrite IH by lia; done.
Qed.


Lemma execute_per_item p tenant le batch fa its reservation rail s :
  _providers self !! rail_used self rail = Some p ->
  (pay_gate_always_enforced (_config self) = true ->
   passed (pay_gate_verdict tenant le batch (world s)) = true) ->
  let out :=
    Common.execute_payments self create tenant le batch fa its
      reservation rail s in
  let r := value_of out in
  let answers := submit_results (trace_of out) in
  length answers = length its /\
  creations (trace_of out)
    = map (fun item => route tenant le batch item (item_key batch item)) its /\
  submitted_count r = length (filter (fun a => accepted a = true) answers) /\
  failed_count r = length (filter (fun a => accepted a = false) answers) /\
  submitted_count r + failed_count r = length its /\
  failures r
    = omap (fun ia : PayrollItem * SubmissionResult => failure_of ia.1 ia.2)
        (zip its answers) /\
  length (failures r) = failed_count r /\
  exec_status r
    = (if decide (failed_count r = 0) then EXEC_SUCCESS
       else if decide (submitted_count r = 0) then EXEC_FAILED
       else EXEC_PARTIAL).
Proof.
  intros Hp Hgate.
  pose proof (execute_cases tenant le batch fa its reservation rail s)
    as Hcases.
  cbn zeta in *. rewrite Hp in Hcases.
  assert (Hsub : exists s1 : Sys W,
    let sub := Common.submit_all self create (uuid_of (uuid_ix s))
                 (rail_used self rail) p tenant le batch its reservation
                 s1 in
    submit_results (trace_of (Common.execute_payments self create tenant
                                le batch fa its reservation rail s))
      = submit_results (trace_of sub) /\
    creations (trace_of (Common.execute_payments self create tenant
                           le batch fa its reservation rail s))
      = creations (trace_of sub) /\
    value_of (Common.execute_payments self create tenant le batch fa its
                reservation rail s) = value_of sub).
  { destruct (pay_gate_always_enforced (_config self)).
    - rewrite Hgate in Hcases by done.
      destruct Hcases as (s1 & Ht & Hv). exists s1. cbn zeta.
      by rewrite Ht, Hv.
    - destruct Hcases as (s1 & Ht & Hv). exists s1. cbn zeta.
      by rewrite Ht, Hv. }
  destruct Hsub as (s1 & Ha & Hc & Hv). cbn zeta in *.
  rewrite Ha, Hc, Hv.
  destruct (submit_all_spec (uuid_of (uuid_ix s)) (rail_used self rail) p
              tenant le batch its reservation s1)
    as (S1 & S2 & S3 & S4 & S5 & S6 & S7 & S8).
  repeat split; try done.
  - rewrite S4, S5, accepted_split. done.
  - rewrite S6, S5. by apply failures_length.
Qed.


(** With the pay gate enforced, the first effect of a run that creates
    or submits anything is the evaluation of the pay gate for this pay
    run, and its verdict is a pass; when the verdict is not a pass,
    nothing is created or submitted. *)
Lemma execute_gate_enforced tenant le batch fa its reservation rail s :
  pay_gate_always_enforced (_config self) = true ->
  let out :=
    Common.execute_payments self create tenant le batch fa its
      reservation rail s in
  let r := value_of out in
  let g := pay_gate_verdict tenant le batch (world s) in
  (submit_results (trace_of out) <> [] \/ creations (trace_of out) <> [] ->
   passed g = true /\
   exists rest : list Effect,
     trace_of out
     = Called (EvaluatePayGate tenant le batch
                 ("pay_gate:" +:+ Str.of_uuid batch) g) :: rest /\
     pay_gate_evaluations rest = []) /\
  (is_Some (_providers self !! rail_used self rail) ->
   passed g = false ->
   exec_status r = EXEC_BLOCKED /\ submitted_count r = 0 /\
   submit_results (trace_of out) = [] /\ creations (trace_of out) = []).
Proof.
  intros Henf.
  pose proof (execute_cases tenant le batch fa its reservation rail s)
    as Hcases.
  cbn zeta in *. rewrite Henf in Hcases.
  destruct (_providers self !! rail_used self rail) as [p|].
  - destruct (passed (pay_gate_verdict tenant le batch (world s))).
    + destruct Hcases as (s1 & Ht & Hv). split; [|done].
      intros _. split; [done|]. eexists. split; [exact Ht|].
      by destruct (submit_all_spec (uuid_of (uuid_ix s))
                     (rail_used self rail) p tenant le batch its
                     reservation s1) as (_ & _ & S3 & _).
    + destruct Hcases as (Ht & Hst & Hsc & _). rewrite Ht. split.
      * intros [Hne|Hne]; by destruct Hne.
      * by intros _ _.
  - destruct Hcases as (Ht & _). rewrite Ht. split.
    + intros [Hne|Hne]; by destruct Hne.
    + by intros [? ?].
Qed.

(** With [pay_gate_always_enforced] off, the pay gate is never evaluated
    and every item is created and submitted all the same. *)
Lemma execute_gate_not_enforced p tenant le batch fa its reservation rail s :
  pay_gate_always_enforced (_config self) = false ->
  _providers self !! rail_used self rail = Some p ->
  let out :=
    Common.execute_payments self create tenant le batch fa its
      reservation rail s in
  pay_gate_evaluations (trace_of out) = [] /\
  length (submit_results (trace_of out)) = length its /\
  length (creations (trace_of out)) = length its /\
  exec_status (value_of out) <> EXEC_BLOCKED.
Proof.
  intros Henf Hp.
  pose proof (execute_cases tenant le batch fa its reservation rail s)
    as Hcases.
  cbn zeta in *. rewrite Henf, Hp in Hcases.
  destruct Hcases as (s1 & Ht & Hv). rewrite Ht, Hv.
  destruct (submit_all_spec (uuid_of (uuid_ix s)) (rail_used self rail) p
              tenant le batch its reservation s1)
    as (S1 & S2 & S3 & _ & _ & _ & _ & S8).
  rewrite S2, S8, length_map. repeat split; try done.
  repeat case_decide; done.
Qed.

(** Every run of [execute_payments] is faithful: each creation, submission
    and release it records was made on the services, and the world after
    the run is the world they left. *)
Lemma process_item_sound cid rail p tenant le batch acc item :
  sound (Common.process_item self create cid rail p tenant le batch acc item).
Proof.
  unfold Common.process_item. rewrite Hroute. unfold PSP.create.
  repeat sound_step.
Qed.

Lemma process_items_sound cid rail p tenant le batch its :
  forall acc,
  sound (Common.process_items self create cid rail p tenant le batch acc its).
Proof.
  induction its as [|item rest IH]; intros acc; cbn.
  - apply sound_ret.
  - apply sound_bind; [apply process_item_sound | intros acc'; apply IH].
Qed.

Lemma submit_all_sound cid rail p tenant le batch its reservation :
  sound (Common.submit_all self create cid rail p tenant le batch its
           reservation).
Proof.
  unfold Common.submit_all.
  apply sound_bind; [apply process_items_sound | intros t].
  repeat sound_step.
Qed.

Lemma execute_sound tenant le batch fa its reservation rail :
  sound (Common.execute_payments self create tenant le batch fa its
           reservation rail).
Proof.
  unfold Common.execute_payments.
  apply sound_bind; [apply sound_uuid4 | intros cid].
  destruct (_providers self !! _) as [p|]; [|apply sound_ret].
  destruct (pay_gate_always_enforced (_config self));
    [|apply submit_all_sound].
  apply sound_bind; [apply sound_service; sound_call | intros g].
  destruct (negb (passed g)); [apply sound_ret | apply submit_all_sound].
Qed.

End Loop.

(** *** The two routers *)

Lemma sync_routes : routes_by PSP._create_instruction_for_item route_sync.
Proof.
  intros p tenant le batch item key.
  unfold PSP._create_instruction_for_item, route_sync.
  repeat case_decide; try done; congruence.
Qed.

Lemma async_routes :
  routes_by AsyncPSP._create_instruction_for_item route_async.
Proof.
  intros p tenant le batch item key.
  unfold AsyncPSP._create_instruction_for_item, route_async, AsyncPSP.create,
    PSP.create.
  repeat case_decide; done.
Qed.

(** *** Claims about [execute_payments] *)

(** C5. With a provider registered for the rail and a passing pay gate,
    [execute_payments] handles the items one by one: every item is
    submitted, whatever the answers to the items before it; the submitted and
    the failed counts are the numbers of accepted and of rejected
    submissions and add up to the number of items; [failures] holds one entry
    per rejected item, in order; and the status is [success] when nothing
    failed, [failed] when something failed and nothing was submitted,
    [partial] otherwise. *)
Theorem execute_payments_per_item (self : Facade) (p : Provider)
    (tenant le batch fa : UUID) (its : list PayrollItem)
    (reservation : option UUID) (rail : option string) (s : Sys W) :
  _providers self !! rail_used self rail = Some p ->
  passed (pay_gate_verdict tenant le batch (world s)) = true ->
  let out :=
    PSP.execute_payments self tenant le batch fa its reservation rail s in
  let r := value_of out in
  let answers := submit_results (trace_of out) in
  length answers = length its /\
  submitted_count r = length (filter (fun a => accepted a = true) answers) /\
  failed_count r = length (filter (fun a => accepted a = false) answers) /\
  submitted_count r + failed_count r = length its /\
  failures r
    = omap (fun ia : PayrollItem * SubmissionResult => failure_of ia.1 ia.2)
        (zip its answers) /\
  length (failures r) = failed_count r /\
  (failed_count r = 0 -> exec_status r = EXEC_SUCCESS) /\
  (failed_count r <> 0 -> submitted_count r = 0 ->
   exec_status r = EXEC_FAILED) /\
  (failed_count r <> 0 -> submitted_count r <> 0 ->
   exec_status r = EXEC_PARTIAL).
Proof.
  intros Hp Hgate.
  destruct (execute_per_item self _ _ sync_routes p tenant le batch fa its
              reservation rail s Hp (fun _ => Hgate))
    as (E1 & _ & E3 & E4 & E5 & E6 & E7 & E8).
  unfold PSP.execute_payments. cbn zeta.
  repeat split; try done.
  all: rewrite E8; intros; repeat case_decide; done.
Qed.

(** With [pay_gate_always_enforced] on (the default), both facades honour the
    pay gate: whenever an instruction is created or submitted, the first
    effect of the run is the evaluation of the pay gate for this pay run, with
    a passing verdict; and when the verdict is not a pass the result is
    [blocked], nothing submitted, nothing created. *)
Theorem pay_gate_guards_submission_when_enforced (self : Facade)
    (tenant le batch fa : UUID) (its : list PayrollItem)
    (reservation : option UUID) (rail : option string) (s : Sys W) :
  pay_gate_always_enforced (_config self) = true ->
  gate_rule self tenant le batch rail (world s)
    (PSP.execute_payments self tenant le batch fa its reservation rail s) /\
  gate_rule self tenant le batch rail (world s)
    (AsyncPSP.execute_payments self tenant le batch fa its reservation rail s).
Proof.
  intros Henf. split.
  - exact (execute_gate_enforced self _ _ sync_routes tenant le batch fa its
             reservation rail s Henf).
  - exact (execute_gate_enforced self _ _ async_routes tenant le batch fa its
             reservation rail s Henf).
Qed.

(** C1, on the code.  A facade configured with
    [pay_gate_always_enforced = False] never evaluates the pay gate: with a
    provider registered, both facades create and submit every item, and the
    status is not [blocked], whatever the pay gate would have said. *)
Theorem pay_gate_skipped_when_not_enforced (self : Facade) (p : Provider)
    (tenant le batch fa : UUID) (its : list PayrollItem)
    (reservation : option UUID) (rail : option string) (s : Sys W) :
  pay_gate_always_enforced (_config self) = false ->
  _providers self !! rail_used self rail = Some p ->
  let sync :=
    PSP.execute_payments self tenant le batch fa its reservation rail s in
  let async :=
    AsyncPSP.execute_payments self tenant le batch fa its reservation rail s in
  (pay_gate_evaluations (trace_of sync) = [] /\
   length (submit_results (trace_of sync)) = length its /\
   exec_status (value_of sync) <> EXEC_BLOCKED) /\
  (pay_gate_evaluations (trace_of async) = [] /\
   length (submit_results (trace_of async)) = length its /\
   exec_status (value_of async) <> EXEC_BLOCKED).
Proof.
  intros Henf Hp. split.
  - destruct (execute_gate_not_enforced self _ _ sync_routes p tenant le batch
                fa its reservation rail s Henf Hp) as (G1 & G2 & _ & G4).
    done.
  - destruct (execute_gate_not_enforced self _ _ async_routes p tenant le
                batch fa its reservation rail s Henf Hp) as (G1 & G2 & _ & G4).
    done.
Qed.

(** C8, amended.  An item whose purpose is none of [employee_net],
    [tax_payment], [vendor_payment] is handled as an [employee_net] item: with
    a provider registered and a passing pay gate, [execute_payments] sends one
    creation request per item, in order, the request of such an item being
    [create_employee_net_instruction] (employee: the payee; pay statement:
    the [pay_statement_id] of the metadata, else the batch id), and submits
    every item. *)
Theorem unknown_purpose_defaults_to_employee_net (self : Facade)
    (p : Provider) (tenant le batch fa : UUID) (its : list PayrollItem)
    (reservation : option UUID) (rail : option string) (s : Sys W) :
  _providers self !! rail_used self rail = Some p ->
  passed (pay_gate_verdict tenant le batch (world s)) = true ->
  let out :=
    PSP.execute_payments self tenant le batch fa its reservation rail s in
  creations (trace_of out)
    = map (fun item => route_sync tenant le batch item (item_key batch item))
        its /\
  length (submit_results (trace_of out)) = length its /\
  submitted_count (value_of out) + failed_count (value_of out) = length its /\
  forall item : PayrollItem,
    purpose item <> "employee_net" ->
    purpose item <> "tax_payment" ->
    purpose item <> "vendor_payment" ->
    route_sync tenant le batch item (item_key batch item)
    = create_employee_net_instruction tenant le (payee_ref_id item)
        (default batch (metadata item !! "pay_statement_id"))
        (amount item) (item_key batch item) (metadata item).
Proof.
  intros Hp Hgate.
  destruct (execute_per_item self _ _ sync_routes p tenant le batch fa its
              reservation rail s Hp (fun _ => Hgate))
    as (E1 & E2 & _ & _ & E5 & _).
  unfold PSP.execute_payments. cbn zeta.
  repeat split; try done.
  intros item H1 H2 H3. unfold route_sync. by repeat case_decide.
Qed.

(** *** Claims about the two routers *)

(** C2, on the code.  For an item whose purpose is [tax_payment] or
    [vendor_payment] the two facades do not make the same creation call:
    [PSP] calls [create_tax_instruction], respectively
    [create_third_party_instruction], [AsyncPSP] calls
    [create_employee_net_instruction]. *)
Theorem facades_route_tax_and_vendor_differently (orchestrator : Provider)
    (tenant le batch : UUID) (item : PayrollItem) (key : string) (s : Sys W) :
  purpose item = "tax_payment" \/ purpose item = "vendor_payment" ->
  let sync :=
    PSP._create_instruction_for_item orchestrator tenant le batch item key s in
  let async :=
    AsyncPSP._create_instruction_for_item orchestrator tenant le batch item
      key s in
  creations (trace_of sync) = [route_sync tenant le batch item key] /\
  creations (trace_of async) = [route_async tenant le batch item key] /\
  route_sync tenant le batch item key <> route_async tenant le batch item key /\
  creations (trace_of sync) <> creations (trace_of async).
Proof.
  intros Hpurpose sync async. subst sync async.
  rewrite sync_routes, async_routes.
  assert (Hrun : forall request : CreateRequest,
            creations (trace_of (PSP.create orchestrator request s)) = [request]).
  { intros request. unfold PSP.create, service, trace_of. cbn.
    by destruct (orchestrator_create orchestrator request (world s)). }
  rewrite !Hrun.
  assert (Hne : route_sync tenant le batch item key
                <> route_async tenant le batch item key).
  { unfold route_sync, route_async.
    destruct Hpurpose as [Hp|Hp]; rewrite Hp; repeat case_decide; done. }
  repeat split; try done. congruence.
Qed.

(** For the other purposes the two facades make the same creation call. *)
Theorem facades_route_other_purposes_alike (orchestrator : Provider)
    (tenant le batch : UUID) (item : PayrollItem) (key : string) :
  purpose item <> "tax_payment" -> purpose item <> "vendor_payment" ->
  PSP._create_instruction_for_item orchestrator tenant le batch item key
  = AsyncPSP._create_instruction_for_item (W := W) orchestrator tenant le
      batch item key.
Proof.
  intros H1 H2. rewrite sync_routes, async_routes.
  unfold route_sync, route_async. by repeat case_decide.
Qed.

(** *** [handle_provider_callback] *)

(** C7, on the code.  A [settled] status arriving for an instruction that
    is already [returned] is not rejected by the facade: with a registered
    provider and events on, [handle_provider_callback] emits [PaymentSettled]
    for the instruction, hands the new status to the orchestrator and returns
    [processed] with [new_status = settled].  The event is emitted before the
    orchestrator is asked, whatever it then does with the transition. *)
Theorem stale_settled_callback_is_processed (self : Facade) (p : Provider)
    (tenant : UUID) (provider_name callback_type request_id : string)
    (payload : Payload) (row : InstructionRow) (s : Sys W) :
  Common.emitting self = true ->
  _providers self !! provider_name = Some p ->
  payload_provider_request_id payload = Some request_id ->
  request_id <> "" ->
  find_instruction_row tenant request_id (world s) = Some row ->
  row_status row = "returned" ->
  payload_status payload = Some (Some "settled") ->
  callback_type <> "return" ->
  let out :=
    PSP.handle_provider_callback self tenant provider_name callback_type
      payload s in
  let r := value_of out in
  callback_status r = PROCESSED /\
  previous_status r = Some "returned" /\
  new_status r = Some "settled" /\
  (exists settled : Event,
     is_payment_settled settled = true /\
     trace_of out
     = [Called (FindInstruction tenant request_id (Some row));
        Emitted settled;
        Called (UpdateStatus p tenant (row_instruction_id row)
                  (Some "settled") request_id)]).
Proof.
  intros Hemit Hp Hreq Hne Hrow Hst Hpay Hcb.
  unfold PSP.handle_provider_callback, Common.handle_provider_callback,
    Common._find_instruction_by_provider_ref, Common.date_today.
  unfold bind, service, service_, emit, ret, Common.uuid4,
    trace_of, value_of.
  cbn. rewrite Hp, Hreq. rewrite decide_False by done. cbn.
  rewrite Hrow, Hst, Hpay, Hemit. cbn.
  rewrite (decide_False (P := callback_type = "return" \/ _)); cbn.
  2: { intros [?|?]; done. }
  rewrite (decide_True (P := callback_type = "settlement" \/ _)) by (by right).
  cbn. repeat split; try done. eexists. split; [|reflexivity]. done.
Qed.

End Proofs.

(** * The theorems on concrete runs *)

Section Runs.
Import Stub.

(** C4, amended, on the happy path of the spec: two payments, 4,000 and
    1,000, the commit gate passes; the ledger holds one reservation, of
    5,000, and the result carries its id. *)
Lemma commit_approved_reserves_total_witness :
  passed (commit_gate_verdict wired (batch two_items)
            (world (start (world0 gate_ok gate_ok)))) = true /\
  reservations_created
    (trace_of (PSP.commit_payroll_batch wired (batch two_items)
                 (start (world0 gate_ok gate_ok))))
  = [(500000%Z, 7%N, 1%N)] /\
  reservations
    (world (sys_of (PSP.commit_payroll_batch wired (batch two_items)
                      (start (world0 gate_ok gate_ok)))))
  = [(1%N, 500000%Z, "held")] /\
  commit_status
    (value_of (PSP.commit_payroll_batch wired (batch two_items)
                 (start (world0 gate_ok gate_ok))))
  = APPROVED /\
  reservation_id
    (value_of (PSP.commit_payroll_batch wired (batch two_items)
                 (start (world0 gate_ok gate_ok))))
  = Some 1%N.
Proof.
  assert (Hgate : passed (commit_gate_verdict wired (batch two_items)
                              (world (start (world0 gate_ok gate_ok)))) = true)
    by reflexivity.
  split; [exact Hgate|].
  destruct (commit_approved_reserves_total wired (batch two_items)
              (start (world0 gate_ok gate_ok)) Hgate)
    as (Hres & _ & Hw & _ & Hst & Hid & _).
  split; [rewrite Hres; vm_compute; reflexivity|].
  split; [rewrite Hw; vm_compute; reflexivity|].
  split; [exact Hst | rewrite Hid; vm_compute; reflexivity].
Defined.

(** C4: the claim, as stated, fails on a batch of one payment of 29 digits,
    10^28 + 1 minor units: the [Decimal] sum keeps 28 digits, and the
    reservation and [total_amount] are of 10^28, not of the sum of the
    amounts. *)
Lemma huge_batch_reserves_rounded_sum :
  passed (commit_gate_verdict wired (batch Samples.huge_items)
            (world (start (world0 gate_ok gate_ok)))) = true /\
  amount_sum Samples.huge_items = 10000000000000000000000000001%Z /\
  reservations_created
    (trace_of (PSP.commit_payroll_batch wired (batch Samples.huge_items)
                 (start (world0 gate_ok gate_ok))))
  = [(10000000000000000000000000000%Z, 7%N, 1%N)] /\
  total_amount
    (value_of (PSP.commit_payroll_batch wired (batch Samples.huge_items)
                 (start (world0 gate_ok gate_ok))))
  = 10000000000000000000000000000%Z /\
  total_amount
    (value_of (PSP.commit_payroll_batch wired (batch Samples.huge_items)
                 (start (world0 gate_ok gate_ok))))
  <> amount_sum Samples.huge_items.
Proof. vm_compute. repeat split; discriminate. Qed.

(** C3: the claim fails on a facade built without an emitter, [PSP(session)]:
    the commit gate reports insufficient funds, the status is
    [blocked_funds], and no event at all is emitted. *)
Lemma blocked_funds_without_emitter_emits_nothing :
  passed (commit_gate_verdict bare (batch two_items)
            (world (start (world0 gate_insufficient gate_ok)))) = false /\
  commit_status
    (value_of (PSP.commit_payroll_batch bare (batch two_items)
                 (start (world0 gate_insufficient gate_ok))))
  = BLOCKED_FUNDS /\
  events
    (trace_of (PSP.commit_payroll_batch bare (batch two_items)
                 (start (world0 gate_insufficient gate_ok))))
  = [].
Proof. vm_compute. repeat split. Qed.

(** C3, amended, on the second scenario of the spec: available 3,000, batch
    5,000, events on. *)
Lemma commit_blocked_result_witness :
  passed (commit_gate_verdict wired (batch two_items)
            (world (start (world0 gate_insufficient gate_ok)))) = false /\
  reservations_created
    (trace_of (PSP.commit_payroll_batch wired (batch two_items)
                 (start (world0 gate_insufficient gate_ok))))
  = [] /\
  reservation_id
    (value_of (PSP.commit_payroll_batch wired (batch two_items)
                 (start (world0 gate_insufficient gate_ok))))
  = None /\
  blocked_count
    (value_of (PSP.commit_payroll_batch wired (batch two_items)
                 (start (world0 gate_insufficient gate_ok))))
  = 2.
Proof.
  assert (Hgate : passed (commit_gate_verdict wired (batch two_items)
                              (world (start (world0 gate_insufficient gate_ok))))
                  = false)
    by reflexivity.
  split; [exact Hgate|].
  destruct (commit_blocked_result wired (batch two_items)
              (start (world0 gate_insufficient gate_ok)) Hgate)
    as (Hres & Hid & _ & Hblocked & _).
  split; [exact Hres | split; [exact Hid | exact Hblocked]].
Defined.

(** C5: three items, the second with amount 0, which the stub rail rejects:
    the third is still submitted and the status is [partial]. *)
Lemma execute_payments_per_item_witness :
  _providers wired !! rail_used wired None = Some ach /\
  passed (pay_gate_verdict 1 2 7 (world (start (world0 gate_ok gate_ok))))
  = true /\
  length
    (submit_results
       (trace_of (PSP.execute_payments wired 1 2 7 4
                    [item 10 400000 "employee_net"; item 11 0 "employee_net";
                     item 12 100000 "employee_net"]
                    (Some 1%N) None (start (world0 gate_ok gate_ok)))))
  = 3 /\
  exec_status
    (value_of (PSP.execute_payments wired 1 2 7 4
                 [item 10 400000 "employee_net"; item 11 0 "employee_net";
                  item 12 100000 "employee_net"]
                 (Some 1%N) None (start (world0 gate_ok gate_ok))))
  = EXEC_PARTIAL.
Proof.
  assert (Hp : _providers wired !! rail_used wired None = Some ach)
    by reflexivity.
  assert (Hgate : passed (pay_gate_verdict 1 2 7
                            (world (start (world0 gate_ok gate_ok)))) = true)
    by reflexivity.
  split; [exact Hp|]. split; [exact Hgate|].
  destruct (execute_payments_per_item wired ach 1 2 7 4
              [item 10 400000 "employee_net"; item 11 0 "employee_net";
               item 12 100000 "employee_net"]
              (Some 1%N) None (start (world0 gate_ok gate_ok)) Hp Hgate)
    as (Hlen & _ & _ & _ & _ & _ & _ & _ & Hpartial).
  split; [exact Hlen|].
  apply Hpartial; vm_compute; discriminate.
Defined.

(** C1: the failing input.  The pay gate would block this pay run, the
    facade is configured with [pay_gate_always_enforced=False]: the gate is
    not asked and the payment is submitted. *)
Lemma pay_gate_skipped_when_not_enforced_witness :
  pay_gate_always_enforced (_config unguarded) = false /\
  _providers unguarded !! rail_used unguarded None = Some ach /\
  passed (pay_gate_verdict 1 2 7 (world (start (world0 gate_ok gate_policy))))
  = false /\
  pay_gate_evaluations
    (trace_of (PSP.execute_payments unguarded 1 2 7 4
                 [item 10 400000 "employee_net"] None None
                 (start (world0 gate_ok gate_policy))))
  = [] /\
  length
    (submit_results
       (trace_of (PSP.execute_payments unguarded 1 2 7 4
                    [item 10 400000 "employee_net"] None None
                    (start (world0 gate_ok gate_policy)))))
  = 1.
Proof.
  assert (Hflag : pay_gate_always_enforced (_config unguarded) = false)
    by reflexivity.
  assert (Hp : _providers unguarded !! rail_used unguarded None = Some ach)
    by reflexivity.
  split; [exact Hflag|]. split; [exact Hp|]. split; [reflexivity|].
  destruct (pay_gate_skipped_when_not_enforced unguarded ach 1 2 7 4
              [item 10 400000 "employee_net"] None None
              (start (world0 gate_ok gate_policy)) Hflag Hp)
    as ((Hnone & Hlen & _) & _).
  split; [exact Hnone | exact Hlen].
Defined.

(** C1: the same run, computed: one payment accepted by the rail, status
    [success], although the pay gate does not pass in this world. *)
Lemma pay_gate_bypass_run :
  passed (pay_gate_verdict 1 2 7 (world (start (world0 gate_ok gate_policy))))
  = false /\
  submitted_count
    (value_of (PSP.execute_payments unguarded 1 2 7 4
                 [item 10 400000 "employee_net"] None None
                 (start (world0 gate_ok gate_policy))))
  = 1 /\
  exec_status
    (value_of (PSP.execute_payments unguarded 1 2 7 4
                 [item 10 400000 "employee_net"] None None
                 (start (world0 gate_ok gate_policy))))
  = EXEC_SUCCESS /\
  calls
    (trace_of (PSP.execute_payments unguarded 1 2 7 4
                 [item 10 400000 "employee_net"] None None
                 (start (world0 gate_ok gate_policy))))
  = [CreateInstruction ach
       (create_employee_net_instruction 1 2 10 7 400000
          (item_key 7 (item 10 400000 "employee_net")) ∅)
       {| instruction_id := 1 |};
     Submit ach 1 1
       {| accepted := true; attempt_id := Some 2%N;
          provider_request_id :=
            Some ("req-" +:+ Str.of_uuid 1);
          message := None |}].
Proof. vm_compute. repeat split. Qed.

(** C2: the failing input, a [tax_payment] item carrying its
    [tax_liability_id]. *)
Lemma facades_route_tax_and_vendor_differently_witness :
  (purpose {| payee_type := "tax_authority"; payee_ref_id := 20;
              amount := 120000; purpose := "tax_payment";
              metadata := {[ "tax_liability_id" := 77%N ]} |} = "tax_payment"
   \/ purpose {| payee_type := "tax_authority"; payee_ref_id := 20;
                 amount := 120000; purpose := "tax_payment";
                 metadata := {[ "tax_liability_id" := 77%N ]} |}
      = "vendor_payment") /\
  creations
    (trace_of (PSP._create_instruction_for_item ach 1 2 7
                 {| payee_type := "tax_authority"; payee_ref_id := 20;
                    amount := 120000; purpose := "tax_payment";
                    metadata := {[ "tax_liability_id" := 77%N ]} |}
                 "key" (start (world0 gate_ok gate_ok))))
  <> creations
       (trace_of (AsyncPSP._create_instruction_for_item ach 1 2 7
                    {| payee_type := "tax_authority"; payee_ref_id := 20;
                       amount := 120000; purpose := "tax_payment";
                       metadata := {[ "tax_liability_id" := 77%N ]} |}
                    "key" (start (world0 gate_ok gate_ok)))).
Proof.
  split; [left; reflexivity|].
  apply (facades_route_tax_and_vendor_differently ach 1 2 7
           {| payee_type := "tax_authority"; payee_ref_id := 20;
              amount := 120000; purpose := "tax_payment";
              metadata := {[ "tax_liability_id" := 77%N ]} |}
           "key" (start (world0 gate_ok gate_ok))).
  left; reflexivity.
Defined.

(** C2: the two calls, computed. *)
Lemma tax_item_routes :
  creations
    (trace_of (PSP._create_instruction_for_item ach 1 2 7
                 {| payee_type := "tax_authority"; payee_ref_id := 20;
                    amount := 120000; purpose := "tax_payment";
                    metadata := {[ "tax_liability_id" := 77%N ]} |}
                 "key" (start (world0 gate_ok gate_ok))))
  = [create_tax_instruction 1 2 20 77 120000 "key"
       {[ "tax_liability_id" := 77%N ]}] /\
  creations
    (trace_of (AsyncPSP._create_instruction_for_item ach 1 2 7
                 {| payee_type := "tax_authority"; payee_ref_id := 20;
                    amount := 120000; purpose := "tax_payment";
                    metadata := {[ "tax_liability_id" := 77%N ]} |}
                 "key" (start (world0 gate_ok gate_ok))))
  = [create_employee_net_instruction 1 2 20 7 120000 "key"
       {[ "tax_liability_id" := 77%N ]}].
Proof. vm_compute. split; reflexivity. Qed.

(** C6: the failing input: the same batch, with the same idempotency key,
    committed twice on a facade with an emitter. *)
Lemma commit_replay_emits_again_witness :
  Common.emitting wired = true /\
  length
    (filter (fun e => is_funding_requested e = true)
       (events
          (trace_of (PSP.commit_payroll_batch wired (batch two_items)
                       (start (world0 gate_ok gate_ok)))
           ++ trace_of
                (PSP.commit_payroll_batch wired (batch two_items)
                   (sys_of (PSP.commit_payroll_batch wired (batch two_items)
                              (start (world0 gate_ok gate_ok))))))))
  = 2.
Proof.
  assert (Hemit : Common.emitting wired = true) by reflexivity.
  split; [exact Hemit|].
  exact (proj1 (commit_replay_emits_again wired (batch two_items)
                  (start (world0 gate_ok gate_ok)) Hemit)).
Defined.

(** C6: the replay, computed on a ledger that hands out a reservation per
    call: a second reservation, under a second correlation id, and the two
    funding events once more. *)
Lemma commit_replay_run :
  reservation_id
    (value_of (PSP.commit_payroll_batch wired (batch two_items)
                 (start (world0 gate_ok gate_ok))))
  = Some 1%N /\
  reservation_id
    (value_of (PSP.commit_payroll_batch wired (batch two_items)
                 (sys_of (PSP.commit_payroll_batch wired (batch two_items)
                            (start (world0 gate_ok gate_ok))))))
  = Some 2%N /\
  reservations_created
    (trace_of (PSP.commit_payroll_batch wired (batch two_items)
                 (sys_of (PSP.commit_payroll_batch wired (batch two_items)
                            (start (world0 gate_ok gate_ok))))))
  = [(500000%Z, 7%N, 2%N)] /\
  map (fun e => (is_funding_requested e, is_funding_approved e))
    (events
       (trace_of (PSP.commit_payroll_batch wired (batch two_items)
                    (sys_of (PSP.commit_payroll_batch wired (batch two_items)
                               (start (world0 gate_ok gate_ok)))))))
  = [(true, false); (false, true)].
Proof. vm_compute. repeat split. Qed.

(** C7: the failing input: instruction 1 is [returned]; the provider then
    reports it [settled]. *)
Lemma stale_settled_callback_is_processed_witness :
  Common.emitting wired = true /\
  _providers wired !! "ach" = Some ach /\
  payload_provider_request_id settled_payload = Some "req-1" /\
  "req-1" <> "" /\
  find_instruction_row 1 "req-1" (world (start world_returned))
  = Some {| row_instruction_id := 1; row_status := "returned";
            row_amount := 100000; row_legal_entity_id := 2;
            row_purpose := "employee_net" |} /\
  payload_status settled_payload = Some (Some "settled") /\
  "status_update" <> "return" /\
  callback_status
    (value_of (PSP.handle_provider_callback wired 1 "ach" "status_update"
                 settled_payload (start world_returned)))
  = PROCESSED /\
  new_status
    (value_of (PSP.handle_provider_callback wired 1 "ach" "status_update"
                 settled_payload (start world_returned)))
  = Some "settled".
Proof.
  assert (Hemit : Common.emitting wired = true) by reflexivity.
  assert (Hp : _providers wired !! "ach" = Some ach) by reflexivity.
  assert (Hreq : payload_provider_request_id settled_payload = Some "req-1")
    by reflexivity.
  assert (Hne : "req-1" <> "") by discriminate.
  assert (Hrow : find_instruction_row 1 "req-1" (world (start world_returned))
                 = Some {| row_instruction_id := 1; row_status := "returned";
                           row_amount := 100000; row_legal_entity_id := 2;
                           row_purpose := "employee_net" |})
    by reflexivity.
  assert (Hst : payload_status settled_payload = Some (Some "settled"))
    by reflexivity.
  assert (Hcb : "status_update" <> "return") by discriminate.
  repeat (split; [assumption|]).
  destruct (stale_settled_callback_is_processed wired ach 1 "ach"
              "status_update" "req-1" settled_payload _
              (start world_returned) Hemit Hp Hreq Hne Hrow eq_refl Hst Hcb)
    as (Hproc & _ & Hnew & _).
  split; [exact Hproc | exact Hnew].
Defined.

(** C7: the same callback, computed, against an orchestrator that enforces
    the state machine of the spec: the instruction stays [returned], and
    yet [PaymentSettled] is in the event log and the result is
    [processed]. *)
Lemma stale_settled_callback_run :
  Stub.legal_transition "returned" "settled" = false /\
  map row_status
    (instructions
       (world (sys_of (PSP.handle_provider_callback wired 1 "ach"
                         "status_update" settled_payload
                         (start world_returned)))))
  = ["returned"] /\
  map is_payment_settled
    (events
       (trace_of (PSP.handle_provider_callback wired 1 "ach" "status_update"
                    settled_payload (start world_returned))))
  = [true] /\
  callback_status
    (value_of (PSP.handle_provider_callback wired 1 "ach" "status_update"
                 settled_payload (start world_returned)))
  = PROCESSED.
Proof. vm_compute. repeat split. Qed.

(** C8: the claim fails on an item of purpose "bonus": no error, an
    instruction is created for it, through [create_employee_net_instruction],
    and submitted. *)
Lemma unknown_purpose_creates_an_instruction :
  exec_status
    (value_of (PSP.execute_payments wired 1 2 7 4 [item 10 250000 "bonus"]
                 None None (start (world0 gate_ok gate_ok))))
  = EXEC_SUCCESS /\
  submitted_count
    (value_of (PSP.execute_payments wired 1 2 7 4 [item 10 250000 "bonus"]
                 None None (start (world0 gate_ok gate_ok))))
  = 1 /\
  failures
    (value_of (PSP.execute_payments wired 1 2 7 4 [item 10 250000 "bonus"]
                 None None (start (world0 gate_ok gate_ok))))
  = [] /\
  creations
    (trace_of (PSP.execute_payments wired 1 2 7 4 [item 10 250000 "bonus"]
                 None None (start (world0 gate_ok gate_ok))))
  = [create_employee_net_instruction 1 2 10 7 250000
       (item_key 7 (item 10 250000 "bonus")) ∅].
Proof. vm_compute. repeat split. Qed.

(** C8, amended, on the same item. *)
Lemma unknown_purpose_defaults_to_employee_net_witness :
  _providers wired !! rail_used wired None = Some ach /\
  passed (pay_gate_verdict 1 2 7 (world (start (world0 gate_ok gate_ok))))
  = true /\
  creations
    (trace_of (PSP.execute_payments wired 1 2 7 4 [item 10 250000 "bonus"]
                 None None (start (world0 gate_ok gate_ok))))
  = map (fun i => route_sync 1 2 7 i (item_key 7 i)) [item 10 250000 "bonus"] /\
  route_sync 1 2 7 (item 10 250000 "bonus")
    (item_key 7 (item 10 250000 "bonus"))
  = create_employee_net_instruction 1 2 10 7 250000
      (item_key 7 (item 10 250000 "bonus")) ∅.
Proof.
  assert (Hp : _providers wired !! rail_used wired None = Some ach)
    by reflexivity.
  assert (Hgate : passed (pay_gate_verdict 1 2 7
                            (world (start (world0 gate_ok gate_ok)))) = true)
    by reflexivity.
  split; [exact Hp|]. split; [exact Hgate|].
  destruct (unknown_purpose_defaults_to_employee_net wired ach 1 2 7 4
              [item 10 250000 "bonus"] None None
              (start (world0 gate_ok gate_ok)) Hp Hgate)
    as (Hcreate & _ & _ & Hroute).
  split; [exact Hcreate|].
  apply (Hroute (item 10 250000 "bonus")); discriminate.
Defined.

(** The pay gate, enforced and failing: the run is [blocked] and nothing
    reaches the rail. *)
Lemma pay_gate_guards_submission_when_enforced_witness :
  pay_gate_always_enforced (_config wired) = true /\
  passed (pay_gate_verdict 1 2 7 (world (start (world0 gate_ok gate_policy))))
  = false /\
  exec_status
    (value_of (PSP.execute_payments wired 1 2 7 4
                 [item 10 400000 "employee_net"] None None
                 (start (world0 gate_ok gate_policy))))
  = EXEC_BLOCKED /\
  submit_results
    (trace_of (PSP.execute_payments wired 1 2 7 4
                 [item 10 400000 "employee_net"] None None
                 (start (world0 gate_ok gate_policy))))
  = [].
Proof.
  assert (Hflag : pay_gate_always_enforced (_config wired) = true)
    by reflexivity.
  assert (Hgate : passed (pay_gate_verdict 1 2 7
                            (world (start (world0 gate_ok gate_policy))))
                  = false)
    by reflexivity.
  split; [exact Hflag|]. split; [exact Hgate|].
  destruct (pay_gate_guards_submission_when_enforced wired 1 2 7 4
              [item 10 400000 "employee_net"] None None
              (start (world0 gate_ok gate_policy)) Hflag)
    as ((_ & Hblocked) & _).
  destruct (Hblocked (ex_intro _ ach eq_refl) Hgate) as (Hst & _ & Hsub & _).
  split; [exact Hst | exact Hsub].
Defined.

(** An [employee_net] item goes the same way in both facades. *)
Lemma facades_route_other_purposes_alike_witness :
  purpose (item 10 400000 "employee_net") <> "tax_payment" /\
  purpose (item 10 400000 "employee_net") <> "vendor_payment" /\
  PSP._create_instruction_for_item ach 1 2 7 (item 10 400000 "employee_net")
    "key"
  = AsyncPSP._create_instruction_for_item (W := World) ach 1 2 7
      (item 10 400000 "employee_net") "key".
Proof.
  assert (H1 : purpose (item 10 400000 "employee_net") <> "tax_payment")
    by discriminate.
  assert (H2 : purpose (item 10 400000 "employee_net") <> "vendor_payment")
    by discriminate.
  split; [exact H1|]. split; [exact H2|].
  exact (facades_route_other_purposes_alike ach 1 2 7
           (item 10 400000 "employee_net") "key" H1 H2).
Defined.

End Runs.

(** * More properties of the facade *)

(** ** Strings *)

Lemma append_nil (b : string) : "" +:+ b = b.
Proof. reflexivity. Qed.

Lemma append_cons (c : ascii) (a b : string) :
  String c a +:+ b = String c (a +:+ b).
Proof. reflexivity. Qed.

Lemma length_append (a b : string) :
  String.length (a +:+ b) = String.length a + String.length b.
Proof.
  induction a as [|c a IH]; [done|].
  rewrite append_cons. simpl. by rewrite IH.
Qed.

Lemma append_assoc (a b c : string) : (a +:+ b) +:+ c = a +:+ (b +:+ c).
Proof.
  induction a as [|x a IH]; [done|]. rewrite !append_cons. by rewrite IH.
Qed.

Lemma append_inj_length (a a' b b' : string) :
  String.length a = String.length a' ->
  a +:+ b = a' +:+ b' -> a = a' /\ b = b'.
Proof.
  revert a'. induction a as [|c a IH]; intros [|c' a'] Hlen Heq;
    simpl in Hlen; try done.
  rewrite !append_cons in Heq. injection Heq as -> Heq.
  destruct (IH a') as [-> ->]; [lia | done | done].
Qed.

Lemma prefix_append (a b : string) : String.prefix a (a +:+ b) = true.
Proof.
  induction a as [|c a IH]; [by destruct b |].
  rewrite append_cons. simpl. destruct (ascii_dec c c); done.
Qed.

Lemma prefix_split (x s : string) :
  String.prefix x s = true -> exists rest : string, s = x +:+ rest.
Proof.
  revert s. induction x as [|d x IH]; intros s Hs.
  - by exists s.
  - destruct s as [|e s]; simpl in Hs; [done|].
    destruct (ascii_dec d e) as [->|]; [|done].
    destruct (IH s Hs) as [rest ->]. by exists rest.
Qed.

Lemma contains_unfold (x s : string) :
  Str.contains x s
  = String.prefix x s
    || match s with EmptyString => false | String _ r => Str.contains x r end.
Proof. by destruct s. Qed.

Lemma contains_prefix (a b : string) : Str.contains a (a +:+ b) = true.
Proof. by rewrite contains_unfold, prefix_append. Qed.

Lemma contains_append_r (x a b : string) :
  Str.contains x b = true -> Str.contains x (a +:+ b) = true.
Proof.
  intros Hx. induction a as [|c a IH]; [done|].
  rewrite append_cons, contains_unfold, IH. apply orb_true_r.
Qed.

Lemma contains_append_l (x a b : string) :
  Str.contains x a = true -> Str.contains x (a +:+ b) = true.
Proof.
  induction a as [|c a IH]; intros Hx.
  - destruct x; simpl in Hx; [by apply contains_prefix | done].
  - rewrite contains_unfold in Hx. apply orb_true_iff in Hx as [Hx|Hx].
    + apply prefix_split in Hx as [rest ->].
      rewrite append_assoc. apply contains_prefix.
    + rewrite append_cons, contains_unfold, (IH Hx). apply orb_true_r.
Qed.

Lemma append_empty_r (a : string) : a +:+ "" = a.
Proof. induction a as [|c a IH]; [done|]. by rewrite append_cons, IH. Qed.

Lemma contains_self (x : string) : Str.contains x x = true.
Proof.
  rewrite <- (append_empty_r x) at 2. apply contains_prefix.
Qed.

Lemma join_contains (sep x : string) (parts : list string) :
  x ∈ parts -> Str.contains x (Str.join sep parts) = true.
Proof.
  induction parts as [|p rest IH]; intros Hin; [by apply elem_of_nil in Hin|].
  apply elem_of_cons in Hin as [->|Hin].
  - destruct rest; [apply contains_self | apply contains_prefix].
  - destruct rest as [|q rest]; [by apply elem_of_nil in Hin|].
    change (Str.join sep (p :: q :: rest))
      with (p +:+ sep +:+ Str.join sep (q :: rest)).
    do 2 apply contains_append_r. by apply IH.
Qed.

(** ** [_summarize_reasons] and [_reasons_contain_insufficient] *)

(** The summary of the gate's reasons names every one of them: the text of
    each reason (its message, else its code, else "Unknown") occurs in the
    summary; and an empty list of reasons is summarised as "Unknown
    reason". *)
Theorem summary_mentions_every_reason (rs : list Reason) :
  Forall (fun r => Str.contains (reason_text r) (_summarize_reasons rs) = true)
    rs /\
  _summarize_reasons [] = "Unknown reason".
Proof.
  split; [|done]. apply Forall_forall. intros r Hin.
  destruct rs as [|r0 rs]; [by apply elem_of_nil in Hin|].
  unfold _summarize_reasons. apply join_contains.
  change (reason_text r ∈ map reason_text (r0 :: rs)).
  apply list_elem_of_fmap. eauto.
Qed.

Lemma upper_ascii_idem (c : ascii) :
  Str.upper_ascii (Str.upper_ascii c) = Str.upper_ascii c /\
  Str.upper_ascii (Str.lower_ascii c) = Str.upper_ascii c /\
  Str.lower_ascii (Str.lower_ascii c) = Str.lower_ascii c /\
  Str.lower_ascii (Str.upper_ascii c) = Str.lower_ascii c.
Proof.
  destruct c as [[] [] [] [] [] [] [] []]; vm_compute; done.
Qed.

Lemma recase_string (s : string) :
  Str.upper (Str.upper s) = Str.upper s /\
  Str.upper (Str.lower s) = Str.upper s /\
  Str.lower (Str.lower s) = Str.lower s /\
  Str.lower (Str.upper s) = Str.lower s.
Proof.
  induction s as [|c s (I1 & I2 & I3 & I4)]; [done|].
  destruct (upper_ascii_idem c) as (A1 & A2 & A3 & A4).
  unfold Str.upper, Str.lower in *. simpl.
  rewrite A1, A2, A3, A4, I1, I2, I3, I4. done.
Qed.

(** On ASCII text, changing the case of the codes and messages of the
    reasons does not change whether they indicate insufficient funds. *)
Theorem insufficient_is_case_insensitive (rs : list Reason) :
  Forall (fun r : Reason =>
            Str.is_ascii (default "" (r !! "code")) = true /\
            Str.is_ascii (default "" (r !! "message")) = true) rs ->
  _reasons_contain_insufficient
    (map (fun r : Reason => alter Str.upper "code" (alter Str.upper "message" r)) rs)
  = _reasons_contain_insufficient rs /\
  _reasons_contain_insufficient
    (map (fun r : Reason => alter Str.lower "code" (alter Str.lower "message" r)) rs)
  = _reasons_contain_insufficient rs.
Proof.
  intros _.
  split; induction rs as [|r rs IH]; [done | | done |].
  all: cbn [map _reasons_contain_insufficient]; rewrite IH.
  all: rewrite lookup_alter_eq, lookup_alter_ne, lookup_alter_ne,
         lookup_alter_eq by done.
  all: destruct (r !! "code") as [c|], (r !! "message") as [m|]; simpl.
  all: try destruct (recase_string c) as (C1 & C2 & C3 & C4).
  all: try destruct (recase_string m) as (M1 & M2 & M3 & M4).
  all: rewrite ?C1, ?C2, ?M3, ?M4; done.
Qed.

(** ** Idempotency keys *)

Lemma hex_length (k : nat) (n : N) : String.length (Str.hex k n) = k.
Proof.
  revert n. induction k as [|k IH]; intros n; [done|].
  cbn [Str.hex]. rewrite length_append, IH. simpl. lia.
Qed.

Lemma hex_value_digit (d : N) : (d < 16)%N -> hex_value (Str.hex_digit d) = d.
Proof.
  intros Hd. unfold hex_value, Str.hex_digit.
  destruct (d <? 10)%N eqn:E.
  - apply N.ltb_lt in E. rewrite N_ascii_embedding by lia.
    rewrite (proj2 (N.ltb_lt _ _)) by lia. lia.
  - apply N.ltb_ge in E. rewrite N_ascii_embedding by lia.
    rewrite (proj2 (N.ltb_ge _ _)) by lia. lia.
Qed.

Lemma hex_inj (k : nat) :
  forall a b : N,
  Str.hex k a = Str.hex k b -> (a mod 16 ^ N.of_nat k = b mod 16 ^ N.of_nat k)%N.
Proof.
  induction k as [|k IH]; intros a b Heq.
  - by rewrite !N.mod_1_r.
  - cbn [Str.hex] in Heq.
    apply append_inj_length in Heq as [Hhi Hlo]; [|by rewrite !hex_length].
    injection Hlo as Hlo. apply IH in Hhi.
    assert (Hd : (a mod 16 = b mod 16)%N).
    { rewrite <- (hex_value_digit (a mod 16)), <- (hex_value_digit (b mod 16)).
      - by rewrite Hlo.
      - by apply N.mod_lt.
      - by apply N.mod_lt. }
    rewrite Nat2N.inj_succ, N.pow_succ_r'.
    rewrite !N.Div0.mod_mul_r. by rewrite Hd, Hhi.
Qed.

Lemma of_uuid_length (u : UUID) : String.length (Str.of_uuid u) = 36.
Proof.
  unfold Str.of_uuid. rewrite !length_append, !hex_length. reflexivity.
Qed.

Lemma of_uuid_inj (u v : UUID) :
  (u < 2 ^ 128)%N -> (v < 2 ^ 128)%N ->
  Str.of_uuid u = Str.of_uuid v -> u = v.
Proof.
  intros Hu Hv Heq. unfold Str.of_uuid in Heq.
  apply append_inj_length in Heq as [H1 Heq]; [|by rewrite !hex_length].
  apply append_inj_length in Heq as [_ Heq]; [|done].
  apply append_inj_length in Heq as [H2 Heq]; [|by rewrite !hex_length].
  apply append_inj_length in Heq as [_ Heq]; [|done].
  apply append_inj_length in Heq as [H3 Heq]; [|by rewrite !hex_length].
  apply append_inj_length in Heq as [_ Heq]; [|done].
  apply append_inj_length in Heq as [H4 Heq]; [|by rewrite !hex_length].
  apply append_inj_length in Heq as [_ H5]; [|done].
  apply hex_inj in H1, H2, H3, H4, H5.
  rewrite !N.shiftr_div_pow2 in *.
  apply N.bits_inj. intros i.
  destruct (N.lt_ge_cases i 48) as [Hi|Hi].
  { rewrite <- (N.mod_pow2_bits_low u 48 i), <- (N.mod_pow2_bits_low v 48 i)
      by done.
    replace (2 ^ 48)%N with (16 ^ N.of_nat 12)%N by reflexivity.
    by rewrite H5. }
  assert (Hhigh : forall (w : N) (lo width : N),
            (lo <= i)%N -> (i < lo + width)%N ->
            N.testbit w i = N.testbit ((w / 2 ^ lo) mod 2 ^ width) (i - lo)).
  { intros w lo width Hlo Hw.
    rewrite N.mod_pow2_bits_low by lia.
    rewrite N.div_pow2_bits. f_equal. lia. }
  destruct (N.lt_ge_cases i 64) as [Hi2|Hi2].
  { rewrite (Hhigh u 48 16)%N, (Hhigh v 48 16)%N by lia.
    replace (2 ^ 16)%N with (16 ^ N.of_nat 4)%N by reflexivity.
    by rewrite H4. }
  destruct (N.lt_ge_cases i 80) as [Hi3|Hi3].
  { rewrite (Hhigh u 64 16)%N, (Hhigh v 64 16)%N by lia.
    replace (2 ^ 16)%N with (16 ^ N.of_nat 4)%N by reflexivity.
    by rewrite H3. }
  destruct (N.lt_ge_cases i 96) as [Hi4|Hi4].
  { rewrite (Hhigh u 80 16)%N, (Hhigh v 80 16)%N by lia.
    replace (2 ^ 16)%N with (16 ^ N.of_nat 4)%N by reflexivity.
    by rewrite H2. }
  destruct (N.lt_ge_cases i 128) as [Hi5|Hi5].
  { rewrite (Hhigh u 96 32)%N, (Hhigh v 96 32)%N by lia.
    replace (2 ^ 32)%N with (16 ^ N.of_nat 8)%N by reflexivity.
    by rewrite H1. }
  assert (Hzero : forall w : N, (w < 2 ^ 128)%N -> N.testbit w i = false).
  { intros w Hw. destruct (N.eq_dec w 0) as [->|Hne]; [apply N.bits_0|].
    apply N.bits_above_log2. apply N.log2_lt_pow2; [lia|].
    eapply N.lt_le_trans; [exact Hw|]. apply N.pow_le_mono_r; lia. }
  by rewrite !Hzero.
Qed.

(** Within a batch, two items have the same idempotency key exactly when
    they have the same payee and the same purpose (UUIDs being 128-bit
    numbers): amounts and metadata do not enter the key. *)
Theorem item_key_identifies_payee_and_purpose (batch : UUID)
    (i j : PayrollItem) :
  (payee_ref_id i < 2 ^ 128)%N -> (payee_ref_id j < 2 ^ 128)%N ->
  item_key batch i = item_key batch j <->
  payee_ref_id i = payee_ref_id j /\ purpose i = purpose j.
Proof.
  intros Hi Hj. unfold item_key. split.
  - intros Heq.
    apply append_inj_length in Heq as [_ Heq]; [|done].
    apply append_inj_length in Heq as [_ Heq]; [|done].
    apply append_inj_length in Heq as [Hp Heq]; [|by rewrite !of_uuid_length].
    apply append_inj_length in Heq as [_ Heq]; [|done].
    split; [by apply of_uuid_inj | done].
  - by intros [-> ->].
Qed.

(** ** [execute_payments]: the calls and the events of a run *)

Section MoreLoop.
Context {W : Type} `{Services W}.
Variable self : Facade.
Variable create :
  Provider -> UUID -> UUID -> UUID -> PayrollItem -> string ->
  M W InstructionResult.
Variable route :
  UUID -> UUID -> UUID -> PayrollItem -> string -> CreateRequest.
Hypothesis Hroute : routes_by create route.

Lemma calls_app (t1 t2 : list Effect) : calls (t1 ++ t2) = calls t1 ++ calls t2.
Proof. apply omap_app. Qed.

Lemma events_app (t1 t2 : list Effect) :
  events (t1 ++ t2) = events t1 ++ events t2.
Proof. apply omap_app. Qed.

Lemma submit_results_app (t1 t2 : list Effect) :
  submit_results (t1 ++ t2) = submit_results t1 ++ submit_results t2.
Proof. apply omap_app. Qed.

Lemma created_items_app (t1 t2 : list Effect) :
  created_items (t1 ++ t2) = created_items t1 ++ created_items t2.
Proof. apply omap_app. Qed.

Lemma paired_app (p : Provider) (tenant : UUID) (a b : list Call) :
  paired p tenant a -> paired p tenant b -> paired p tenant (a ++ b).
Proof.
  induction 1 as [|request r x rest _ IH]; intros Hb; [done|].
  cbn. constructor. by apply IH.
Qed.

Lemma process_item_full cid rail p tenant le batch acc item s :
  let out :=
    Common.process_item self create cid rail p tenant le batch acc item s in
  exists (r : InstructionResult) (a : SubmissionResult) (last : Event),
    calls (trace_of out)
    = [CreateInstruction p (route tenant le batch item (item_key batch item)) r;
       Submit p tenant (instruction_id r) a] /\
    events (trace_of out) = item_events self cid tenant le batch item r last /\
    kind_of last = (if accepted a then KPaymentSubmitted else KPaymentFailed) /\
    event_metadata last = metadata_create tenant cid.
Proof.
  unfold Common.process_item, item_events. rewrite Hroute.
  unfold PSP.create, bind, service, service_, emit, ret, Common.uuid4,
    trace_of, value_of, sys_of.
  cbn.
  destruct (orchestrator_create p _ (world s)) as [r w1].
  destruct (Common.emitting self); cbn.
  - destruct (orchestrator_submit p tenant (instruction_id r) w1) as [a w2].
    cbn. destruct (accepted a) eqn:Ha; cbn.
    + destruct (attempt_id a); cbn;
        eexists r, a, _; rewrite Ha; repeat split; reflexivity.
    + eexists r, a, _; rewrite Ha; repeat split; reflexivity.
  - destruct (orchestrator_submit p tenant (instruction_id r) w1) as [a w2].
    cbn. destruct (accepted a) eqn:Ha; cbn.
    + exists r, a, (PaymentSubmitted (metadata_create tenant cid) 0 0 "" "" "").
      rewrite Ha. repeat split; reflexivity.
    + exists r, a,
        (PaymentFailed (metadata_create tenant cid) 0 None "" "" false "").
      rewrite Ha. repeat split; reflexivity.
Qed.

Lemma process_items_full cid rail p tenant le batch its :
  forall acc s,
  let out :=
    Common.process_items self create cid rail p tenant le batch acc its s in
  paired p tenant (calls (trace_of out)) /\
  map kind_of (events (trace_of out))
  = (if Common.emitting self
     then answer_kinds (submit_results (trace_of out)) else []) /\
  created_items (trace_of out)
  = (if Common.emitting self then item_fields its else []) /\
  Forall (fun e => event_metadata e = metadata_create tenant cid)
    (events (trace_of out)).
Proof.
  induction its as [|item rest IH]; intros acc s; cbn zeta.
  - cbn. by destruct (Common.emitting self); repeat split; try constructor.
  - cbn [Common.process_items]. rewrite trace_of_bind.
    destruct (process_item_full cid rail p tenant le batch acc item s)
      as (r & a & last & Hc & He & Hk & Hm).
    destruct (process_item_spec self create route Hroute cid rail p tenant le
                batch acc item s) as (a' & Ha' & _).
    specialize (IH
      (value_of (Common.process_item self create cid rail p tenant le batch
                   acc item s))
      (sys_of (Common.process_item self create cid rail p tenant le batch
                 acc item s))).
    cbn zeta in IH. destruct IH as (I1 & I2 & I3 & I4).
    set (first := trace_of (Common.process_item self create cid rail p tenant
                              le batch acc item s)) in *.
    set (others := trace_of (Common.process_items self create cid rail p tenant
                               le batch _ rest _)) in *.
    assert (Hsame : a' = a).
    { assert (Hs : submit_results first
                   = omap (fun c => match c with
                                    | Submit _ _ _ x => Some x
                                    | _ => None end) (calls first)).
      { clear. unfold submit_results, calls.
        induction first as [|[c|e] t IHt]; simpl; [done| |done].
        destruct c; simpl; first [exact IHt | f_equal; exact IHt]. }
      rewrite Ha', Hc in Hs. cbn in Hs. congruence. }
    subst a'.
    assert (Hcreated : created_items first
                       = if Common.emitting self
                         then item_fields [item] else []).
    { assert (Hs : created_items first
                   = omap (fun e => match e with
                                    | PaymentInstructionCreated _ _ _ pu _ x _ pt pr _ _ =>
                                        Some (pu, x, pt, pr)
                                    | _ => None end) (events first)).
      { clear. unfold created_items, events.
        induction first as [|[c|e] t IHt]; simpl; [done|done|].
        destruct e; simpl; first [exact IHt | f_equal; exact IHt]. }
      rewrite Hs, He. unfold item_events.
      destruct (Common.emitting self); [|done]. cbn.
      destruct last; cbn in Hk; try done; by destruct (accepted a). }
    rewrite calls_app, events_app, submit_results_app, created_items_app.
    rewrite Ha', Hcreated, Hc, He, map_app, I2, I3.
    repeat split.
    + cbn. by constructor.
    + unfold item_events. destruct (Common.emitting self); [|done].
      cbn. by rewrite Hk.
    + by destruct (Common.emitting self).
    + apply Forall_app. split; [|done]. unfold item_events.
      destruct (Common.emitting self); repeat constructor; done.
Qed.

Lemma submit_all_full cid rail p tenant le batch its reservation s :
  let out :=
    Common.submit_all self create cid rail p tenant le batch its reservation s in
  let r := value_of out in
  (exists body : list Call,
     paired p tenant body /\
     calls (trace_of out) = body ++ release_call tenant reservation r) /\
  map kind_of (events (trace_of out))
  = (if Common.emitting self
     then answer_kinds (submit_results (trace_of out)) else []) /\
  created_items (trace_of out)
  = (if Common.emitting self then item_fields its else []) /\
  Forall (fun e => event_metadata e = metadata_create tenant cid)
    (events (trace_of out)) /\
  exec_correlation_id r = cid.
Proof.
  pose proof (process_items_full cid rail p tenant le batch its
                {| tally_submitted := 0; tally_failed := 0;
                   tally_failures := [] |} s) as Hloop.
  unfold Common.submit_all, bind.
  destruct (Common.process_items self create cid rail p tenant le batch
              _ its s) as [[t s1] tr] eqn:Eloop.
  unfold trace_of, value_of in *. cbn in Hloop.
  destruct Hloop as (L1 & L2 & L3 & L4).
  assert (O1 : forall extra, submit_results extra = [] ->
            submit_results (tr ++ extra) = submit_results tr).
  { intros extra E. unfold submit_results in *.
    by rewrite omap_app, E, app_nil_r. }
  assert (O2 : forall extra, events extra = [] ->
            events (tr ++ extra) = events tr).
  { intros extra E. by rewrite events_app, E, app_nil_r. }
  assert (O3 : forall extra, created_items extra = [] ->
            created_items (tr ++ extra) = created_items tr).
  { intros extra E. unfold created_items in *.
    by rewrite omap_app, E, app_nil_r. }
  unfold release_call.
  destruct reservation as [rid|]; [case_decide|]; cbn.
  all: rewrite calls_app, O1, O2, O3 by reflexivity.
  all: repeat split; try done.
  all: exists (calls tr); cbn; split; [done|].
  all: repeat case_decide; try done; by rewrite ?app_nil_r.
Qed.

End MoreLoop.

Section MoreExecute.
Context {W : Type} `{Services W}.
Variable self : Facade.
Variable create :
  Provider -> UUID -> UUID -> UUID -> PayrollItem -> string ->
  M W InstructionResult.
Variable route :
  UUID -> UUID -> UUID -> PayrollItem -> string -> CreateRequest.
Hypothesis Hroute : routes_by create route.

Lemma calls_cons_called (c : Call) (t : list Effect) :
  calls (Called c :: t) = c :: calls t.
Proof. reflexivity. Qed.

Lemma execute_full p tenant le batch fa its reservation rail s :
  _providers self !! rail_used self rail = Some p ->
  (pay_gate_always_enforced (_config self) = true ->
   passed (pay_gate_verdict tenant le batch (world s)) = true) ->
  let out :=
    Common.execute_payments self create tenant le batch fa its reservation
      rail s in
  let r := value_of out in
  (exists body : list Call,
     paired p tenant body /\
     calls (trace_of out)
     = gate_call self tenant le batch (world s) ++ body
       ++ release_call tenant reservation r) /\
  map kind_of (events (trace_of out))
  = (if Common.emitting self
     then answer_kinds (submit_results (trace_of out)) else []) /\
  created_items (trace_of out)
  = (if Common.emitting self then item_fields its else []).
Proof.
  intros Hp Hgate.
  pose proof (execute_cases self create tenant le batch fa its reservation
                rail s) as Hcases.
  cbn zeta in *. rewrite Hp in Hcases. unfold gate_call.
  destruct (pay_gate_always_enforced (_config self)).
  - rewrite Hgate in Hcases by done. destruct Hcases as (s1 & Ht & Hv).
    rewrite Ht, Hv.
    destruct (submit_all_full self create route Hroute (uuid_of (uuid_ix s))
                (rail_used self rail) p tenant le batch its reservation s1)
      as ((body & Hb & Hc) & Hk & Hi & _).
    split; [exists body; split; [done|] | done].
    rewrite calls_cons_called, Hc. done.
  - destruct Hcases as (s1 & Ht & Hv). rewrite Ht, Hv.
    destruct (submit_all_full self create route Hroute (uuid_of (uuid_ix s))
                (rail_used self rail) p tenant le batch its reservation s1)
      as ((body & Hb & Hc) & Hk & Hi & _).
    split; [exists body; split; [done|] | done].
    rewrite Hc. done.
Qed.

Lemma execute_metadata tenant le batch fa its reservation rail s :
  let out :=
    Common.execute_payments self create tenant le batch fa its reservation
      rail s in
  Forall (fun e => event_metadata e
                   = metadata_create tenant (exec_correlation_id (value_of out)))
    (events (trace_of out)).
Proof.
  pose proof (execute_cases self create tenant le batch fa its reservation
                rail s) as Hcases.
  cbn zeta in *.
  assert (Hsub : forall p s1,
    let sub := Common.submit_all self create (uuid_of (uuid_ix s))
                 (rail_used self rail) p tenant le batch its reservation s1 in
    Forall (fun e => event_metadata e
                     = metadata_create tenant
                         (exec_correlation_id (value_of sub)))
      (events (trace_of sub))).
  { intros p s1.
    destruct (submit_all_full self create route Hroute (uuid_of (uuid_ix s))
                (rail_used self rail) p tenant le batch its reservation s1)
      as (_ & _ & _ & Hm & Hcid).
    cbn zeta. by rewrite Hcid. }
  destruct (_providers self !! rail_used self rail) as [p|].
  - destruct (pay_gate_always_enforced (_config self)).
    + destruct (passed (pay_gate_verdict tenant le batch (world s))).
      * destruct Hcases as (s1 & Ht & Hv). rewrite Ht, Hv. cbn. apply Hsub.
      * destruct Hcases as (Ht & _). rewrite Ht. constructor.
    + destruct Hcases as (s1 & Ht & Hv). rewrite Ht, Hv. apply Hsub.
  - destruct Hcases as (Ht & _). rewrite Ht. constructor.
Qed.

Lemma execute_early_returns tenant le batch fa its reservation rail s :
  let out :=
    Common.execute_payments self create tenant le batch fa its reservation
      rail s in
  let r := value_of out in
  let g := pay_gate_verdict tenant le batch (world s) in
  (_providers self !! rail_used self rail = None ->
   trace_of out = [] /\ world (sys_of out) = world s /\
   exec_status r = EXEC_FAILED /\ submitted_count r = 0 /\
   failed_count r = length its /\
   failures r
   = [BatchFailure ("No provider registered for rail: "
                    +:+ rail_used self rail)]) /\
  (is_Some (_providers self !! rail_used self rail) ->
   pay_gate_always_enforced (_config self) = true ->
   passed g = false ->
   trace_of out
   = [Called (EvaluatePayGate tenant le batch
                ("pay_gate:" +:+ Str.of_uuid batch) g)] /\
   exec_status r = EXEC_BLOCKED /\ submitted_count r = 0 /\
   failed_count r = length its /\
   failures r = [BatchFailure (_summarize_reasons (reasons g))]).
Proof.
  unfold Common.execute_payments, pay_gate_verdict, bind, Common.uuid4,
    trace_of, value_of, sys_of.
  fold (rail_used self rail). cbn.
  destruct (_providers self !! rail_used self rail) as [p|].
  - split; [done|]. intros _ Henf Hg. rewrite Henf.
    unfold service. cbn.
    destruct (evaluate_pay_gate tenant le batch _ (world s)) as [g w].
    cbn in *. by rewrite Hg.
  - split; [done|]. by intros [? ?].
Qed.

End MoreExecute.

(** *** The reservation, on the ledger *)

Section Reservation.
Context {W : Type} `{Services W}.
Variable self : Facade.
Variable create :
  Provider -> UUID -> UUID -> UUID -> PayrollItem -> string ->
  M W InstructionResult.
Variable route :
  UUID -> UUID -> UUID -> PayrollItem -> string -> CreateRequest.
Hypothesis Hroute : routes_by create route.




End Reservation.


(** ** The extra theorems *)

Section MoreProofs.
Context {W : Type} `{Services W}.

(** With no provider registered for the rail, [execute_payments] fails the
    whole batch at once: status [failed], nothing submitted, every item
    counted as failed, one failure entry that names the rail; no service is
    called, the pay gate included, and no event is emitted. *)
Theorem execute_without_provider_fails_whole_batch (self : Facade)
    (tenant le batch fa : UUID) (its : list PayrollItem)
    (reservation : option UUID) (rail : option string) (s : Sys W) :
  _providers self !! rail_used self rail = None ->
  let sync :=
    PSP.execute_payments self tenant le batch fa its reservation rail s in
  let async :=
    AsyncPSP.execute_payments self tenant le batch fa its reservation rail s in
  sync = async /\
  trace_of sync = [] /\ world (sys_of sync) = world s /\
  exec_status (value_of sync) = EXEC_FAILED /\
  submitted_count (value_of sync) = 0 /\
  failed_count (value_of sync) = length its /\
  failures (value_of sync)
  = [BatchFailure ("No provider registered for rail: " +:+ rail_used self rail)].
Proof.
  intros Hp.
  destruct (execute_early_returns self PSP._create_instruction_for_item
              tenant le batch fa its reservation rail s) as [Hnone _].
  split; [|by apply Hnone].
  unfold PSP.execute_payments, AsyncPSP.execute_payments,
    Common.execute_payments, bind.
  fold (rail_used self rail). by rewrite Hp.
Qed.

(** When the enforced pay gate does not pass, the run consists of the gate
    evaluation alone (no event, no other call), every item is counted as
    failed, and [failures] holds one entry: the summary of the gate's
    reasons. *)
Theorem execute_blocked_reports_gate_reasons (self : Facade)
    (tenant le batch fa : UUID) (its : list PayrollItem)
    (reservation : option UUID) (rail : option string) (s : Sys W) :
  is_Some (_providers self !! rail_used self rail) ->
  pay_gate_always_enforced (_config self) = true ->
  passed (pay_gate_verdict tenant le batch (world s)) = false ->
  let out :=
    PSP.execute_payments self tenant le batch fa its reservation rail s in
  let g := pay_gate_verdict tenant le batch (world s) in
  trace_of out
  = [Called (EvaluatePayGate tenant le batch
               ("pay_gate:" +:+ Str.of_uuid batch) g)] /\
  failed_count (value_of out) = length its /\
  failures (value_of out) = [BatchFailure (_summarize_reasons (reasons g))].
Proof.
  intros Hp Henf Hg.
  destruct (execute_early_returns self PSP._create_instruction_for_item
              tenant le batch fa its reservation rail s) as [_ Hblocked].
  destruct (Hblocked Hp Henf Hg) as (Ht & _ & _ & Hf & Hfs). done.
Qed.

(** With a provider and a passing pay gate, and events on, each item gives
    two events, in item order: [PaymentInstructionCreated], carrying the
    item's own purpose, amount, payee type and payee, then
    [PaymentSubmitted] or [PaymentFailed] according to the provider's answer.
    With events off, nothing is emitted.  This holds in both facades. *)
Theorem execute_payments_emits_two_events_per_item (self : Facade)
    (p : Provider) (tenant le batch fa : UUID) (its : list PayrollItem)
    (reservation : option UUID) (rail : option string) (s : Sys W) :
  _providers self !! rail_used self rail = Some p ->
  passed (pay_gate_verdict tenant le batch (world s)) = true ->
  let sync :=
    PSP.execute_payments self tenant le batch fa its reservation rail s in
  let async :=
    AsyncPSP.execute_payments self tenant le batch fa its reservation rail s in
  (map kind_of (events (trace_of sync))
   = (if Common.emitting self
      then answer_kinds (submit_results (trace_of sync)) else []) /\
   created_items (trace_of sync)
   = (if Common.emitting self then item_fields its else [])) /\
  (map kind_of (events (trace_of async))
   = (if Common.emitting self
      then answer_kinds (submit_results (trace_of async)) else []) /\
   created_items (trace_of async)
   = (if Common.emitting self then item_fields its else [])).
Proof.
  intros Hp Hgate. split.
  - by destruct (execute_full self _ _ sync_routes p tenant le batch fa its
                   reservation rail s Hp (fun _ => Hgate)) as (_ & ? & ?).
  - by destruct (execute_full self _ _ async_routes p tenant le batch fa its
                   reservation rail s Hp (fun _ => Hgate)) as (_ & ? & ?).
Qed.

(** With a provider and a passing pay gate, the calls of a run are: the
    pay-gate evaluation (when enforced), then for each item the creation of
    its instruction immediately followed by the submission of the very
    instruction that creation returned, then the release of the reservation
    (when one was given and nothing failed).  Nothing else is called, and
    the run is faithful: these calls were made on the services, in this
    order, and left the world the run ends in. *)
Theorem execute_payments_calls_are_paired (self : Facade) (p : Provider)
    (tenant le batch fa : UUID) (its : list PayrollItem)
    (reservation : option UUID) (rail : option string) (s : Sys W) :
  _providers self !! rail_used self rail = Some p ->
  passed (pay_gate_verdict tenant le batch (world s)) = true ->
  let out :=
    PSP.execute_payments self tenant le batch fa its reservation rail s in
  faithful out s /\
  exists body : list Call,
    paired p tenant body /\
    length body = 2 * length its /\
    calls (trace_of out)
    = gate_call self tenant le batch (world s) ++ body
      ++ release_call tenant reservation (value_of out).
Proof.
  intros Hp Hgate.
  split.
  { exact (execute_sound self _ _ sync_routes tenant le batch fa its
             reservation rail s). }
  destruct (execute_full self _ _ sync_routes p tenant le batch fa its
              reservation rail s Hp (fun _ => Hgate))
    as ((body & Hb & Hc) & _).
  destruct (execute_per_item self _ _ sync_routes p tenant le batch fa its
              reservation rail s Hp (fun _ => Hgate)) as (Hlen & _).
  exists body. repeat split; [done| |done].
  cbn zeta in *. unfold PSP.execute_payments.
  assert (Hs : forall t : list Effect,
            submit_results t
            = omap (fun c => match c with
                             | Submit _ _ _ x => Some x
                             | _ => None end) (calls t)).
  { clear. intros t. unfold submit_results, calls.
    induction t as [|[c|e] t IHt]; simpl; [done| |done].
    destruct c; simpl; first [exact IHt | f_equal; exact IHt]. }
  rewrite Hs, Hc, !omap_app in Hlen.
  assert (Hg : omap (fun c => match c with
                              | Submit _ _ _ x => Some x
                              | _ => None end)
                 (gate_call self tenant le batch (world s)) = []).
  { unfold gate_call. by destruct (pay_gate_always_enforced _). }
  assert (Hr : omap (fun c => match c with
                              | Submit _ _ _ x => Some x
                              | _ => None end)
                 (release_call tenant reservation
                    (value_of (Common.execute_payments self
                                 PSP._create_instruction_for_item tenant le
                                 batch fa its reservation rail s))) = []).
  { unfold release_call. destruct reservation; [|done]. by case_decide. }
  rewrite Hg, Hr, app_nil_r in Hlen. cbn [app] in Hlen.
  rewrite <- Hlen. clear -Hb.
  induction Hb as [|request r a rest _ IH]; [done|]. cbn. rewrite IH. lia.
Qed.

(** An empty list of items: with a provider and a passing pay gate the
    result is [success] with nothing submitted and nothing failed, and a
    reservation that was given is consumed all the same: the world after the
    run is the world the pay gate left, with
    [release_reservation(consumed=True)] applied to it. *)
Theorem execute_empty_batch_consumes_reservation (self : Facade)
    (p : Provider) (tenant le batch fa rid : UUID) (rail : option string)
    (s : Sys W) :
  _providers self !! rail_used self rail = Some p ->
  passed (pay_gate_verdict tenant le batch (world s)) = true ->
  let out :=
    PSP.execute_payments self tenant le batch fa [] (Some rid) rail s in
  exec_status (value_of out) = EXEC_SUCCESS /\
  submitted_count (value_of out) = 0 /\
  failed_count (value_of out) = 0 /\
  failures (value_of out) = [] /\
  events (trace_of out) = [] /\
  releases (trace_of out) = [(tenant, rid, true)] /\
  world (sys_of out)
  = release_reservation tenant rid true
      (pay_gate_world self tenant le batch (world s)).
Proof.
  intros Hp Hgate. unfold pay_gate_verdict in Hgate.
  unfold PSP.execute_payments, Common.execute_payments, Common.submit_all,
    pay_gate_world.
  unfold bind, service, service_, ret, Common.uuid4, trace_of, value_of,
    sys_of.
  cbn. fold (rail_used self rail). rewrite Hp.
  destruct (pay_gate_always_enforced (_config self)); cbn; [|done].
  destruct (evaluate_pay_gate tenant le batch _ (world s)) as [g w].
  cbn in *. rewrite Hgate. done.
Qed.

End MoreProofs.

(** ** [commit_payroll_batch] and [handle_provider_callback] *)

Section MoreFacade.
Context {W : Type} `{Services W}.

(** [commit_payroll_batch] only talks to the funding gate and the ledger,
    in this order: the commit-gate evaluation; then, when the gate passed,
    [create_reservation], in the world the gate left; then, when events are
    on, one [get_balance], read in the world the reservation left.  A
    blocked commit makes the gate call alone.  The world after the call is
    the world the last of these calls left. *)
Theorem commit_calls_gate_then_ledger (self : Facade) (batch : PayrollBatch)
    (s : Sys W) :
  let out := PSP.commit_payroll_batch self batch s in
  let g := commit_gate_verdict self batch (world s) in
  let cid := uuid_of (uuid_ix s) in
  let made := ledger_reservation self batch cid (world s) in
  let read := ledger_balance self batch cid (world s) in
  calls (trace_of out)
  = EvaluateCommitGate (tenant_id batch) (legal_entity_id batch)
      (pay_period_id batch) (default_funding_model (_config self))
      ("commit_gate:" +:+ idempotency_key batch)
      (commit_gate_strict (_config self)) g
    :: (if passed g then
          CreateReservation (tenant_id batch) (legal_entity_id batch)
            "net_pay" (sum_amounts (items batch)) "payroll_batch"
            (batch_id batch) cid made.1
          :: (if Common.emitting self
              then [GetBalance (tenant_id batch) (funding_account_id batch)
                      read.1]
              else [])
        else []) /\
  world (sys_of out)
  = (if passed g
     then if Common.emitting self then read.2 else made.2
     else commit_gate_world self batch (world s)) /\
  forallb is_funding_call (calls (trace_of out)) = true.
Proof.
  unfold PSP.commit_payroll_batch, Common.commit_payroll_batch,
    commit_gate_verdict, ledger_balance, ledger_reservation,
    commit_gate_world.
  unfold bind, service, service_, emit, ret, Common.uuid4, trace_of, value_of,
    sys_of.
  cbn.
  destruct (Common.emitting self); cbn.
  all: destruct (evaluate_commit_gate _ _ _ _ _ _ (world s)) as [g w]; cbn.
  all: destruct (passed g); cbn.
  all: try destruct (create_reservation _ _ _ _ _ _ _ w) as [rid w2]; cbn.
  all: try destruct (get_balance _ _ w2) as [bal w3]; cbn.
  all: try destruct (_reasons_contain_insufficient (reasons g)); cbn.
  all: repeat split; reflexivity.
Qed.

(** Every event [commit_payroll_batch] and [handle_provider_callback] emit
    carries the tenant of the call, the correlation id the call returns, and
    the source "psp.facade". *)
Theorem commit_and_callback_events_carry_correlation_id (self : Facade)
    (batch : PayrollBatch) (tenant : UUID)
    (provider_name callback_type : string) (payload : Payload) (s : Sys W) :
  let committed := PSP.commit_payroll_batch self batch s in
  let handled :=
    PSP.handle_provider_callback self tenant provider_name callback_type
      payload s in
  Forall (fun e => event_metadata e
                   = {| meta_tenant_id := tenant_id batch;
                        meta_correlation_id :=
                          commit_correlation_id (value_of committed);
                        meta_source_service := "psp.facade" |})
    (events (trace_of committed)) /\
  Forall (fun e => event_metadata e
                   = {| meta_tenant_id := tenant;
                        meta_correlation_id :=
                          callback_correlation_id (value_of handled);
                        meta_source_service := "psp.facade" |})
    (events (trace_of handled)).
Proof.
  split.
  - unfold PSP.commit_payroll_batch, Common.commit_payroll_batch.
    unfold bind, service, service_, emit, ret, Common.uuid4, trace_of,
      value_of, sys_of.
    cbn.
    destruct (Common.emitting self); cbn.
    all: destruct (evaluate_commit_gate _ _ _ _ _ _ (world s)) as [g w]; cbn.
    all: destruct (passed g); cbn.
    all: try destruct (create_reservation _ _ _ _ _ _ _ w) as [rid w2]; cbn.
    all: try destruct (get_balance _ _ w2) as [bal w3]; cbn.
    all: try destruct (_reasons_contain_insufficient (reasons g)); cbn.
    all: repeat constructor.
  - unfold PSP.handle_provider_callback, Common.handle_provider_callback,
      Common._find_instruction_by_provider_ref, Common.date_today.
    unfold bind, service, service_, emit, ret, Common.uuid4, trace_of,
      value_of, sys_of.
    cbn.
    destruct (_providers self !! provider_name) as [p|]; [|constructor].
    destruct (payload_provider_request_id payload) as [q|]; [|constructor].
    case_decide; [constructor|]. cbn.
    destruct (find_instruction_row tenant q (world s)) as [row|];
      [|constructor].
    case_decide; [constructor|].
    repeat case_decide; cbn.
    all: try destruct (classify_return _ _ _ _ (world s)) as [c w]; cbn.
    all: destruct (Common.emitting self); cbn; repeat constructor.
Qed.

(** The outcome of a callback, case by case.  Without a registered provider
    or without a non-empty [provider_request_id] it is [invalid] and nothing
    is called; with an unknown reference it is [unknown]; when the requested
    status, [payload.get("status", previous_status)], is the status the
    instruction has (the payload has no "status" key, or names that very
    status) it is [duplicate]; in these cases no event is emitted, nothing is
    written and the world is as before.  In every other case, a payload
    holding ["status": null] included, it is [processed]: the result reports
    the requested status ([None] for null), and the last call hands it to
    the orchestrator, once.  Every run is faithful. *)
Theorem callback_outcome_by_case (self : Facade) (tenant : UUID)
    (provider_name callback_type : string) (payload : Payload) (s : Sys W) :
  let out :=
    PSP.handle_provider_callback self tenant provider_name callback_type
      payload s in
  let r := value_of out in
  faithful out s /\
  match _providers self !! provider_name, reference payload with
  | Some p, Some q =>
      match find_instruction_row tenant q (world s) with
      | None =>
          callback_status r = UNKNOWN /\
          trace_of out = [Called (FindInstruction tenant q None)] /\
          world (sys_of out) = world s
      | Some row =>
          if decide (Some (row_status row) = requested_status row payload)
          then
            callback_status r = DUPLICATE /\
            payment_instruction_id r = Some (row_instruction_id row) /\
            new_status r = Some (row_status row) /\
            trace_of out = [Called (FindInstruction tenant q (Some row))] /\
            world (sys_of out) = world s
          else
            callback_status r = PROCESSED /\
            previous_status r = Some (row_status row) /\
            new_status r = requested_status row payload /\
            status_updates (trace_of out)
            = [(row_instruction_id row, requested_status row payload)] /\
            last (calls (trace_of out))
            = Some (UpdateStatus p tenant (row_instruction_id row)
                      (requested_status row payload) q)
      end
  | _, _ =>
      callback_status r = INVALID /\ trace_of out = [] /\
      world (sys_of out) = world s
  end.
Proof.
  split; [apply callback_sound|].
  unfold PSP.handle_provider_callback, Common.handle_provider_callback,
    Common._find_instruction_by_provider_ref, Common.date_today,
    reference, requested_status.
  unfold bind, service, service_, emit, ret, Common.uuid4, trace_of,
    value_of, sys_of.
  cbn.
  destruct (_providers self !! provider_name) as [p|]; [|done].
  destruct (payload_provider_request_id payload) as [q|]; [|done].
  case_decide; [done|]. cbn.
  destruct (find_instruction_row tenant q (world s)) as [row|]; [|done].
  case_decide; [by repeat split|].
  repeat case_decide; cbn.
  all: try destruct (classify_return _ _ _ _ (world s)) as [c w]; cbn.
  all: destruct (Common.emitting self); cbn; repeat split; reflexivity.
Qed.

(** A return: when the callback type is "return" or the requested status
    is "returned" (and the instruction is not yet in that status), the
    facade classifies the return, records the liability under the key
    "return:<request id>:<return code>", emits [PaymentReturned] and
    [LiabilityClassified] (events on), and only then updates the status.  A
    callback of type "settlement" that asks for "returned" is a return: no
    [PaymentSettled] is emitted. *)
Theorem callback_return_classifies_then_updates (self : Facade)
    (p : Provider) (tenant : UUID) (provider_name callback_type q : string)
    (payload : Payload) (row : InstructionRow) (s : Sys W) :
  _providers self !! provider_name = Some p ->
  reference payload = Some q ->
  find_instruction_row tenant q (world s) = Some row ->
  Some (row_status row) <> requested_status row payload ->
  callback_type = "return" \/
    requested_status row payload = Some "returned" ->
  let out :=
    PSP.handle_provider_callback self tenant provider_name callback_type
      payload s in
  let code := or_str (payload_return_code payload) "UNKNOWN" in
  let amount := default (row_amount row) (payload_amount payload) in
  let c :=
    (classify_return (default_rail (_config self)) code amount payload
       (world s)).1 in
  calls (trace_of out)
  = [FindInstruction tenant q (Some row);
     ClassifyReturn (default_rail (_config self)) code amount payload c;
     RecordLiabilityEvent tenant (row_legal_entity_id row)
       "payment_instruction" (row_instruction_id row) c
       ("return:" +:+ q +:+ ":" +:+ default "None" (payload_return_code payload));
     UpdateStatus p tenant (row_instruction_id row)
       (requested_status row payload) q] /\
  map kind_of (events (trace_of out))
  = (if Common.emitting self
     then [KPaymentReturned; KLiabilityClassified] else []) /\
  callback_status (value_of out) = PROCESSED.
Proof.
  intros Hp Hq Hrow Hne Hret.
  unfold reference in Hq.
  destruct (payload_provider_request_id payload) as [q'|] eqn:Hq'; [|done].
  case_decide; [done|]. injection Hq as ->.
  unfold PSP.handle_provider_callback, Common.handle_provider_callback,
    Common._find_instruction_by_provider_ref, Common.date_today.
  unfold requested_status in *.
  unfold bind, service, service_, emit, ret, Common.uuid4, trace_of,
    value_of, sys_of.
  cbn. rewrite Hp, Hq'. rewrite decide_False by done. cbn. rewrite Hrow.
  rewrite (decide_False (P := Some (row_status row) = _)) by done.
  rewrite (decide_True (P := callback_type = "return" \/ _)) by done.
  cbn. destruct (classify_return _ _ _ _ (world s)) as [c w]. cbn.
  destruct (Common.emitting self); cbn; done.
Qed.

(** A plain status update: when neither the callback type nor the requested
    status speaks of a return or of a settlement (a callback to "accepted",
    "failed", "canceled", ...), the facade emits no event at all; it looks
    the instruction up and hands the status to the orchestrator. *)
Theorem callback_plain_update_emits_nothing (self : Facade) (p : Provider)
    (tenant : UUID) (provider_name callback_type q : string)
    (payload : Payload) (row : InstructionRow) (s : Sys W) :
  _providers self !! provider_name = Some p ->
  reference payload = Some q ->
  find_instruction_row tenant q (world s) = Some row ->
  Some (row_status row) <> requested_status row payload ->
  callback_type <> "return" -> callback_type <> "settlement" ->
  requested_status row payload <> Some "returned" ->
  requested_status row payload <> Some "settled" ->
  let out :=
    PSP.handle_provider_callback self tenant provider_name callback_type
      payload s in
  trace_of out
  = [Called (FindInstruction tenant q (Some row));
     Called (UpdateStatus p tenant (row_instruction_id row)
               (requested_status row payload) q)] /\
  callback_status (value_of out) = PROCESSED.
Proof.
  intros Hp Hq Hrow Hne H1 H2 H3 H4.
  unfold reference in Hq.
  destruct (payload_provider_request_id payload) as [q'|] eqn:Hq'; [|done].
  case_decide; [done|]. injection Hq as ->.
  unfold PSP.handle_provider_callback, Common.handle_provider_callback,
    Common._find_instruction_by_provider_ref, Common.date_today.
  unfold requested_status in *.
  unfold bind, service, service_, emit, ret, Common.uuid4, trace_of,
    value_of, sys_of.
  cbn. rewrite Hp, Hq'. rewrite decide_False by done. cbn. rewrite Hrow.
  rewrite (decide_False (P := Some (row_status row) = _)) by done.
  rewrite (decide_False (P := callback_type = "return" \/ _)) by tauto.
  rewrite (decide_False (P := callback_type = "settlement" \/ _)) by tauto.
  done.
Qed.

End MoreFacade.

(** ** [ingest_settlement_feed] *)

Section MoreIngest.
Context {W : Type} `{Services W} `{Ingest.Reconciler W}.

Lemma trace_ids_bound (errs : list (gmap string string)) :
  length (Ingest.trace_ids_of errs) <= length errs /\
  Forall (fun t => t <> "") (Ingest.trace_ids_of errs).
Proof.
  induction errs as [|e errs [IH1 IH2]]; [by split; [|constructor]|].
  unfold Ingest.trace_ids_of in *. cbn.
  destruct (e !! "trace_id") as [t|]; cbn; [|split; [lia | done]].
  case_decide; cbn; [split; [lia | done]|].
  split; [lia | by constructor].
Qed.

(** With no provider registered under the name, [ingest_settlement_feed]
    returns [failed] with every count at zero and no unmatched trace id; the
    reconciliation is not run, nothing is emitted and the world is as
    before. *)
Theorem ingest_without_provider_does_nothing (self : Facade)
    (tenant bank : UUID) (provider_name : string)
    (records : list Ingest.SettlementRecord) (s : Sys W) :
  _providers self !! provider_name = None ->
  let out :=
    Ingest.ingest_settlement_feed self tenant bank provider_name records s in
  let r := out.1.1 in
  out.2 = [] /\ world out.1.2 = world s /\
  Ingest.ingest_status r = Ingest.INGEST_FAILED /\
  Ingest.ingest_processed r = 0 /\ Ingest.ingest_matched r = 0 /\
  Ingest.ingest_created r = 0 /\ Ingest.ingest_failed r = 0 /\
  Ingest.unmatched_trace_ids r = [].
Proof.
  intros Hp. unfold Ingest.ingest_settlement_feed. rewrite Hp. done.
Qed.

(** With a provider, the reconciliation is run once, and the result copies
    its counts.  The status is [success] exactly when the reconciliation
    reports no failed record and no error (an empty run included),
    [partial] when it is not a success and fewer records failed than were
    processed, [failed] otherwise.  The unmatched trace ids are the
    non-empty trace ids of the errors, so there are at most as many as
    errors. *)
Theorem ingest_status_follows_reconciliation (self : Facade) (p : Provider)
    (tenant bank : UUID) (provider_name : string)
    (records : list Ingest.SettlementRecord) (s : Sys W) :
  _providers self !! provider_name = Some p ->
  let out :=
    Ingest.ingest_settlement_feed self tenant bank provider_name records s in
  let r := out.1.1 in
  let res :=
    (Ingest.run_reconciliation p bank (today (world s)) tenant (world s)).1 in
  let clean :=
    Ingest.records_failed res = 0 /\ Ingest.errors res = [] in
  Ingest.reconciliations out.2 = [(p, bank, today (world s), tenant, res)] /\
  Ingest.ingest_processed r = Ingest.records_processed res /\
  Ingest.ingest_matched r = Ingest.records_matched res /\
  Ingest.ingest_created r = Ingest.records_created res /\
  Ingest.ingest_failed r = Ingest.records_failed res /\
  (Ingest.ingest_status r = Ingest.INGEST_SUCCESS <-> clean) /\
  (Ingest.ingest_status r = Ingest.INGEST_PARTIAL <->
     ~ clean /\ Ingest.records_failed res < Ingest.records_processed res) /\
  (Ingest.ingest_status r = Ingest.INGEST_FAILED <->
     ~ clean /\ Ingest.records_processed res <= Ingest.records_failed res) /\
  Ingest.unmatched_trace_ids r = Ingest.trace_ids_of (Ingest.errors res) /\
  length (Ingest.unmatched_trace_ids r) <= length (Ingest.errors res) /\
  Forall (fun t => t <> "") (Ingest.unmatched_trace_ids r).
Proof.
  intros Hp. unfold Ingest.ingest_settlement_feed. rewrite Hp.
  destruct (Ingest.run_reconciliation p bank (today (world s)) tenant
              (world s)) as [res w].
  cbn.
  destruct (trace_ids_bound (Ingest.errors res)) as [Hlen Hne].
  assert (Hnil : length (Ingest.errors res) = 0 <-> Ingest.errors res = []).
  { by destruct (Ingest.errors res). }
  split.
  { unfold Ingest.reconciliations. rewrite !omap_app.
    destruct (Common.emitting self); cbn; [|done].
    f_equal. rewrite map_app, omap_app. cbn. rewrite app_nil_r.
    by induction (Ingest.emit_settlements _ _ _ _ _ _ _). }
  repeat split; try done.
  all: repeat case_decide; try done; try tauto; try lia.
  all: try (intros _; split; [tauto | lia]).
  all: try (intros [? ?]; first [tauto | lia]).
Qed.

(** The [records] argument only feeds the events: the result and the world
    after the call do not depend on it.  With events on, the events are
    [ReconciliationStarted], one [SettlementReceived] per record of the
    argument, in order and with its trace id, direction, amount, currency
    and status, then [ReconciliationCompleted]; with events off there is
    none. *)
Theorem ingest_records_only_feed_the_events (self : Facade)
    (tenant bank : UUID) (provider_name : string)
    (records others : list Ingest.SettlementRecord) (s : Sys W) :
  let out :=
    Ingest.ingest_settlement_feed self tenant bank provider_name records s in
  let out' :=
    Ingest.ingest_settlement_feed self tenant bank provider_name others s in
  out.1.1 = out'.1.1 /\ world out.1.2 = world out'.1.2 /\
  Ingest.received out.2
  = (if bool_decide (is_Some (_providers self !! provider_name))
        && Common.emitting self
     then map (fun r => (Ingest.record_external_trace_id r,
                         Ingest.record_direction r, Ingest.record_amount r,
                         Ingest.record_currency r, Ingest.record_status r))
            records
     else []) /\
  length (Ingest.ingest_events out.2)
  = (if bool_decide (is_Some (_providers self !! provider_name))
        && Common.emitting self
     then length records + 2 else 0).
Proof.
  unfold Ingest.ingest_settlement_feed.
  destruct (_providers self !! provider_name) as [p|]; [|done].
  destruct (Ingest.run_reconciliation p bank (today (world s)) tenant
              (world s)) as [res w].
  cbn. split; [done|]. split; [done|].
  destruct (Common.emitting self); cbn; [|done].
  unfold Ingest.received, Ingest.ingest_events.
  rewrite !map_app, !omap_app. cbn.
  generalize (S (uuid_ix s)) as ix.
  induction records as [|r rest IH]; intros ix; [done|].
  cbn. destruct (IH (S ix)) as [IH1 IH2]. split.
  - rewrite app_nil_r in *. by rewrite IH1.
  - f_equal. exact IH2.
Qed.

End MoreIngest.

(** ** [register_provider] *)

Section MoreRegister.
Context {W : Type} `{Services W}.

(** After [register_provider(name, p)], payments executed on the rail
    [name] go to [p], also when another provider was registered under that
    name before: with a passing pay gate every item is created and
    submitted on [p]. *)
Theorem register_provider_then_execute (self : Facade) (name : string)
    (p : Provider) (tenant le batch fa : UUID) (its : list PayrollItem)
    (reservation : option UUID) (s : Sys W) :
  name <> "" ->
  passed (pay_gate_verdict tenant le batch (world s)) = true ->
  let self' := register_provider self name p in
  let out :=
    PSP.execute_payments self' tenant le batch fa its reservation (Some name)
      s in
  _providers self' !! name = Some p /\
  length (submit_results (trace_of out)) = length its /\
  exists body : list Call,
    paired p tenant body /\
    calls (trace_of out)
    = gate_call self' tenant le batch (world s) ++ body
      ++ release_call tenant reservation (value_of out).
Proof.
  intros Hname Hgate self' out.
  assert (Hp : _providers self' !! rail_used self' (Some name) = Some p).
  { unfold rail_used, or_str. rewrite decide_False by done.
    apply lookup_insert_eq. }
  split; [apply lookup_insert_eq|].
  destruct (execute_per_item self' _ _ sync_routes p tenant le batch fa its
              reservation (Some name) s Hp (fun _ => Hgate)) as (Hlen & _).
  destruct (execute_full self' _ _ sync_routes p tenant le batch fa its
              reservation (Some name) s Hp (fun _ => Hgate))
    as ((body & Hb & Hc) & _).
  split; [exact Hlen|]. by exists body.
Qed.

(** Registering a provider under another name changes nothing for this
    rail: [execute_payments] runs exactly as before. *)
Theorem register_other_rail_leaves_execute_unchanged (self : Facade)
    (name : string) (q : Provider) (tenant le batch fa : UUID)
    (its : list PayrollItem) (reservation : option UUID)
    (rail : option string) (s : Sys W) :
  name <> rail_used self rail ->
  PSP.execute_payments (register_provider self name q) tenant le batch fa its
    reservation rail s
  = PSP.execute_payments self tenant le batch fa its reservation rail s.
Proof.
  intros Hne.
  unfold PSP.execute_payments, Common.execute_payments, bind.
  cbn [_config register_provider _providers].
  fold (rail_used self rail). rewrite lookup_insert_ne by done.
  reflexivity.
Qed.

End MoreRegister.

Section MoreMetadata.
Context {W : Type} `{Services W}.

(** Every event [execute_payments] emits, in either facade, carries the
    tenant of the call, the correlation id the call returns, and the source
    "psp.facade". *)
Theorem execute_events_carry_correlation_id (self : Facade)
    (tenant le batch fa : UUID) (its : list PayrollItem)
    (reservation : option UUID) (rail : option string) (s : Sys W) :
  let sync :=
    PSP.execute_payments self tenant le batch fa its reservation rail s in
  let async :=
    AsyncPSP.execute_payments self tenant le batch fa its reservation rail s in
  Forall (fun e => event_metadata e
                   = {| meta_tenant_id := tenant;
                        meta_correlation_id :=
                          exec_correlation_id (value_of sync);
                        meta_source_service := "psp.facade" |})
    (events (trace_of sync)) /\
  Forall (fun e => event_metadata e
                   = {| meta_tenant_id := tenant;
                        meta_correlation_id :=
                          exec_correlation_id (value_of async);
                        meta_source_service := "psp.facade" |})
    (events (trace_of async)).
Proof.
  split.
  - exact (execute_metadata self _ _ sync_routes tenant le batch fa its
             reservation rail s).
  - exact (execute_metadata self _ _ async_routes tenant le batch fa its
             reservation rail s).
Qed.

End MoreMetadata.

(** ** The extra theorems on concrete runs *)

Section MoreRuns.
Import Stub Samples.

Lemma item_key_identifies_payee_and_purpose_witness :
  (payee_ref_id (item 10 400000 "employee_net") < 2 ^ 128)%N /\
  (payee_ref_id (item 10 999 "employee_net") < 2 ^ 128)%N /\
  item_key 7 (item 10 400000 "employee_net")
  = item_key 7 (item 10 999 "employee_net").
Proof.
  assert (H1 : (payee_ref_id (item 10 400000 "employee_net") < 2 ^ 128)%N)
    by reflexivity.
  assert (H2 : (payee_ref_id (item 10 999 "employee_net") < 2 ^ 128)%N)
    by reflexivity.
  split; [exact H1|]. split; [exact H2|].
  apply (item_key_identifies_payee_and_purpose 7
           (item 10 400000 "employee_net") (item 10 999 "employee_net") H1 H2).
  split; reflexivity.
Defined.

Lemma execute_without_provider_fails_whole_batch_witness :
  _providers bare !! rail_used bare None = None /\
  exec_status
    (value_of (PSP.execute_payments bare 1 2 7 4 two_items (Some 1%N) None
                 (start (world0 gate_ok gate_ok))))
  = EXEC_FAILED /\
  failed_count
    (value_of (PSP.execute_payments bare 1 2 7 4 two_items (Some 1%N) None
                 (start (world0 gate_ok gate_ok))))
  = 2 /\
  failures
    (value_of (PSP.execute_payments bare 1 2 7 4 two_items (Some 1%N) None
                 (start (world0 gate_ok gate_ok))))
  = [BatchFailure "No provider registered for rail: ach"].
Proof.
  assert (Hp : _providers bare !! rail_used bare None = None) by reflexivity.
  split; [exact Hp|].
  destruct (execute_without_provider_fails_whole_batch bare 1 2 7 4 two_items
              (Some 1%N) None (start (world0 gate_ok gate_ok)) Hp)
    as (_ & _ & _ & Hst & _ & Hf & Hfs).
  split; [exact Hst|]. split; [exact Hf | exact Hfs].
Defined.

Lemma execute_blocked_reports_gate_reasons_witness :
  is_Some (_providers wired !! rail_used wired None) /\
  pay_gate_always_enforced (_config wired) = true /\
  passed (pay_gate_verdict 1 2 7 (world (start (world0 gate_ok gate_policy))))
  = false /\
  failures
    (value_of (PSP.execute_payments wired 1 2 7 4 two_items None None
                 (start (world0 gate_ok gate_policy))))
  = [BatchFailure "No approved commit gate for this pay run"].
Proof.
  assert (Hp : is_Some (_providers wired !! rail_used wired None))
    by (exists ach; reflexivity).
  assert (Hflag : pay_gate_always_enforced (_config wired) = true)
    by reflexivity.
  assert (Hg : passed (pay_gate_verdict 1 2 7
                         (world (start (world0 gate_ok gate_policy)))) = false)
    by reflexivity.
  split; [exact Hp|]. split; [exact Hflag|]. split; [exact Hg|].
  destruct (execute_blocked_reports_gate_reasons wired 1 2 7 4 two_items None
              None (start (world0 gate_ok gate_policy)) Hp Hflag Hg)
    as (_ & _ & Hfs).
  exact Hfs.
Defined.

Lemma execute_payments_emits_two_events_per_item_witness :
  _providers wired !! rail_used wired None = Some ach /\
  passed (pay_gate_verdict 1 2 7 (world (start (world0 gate_ok gate_ok))))
  = true /\
  created_items
    (trace_of (PSP.execute_payments wired 1 2 7 4
                 [item 10 400000 "employee_net"; item 11 0 "bonus"] None None
                 (start (world0 gate_ok gate_ok))))
  = [("employee_net", 400000%Z, "employee", 10%N);
     ("bonus", 0%Z, "employee", 11%N)].
Proof.
  assert (Hp : _providers wired !! rail_used wired None = Some ach)
    by reflexivity.
  assert (Hg : passed (pay_gate_verdict 1 2 7
                         (world (start (world0 gate_ok gate_ok)))) = true)
    by reflexivity.
  split; [exact Hp|]. split; [exact Hg|].
  destruct (execute_payments_emits_two_events_per_item wired ach 1 2 7 4
              [item 10 400000 "employee_net"; item 11 0 "bonus"] None None
              (start (world0 gate_ok gate_ok)) Hp Hg)
    as ((_ & Hcreated) & _).
  exact Hcreated.
Defined.

Lemma execute_payments_calls_are_paired_witness :
  _providers wired !! rail_used wired None = Some ach /\
  passed (pay_gate_verdict 1 2 7 (world (start (world0 gate_ok gate_ok))))
  = true /\
  exists body : list Call,
    paired ach 1 body /\
    length body = 4 /\
    calls
      (trace_of (PSP.execute_payments wired 1 2 7 4 two_items (Some 1%N) None
                   (start (world0 gate_ok gate_ok))))
    = gate_call wired 1 2 7 (world (start (world0 gate_ok gate_ok))) ++ body
      ++ release_call 1 (Some 1%N)
           (value_of (PSP.execute_payments wired 1 2 7 4 two_items (Some 1%N)
                        None (start (world0 gate_ok gate_ok)))).
Proof.
  assert (Hp : _providers wired !! rail_used wired None = Some ach)
    by reflexivity.
  assert (Hg : passed (pay_gate_verdict 1 2 7
                         (world (start (world0 gate_ok gate_ok)))) = true)
    by reflexivity.
  split; [exact Hp|]. split; [exact Hg|].
  destruct (execute_payments_calls_are_paired wired ach 1 2 7 4 two_items
              (Some 1%N) None (start (world0 gate_ok gate_ok)) Hp Hg)
    as [_ Hbody].
  exact Hbody.
Defined.

Lemma execute_empty_batch_consumes_reservation_witness :
  _providers wired !! rail_used wired None = Some ach /\
  passed (pay_gate_verdict 1 2 7 (world (start (world0 gate_ok gate_ok))))
  = true /\
  exec_status
    (value_of (PSP.execute_payments wired 1 2 7 4 [] (Some 1%N) None
                 (start (world0 gate_ok gate_ok))))
  = EXEC_SUCCESS /\
  releases
    (trace_of (PSP.execute_payments wired 1 2 7 4 [] (Some 1%N) None
                 (start (world0 gate_ok gate_ok))))
  = [(1%N, 1%N, true)].
Proof.
  assert (Hp : _providers wired !! rail_used wired None = Some ach)
    by reflexivity.
  assert (Hg : passed (pay_gate_verdict 1 2 7
                         (world (start (world0 gate_ok gate_ok)))) = true)
    by reflexivity.
  split; [exact Hp|]. split; [exact Hg|].
  destruct (execute_empty_batch_consumes_reservation wired ach 1 2 7 4 1 None
              (start (world0 gate_ok gate_ok)) Hp Hg)
    as (Hst & _ & _ & _ & _ & Hrel & _).
  split; [exact Hst | exact Hrel].
Defined.

Lemma callback_return_classifies_then_updates_witness :
  _providers wired !! "ach" = Some ach /\
  reference returned_payload = Some "req-1" /\
  find_instruction_row 1 "req-1" (world (start world_settled))
  = Some {| row_instruction_id := 1; row_status := "settled";
            row_amount := 100000; row_legal_entity_id := 2;
            row_purpose := "employee_net" |} /\
  map kind_of
    (events
       (trace_of (PSP.handle_provider_callback wired 1 "ach" "settlement"
                    returned_payload (start world_settled))))
  = [KPaymentReturned; KLiabilityClassified] /\
  callback_status
    (value_of (PSP.handle_provider_callback wired 1 "ach" "settlement"
                 returned_payload (start world_settled)))
  = PROCESSED.
Proof.
  assert (Hp : _providers wired !! "ach" = Some ach) by reflexivity.
  assert (Hq : reference returned_payload = Some "req-1") by reflexivity.
  assert (Hrow : find_instruction_row 1 "req-1" (world (start world_settled))
                 = Some {| row_instruction_id := 1; row_status := "settled";
                           row_amount := 100000; row_legal_entity_id := 2;
                           row_purpose := "employee_net" |})
    by reflexivity.
  split; [exact Hp|]. split; [exact Hq|]. split; [exact Hrow|].
  assert (Hne : Some "settled" <> Some "returned") by discriminate.
  destruct (callback_return_classifies_then_updates wired ach 1 "ach"
              "settlement" "req-1" returned_payload _ (start world_settled)
              Hp Hq Hrow Hne (or_intror eq_refl))
    as (_ & Hk & Hst).
  split; [exact Hk | exact Hst].
Defined.

Lemma callback_plain_update_emits_nothing_witness :
  _providers wired !! "ach" = Some ach /\
  reference accepted_payload = Some "req-1" /\
  find_instruction_row 1 "req-1" (world (start world_submitted))
  = Some {| row_instruction_id := 1; row_status := "submitted";
            row_amount := 100000; row_legal_entity_id := 2;
            row_purpose := "employee_net" |} /\
  events
    (trace_of (PSP.handle_provider_callback wired 1 "ach" "status_update"
                 accepted_payload (start world_submitted)))
  = [] /\
  callback_status
    (value_of (PSP.handle_provider_callback wired 1 "ach" "status_update"
                 accepted_payload (start world_submitted)))
  = PROCESSED.
Proof.
  assert (Hp : _providers wired !! "ach" = Some ach) by reflexivity.
  assert (Hq : reference accepted_payload = Some "req-1") by reflexivity.
  assert (Hrow : find_instruction_row 1 "req-1" (world (start world_submitted))
                 = Some {| row_instruction_id := 1; row_status := "submitted";
                           row_amount := 100000; row_legal_entity_id := 2;
                           row_purpose := "employee_net" |})
    by reflexivity.
  split; [exact Hp|]. split; [exact Hq|]. split; [exact Hrow|].
  assert (H0 : Some "submitted" <> Some "accepted") by discriminate.
  assert (H1 : "status_update" <> "return") by discriminate.
  assert (H2 : "status_update" <> "settlement") by discriminate.
  assert (H3 : Some "accepted" <> Some "returned") by discriminate.
  assert (H4 : Some "accepted" <> Some "settled") by discriminate.
  destruct (callback_plain_update_emits_nothing wired ach 1 "ach"
              "status_update" "req-1" accepted_payload _
              (start world_submitted) Hp Hq Hrow H0 H1 H2 H3 H4)
    as (Ht & Hst).
  split; [by rewrite Ht | exact Hst].
Defined.

Lemma ingest_without_provider_does_nothing_witness :
  _providers bare !! "ach" = None /\
  Ingest.ingest_status
    (Ingest.ingest_settlement_feed bare 1 5 "ach" [record "req-1" 100000]
       (start world_settled)).1.1
  = Ingest.INGEST_FAILED /\
  (Ingest.ingest_settlement_feed bare 1 5 "ach" [record "req-1" 100000]
     (start world_settled)).2
  = [].
Proof.
  assert (Hp : _providers bare !! "ach" = None) by reflexivity.
  split; [exact Hp|].
  destruct (ingest_without_provider_does_nothing bare 1 5 "ach"
              [record "req-1" 100000] (start world_settled) Hp)
    as (Ht & _ & Hst & _).
  split; [exact Hst | exact Ht].
Defined.

Lemma ingest_status_follows_reconciliation_witness :
  _providers wired !! "ach" = Some ach /\
  Ingest.ingest_status
    (Ingest.ingest_settlement_feed wired 1 5 "ach" [] (start world_unmatched)).1.1
  = Ingest.INGEST_PARTIAL /\
  Ingest.unmatched_trace_ids
    (Ingest.ingest_settlement_feed wired 1 5 "ach" [] (start world_unmatched)).1.1
  = ["req-9"].
Proof.
  assert (Hp : _providers wired !! "ach" = Some ach) by reflexivity.
  split; [exact Hp|].
  destruct (ingest_status_follows_reconciliation wired ach 1 5 "ach" []
              (start world_unmatched) Hp)
    as (_ & _ & _ & _ & _ & _ & Hpartial & _ & Hu & _).
  split; [|exact Hu].
  apply Hpartial. split; [|vm_compute; lia].
  intros [_ Herr]. vm_compute in Herr. discriminate.
Defined.

Lemma register_provider_then_execute_witness :
  "wire" <> "" /\
  passed (pay_gate_verdict 1 2 7 (world (start (world0 gate_ok gate_ok))))
  = true /\
  _providers (register_provider bare "wire" ach) !! "wire" = Some ach /\
  length
    (submit_results
       (trace_of (PSP.execute_payments (register_provider bare "wire" ach)
                    1 2 7 4 two_items None (Some "wire")
                    (start (world0 gate_ok gate_ok)))))
  = 2.
Proof.
  assert (Hn : "wire" <> "") by discriminate.
  assert (Hg : passed (pay_gate_verdict 1 2 7
                         (world (start (world0 gate_ok gate_ok)))) = true)
    by reflexivity.
  split; [exact Hn|]. split; [exact Hg|].
  destruct (register_provider_then_execute bare "wire" ach 1 2 7 4 two_items
              None (start (world0 gate_ok gate_ok)) Hn Hg)
    as (Hl & Hlen & _).
  split; [exact Hl | exact Hlen].
Defined.

Lemma register_other_rail_leaves_execute_unchanged_witness :
  "wire" <> rail_used wired None /\
  PSP.execute_payments (register_provider wired "wire" ach) 1 2 7 4 two_items
    None None (start (world0 gate_ok gate_ok))
  = PSP.execute_payments wired 1 2 7 4 two_items None None
      (start (world0 gate_ok gate_ok)).
Proof.
  assert (Hn : "wire" <> rail_used wired None) by discriminate.
  split; [exact Hn|].
  exact (register_other_rail_leaves_execute_unchanged wired "wire" ach 1 2 7 4
           two_items None None (start (world0 gate_ok gate_ok)) Hn).
Defined.

Lemma insufficient_is_case_insensitive_witness :
  Forall (fun r : Reason =>
            Str.is_ascii (default "" (r !! "code")) = true /\
            Str.is_ascii (default "" (r !! "message")) = true)
    (reasons gate_insufficient) /\
  _reasons_contain_insufficient
    (map (fun r : Reason =>
            alter Str.lower "code" (alter Str.lower "message" r))
       (reasons gate_insufficient))
  = _reasons_contain_insufficient (reasons gate_insufficient).
Proof.
  assert (Hascii :
    Forall (fun r : Reason =>
              Str.is_ascii (default "" (r !! "code")) = true /\
              Str.is_ascii (default "" (r !! "message")) = true)
      (reasons gate_insufficient)).
  { repeat constructor. }
  split; [exact Hascii|].
  destruct (insufficient_is_case_insensitive (reasons gate_insufficient)
              Hascii) as [_ Hlower].
  exact Hlower.
Defined.

(** A callback whose payload holds ["status": null], for an instruction that
    is [submitted]: the status asked for is [None], which is not the status
    of the instruction; the facade hands [None] to the orchestrator and
    answers [processed], with no new status. *)
Lemma null_status_callback_run :
  requested_status
    {| row_instruction_id := 1; row_status := "submitted";
       row_amount := 100000; row_legal_entity_id := 2;
       row_purpose := "employee_net" |} null_payload
  = None /\
  callback_status
    (value_of (PSP.handle_provider_callback wired 1 "ach" "status_update"
                 null_payload (start world_submitted)))
  = PROCESSED /\
  new_status
    (value_of (PSP.handle_provider_callback wired 1 "ach" "status_update"
                 null_payload (start world_submitted)))
  = None /\
  status_updates
    (trace_of (PSP.handle_provider_callback wired 1 "ach" "status_update"
                 null_payload (start world_submitted)))
  = [(1%N, None)].
Proof. vm_compute. repeat split. Qed.

(** The reservation on the ledger of the in-memory world.  The batch of the
    spec is committed: reservation 1 is [held].  Executing its two payments
    consumes it; executing a batch whose second payment is rejected leaves
    it [held]. *)
Lemma reservation_on_the_ledger_run :
  reservations
    (world (sys_of (PSP.commit_payroll_batch wired (batch two_items)
                      (start (world0 gate_ok gate_ok)))))
  = [(1%N, 500000%Z, "held")] /\
  reservations
    (world (sys_of (PSP.execute_payments wired 1 2 7 4 two_items (Some 1%N)
                      None
                      (sys_of (PSP.commit_payroll_batch wired
                                 (batch two_items)
                                 (start (world0 gate_ok gate_ok)))))))
  = [(1%N, 500000%Z, "consumed")] /\
  reservations
    (world (sys_of (PSP.execute_payments wired 1 2 7 4
                      [item 10 400000 "employee_net";
                       item 11 0 "employee_net"] (Some 1%N) None
                      (sys_of (PSP.commit_payroll_batch wired
                                 (batch two_items)
                                 (start (world0 gate_ok gate_ok)))))))
  = [(1%N, 500000%Z, "held")] /\
  reservations
    (world (sys_of (AsyncPSP.execute_payments wired 1 2 7 4 two_items
                      (Some 1%N) None
                      (sys_of (PSP.commit_payroll_batch wired
                                 (batch two_items)
                                 (start (world0 gate_ok gate_ok)))))))
  = [(1%N, 500000%Z, "consumed")].
Proof. vm_compute. repeat split. Qed.

End MoreRuns.
